(** * Online-Banking-System: the ledger of [app.py] and [online-banking-system.py]

    A shallow embedding of the two front-ends over the shared SQLite file
    [bank.db], and the properties of the ledger operations.

    Conventions of the embedding.
    - A Python float is a binary64 value, with its rounding, its infinities
      and its NaN: Rocq's primitive [float].  [float(x)] on an amount that
      was already parsed is the identity.
    - A [REAL] column holds [NULL] or a binary64 value; SQLite keeps a NaN
      as [NULL] and -0.0 as 0.0; Python reads [NULL] as [None].
    - [TEXT] columns are [string]; a nullable [TEXT] column is an [option].
    - A table is the list of its rows in rowid order (oldest first).
    - The wall clock is an argument [now : Q] (seconds since the epoch) of
      every operation that reads it; [CURRENT_TIMESTAMP] is that clock at
      one-second resolution.
    - [print] and [flash] produce values of an inductive type with one
      constructor per message of the source; a float in a message stands
      for its text under the format of the source ([{:.2f}], [{:,.2f}] or
      [str]). *)

From Stdlib Require Import List String Ascii Bool ZArith QArith Qround Lqa Lia.
From Stdlib Require Import Permutation Sorted DecimalString Floats.
Import ListNotations.

(* A decimal literal denotes the nearest binary64 value, as in Python. *)
#[local] Set Warnings "-inexact-float".

Local Open Scope string_scope.
Local Open Scope Q_scope.

(** ** Numbers *)

(** Python's [x > y] and [x <= y] on floats: both are [False] when an
    operand is NaN. *)
Definition float_gt (x y : float) : bool := (y <? x)%float.
Definition float_le (x y : float) : bool := (x <=? y)%float.

(** The rational number that a binary64 value is, when it is finite. *)
Definition exact (x : float) : option Q :=
  match Prim2SF x with
  | S754_zero _ => Some 0
  | S754_finite s m e => Some (inject_Z (cond_Zopp s (Zpos m)) * 2 ^ e)
  | S754_infinity _ | S754_nan => None
  end.

(** Python's [x > y] on the clock. *)
Definition Qgtb (x y : Q) : bool := negb (Qle_bool x y).

(** Python's [int(x)] on the clock: truncation towards zero. *)
Definition int_of_float (x : Q) : Z := Z.quot (Qnum x) (Zpos (Qden x)).

(** Python's [str(n)] on an integer. *)
Definition str (n : Z) : string := NilZero.string_of_int (Z.to_int n).

(** Python's [s[-n:]] for [n > 0]: the last [n] characters, all of [s] when
    it is shorter. *)
Definition last_chars (n : nat) (s : string) : string :=
  substring (String.length s - n) n s.

(** ** The persistent store *)

Module Sqlite.

(** A value of a [REAL] column, and what Python reads from it: [NULL]
    ([None] in Python) or a float. *)
Inductive real : Type :=
| NULL
| REAL (x : float).

(** A Python float bound to a parameter of a statement, and the result of
    an operation of SQL: SQLite turns a NaN into [NULL]. *)
Definition bind (x : float) : real := if is_nan x then NULL else REAL x.

(** What a [REAL] column keeps of a value that is written to it: SQLite
    writes a float that is an integer as that integer and reads it back as
    a float, so that -0.0 comes back as 0.0. *)
Definition keep (v : real) : real :=
  match v with
  | REAL x => if is_zero x then REAL 0 else REAL x
  | NULL => NULL
  end.

(** A Python float written to a [REAL] column. *)
Definition store (x : float) : real := keep (bind x).

(** [a + b] and [a - b] of SQL on [REAL] values: [NULL] when an operand is
    [NULL]. *)
Definition plus (a b : real) : real :=
  match a, b with
  | REAL x, REAL y => bind (x + y)
  | _, _ => NULL
  end.

Definition minus (a b : real) : real :=
  match a, b with
  | REAL x, REAL y => bind (x - y)
  | _, _ => NULL
  end.

(** [accounts(account_number TEXT PRIMARY KEY, name TEXT NOT NULL,
    balance REAL)] *)
Record account_row : Type := mk_account {
  account_number : string;
  name : string;
  balance : real
}.

(** [users(username TEXT PRIMARY KEY, account_number TEXT UNIQUE,
    password_hash TEXT NOT NULL)] *)
Record user_row : Type := mk_user {
  username : string;
  user_account_number : string;
  password_hash : string
}.

(** [transactions(id INTEGER PRIMARY KEY AUTOINCREMENT, account_number
    TEXT, type TEXT, amount REAL, related_account TEXT, timestamp DATETIME
    DEFAULT CURRENT_TIMESTAMP)] *)
Record transaction_row : Type := mk_transaction {
  id : Z;
  txn_account_number : string;
  type : string;
  amount : real;
  related_account : option string;
  timestamp : Z
}.

(** The three tables, and the [sqlite_sequence] counter that
    [AUTOINCREMENT] keeps for [transactions]. *)
Record database : Type := mk_database {
  accounts : list account_row;
  users : list user_row;
  transactions : list transaction_row;
  sqlite_sequence : Z
}.

Definition empty : database := mk_database [] [] [] 0.

(** [CURRENT_TIMESTAMP]: the clock at one-second resolution. *)
Definition CURRENT_TIMESTAMP (now : Q) : Z := Qfloor now.

(** *** Queries *)

(** [SELECT ... FROM users WHERE username = ?] then [fetchone()]. *)
Definition select_user (d : database) (u : string) : option user_row :=
  find (fun r => String.eqb (username r) u) (users d).

(** [SELECT ... FROM accounts WHERE account_number = ?] then
    [fetchone()]. *)
Definition select_account (d : database) (a : string) : option account_row :=
  find (fun r => String.eqb (account_number r) a) (accounts d).

(** Insertion of one row into a list sorted newest first; a row goes
    behind the rows of equal timestamp that were scanned before it. *)
Fixpoint sorter_insert (r : transaction_row) (l : list transaction_row)
  : list transaction_row :=
  match l with
  | [] => [r]
  | x :: l' =>
      if (timestamp x <? timestamp r)%Z then r :: l
      else x :: sorter_insert r l'
  end.

(** [ORDER BY timestamp DESC] over rows scanned in rowid order.  The
    statement names no second key; SQLite sorts a query with a [LIMIT] on
    the key (timestamp, scan sequence), so rows of equal timestamp come
    out in scan order. *)
Definition order_by_timestamp_desc (l : list transaction_row)
  : list transaction_row :=
  fold_left (fun acc r => sorter_insert r acc) l [].

(** [SELECT ... FROM transactions WHERE account_number = ? ORDER BY
    timestamp DESC LIMIT n] then [fetchall()]. *)
Definition select_history (d : database) (a : string) (n : nat)
  : list transaction_row :=
  firstn n (order_by_timestamp_desc
              (filter (fun r => String.eqb (txn_account_number r) a)
                      (transactions d))).

(** *** Statements that write *)

Inductive sqlite_error : Type :=
| IntegrityError    (* a PRIMARY KEY or UNIQUE constraint failed *)
| OperationalError. (* cannot start a transaction within a transaction *)

(** [INSERT INTO accounts VALUES (?, ?, ?)] *)
Definition insert_account (a n : string) (b : float) (d : database)
  : database + sqlite_error :=
  match select_account d a with
  | Some _ => inr IntegrityError
  | None =>
      inl (mk_database (accounts d ++ [mk_account a n (store b)]) (users d)
                       (transactions d) (sqlite_sequence d))
  end.

(** [INSERT INTO users VALUES (?, ?, ?)] *)
Definition insert_user (u a h : string) (d : database)
  : database + sqlite_error :=
  if existsb (fun r => String.eqb (username r) u
                       || String.eqb (user_account_number r) a) (users d)
  then inr IntegrityError
  else inl (mk_database (accounts d) (users d ++ [mk_user u a h])
                        (transactions d) (sqlite_sequence d)).

(** [UPDATE accounts SET balance = balance + ? WHERE account_number = ?];
    the debit is the same statement with [-]. *)
Definition set_balance (f : real -> real) (a : string) (r : account_row)
  : account_row :=
  if String.eqb (account_number r) a
  then mk_account (account_number r) (name r) (f (balance r))
  else r.

Definition update_balance_plus (x : float) (a : string) (d : database)
  : database :=
  mk_database
    (map (set_balance (fun b => keep (plus b (bind x))) a) (accounts d))
    (users d) (transactions d) (sqlite_sequence d).

Definition update_balance_minus (x : float) (a : string) (d : database)
  : database :=
  mk_database
    (map (set_balance (fun b => keep (minus b (bind x))) a) (accounts d))
    (users d) (transactions d) (sqlite_sequence d).

(** [INSERT INTO transactions (account_number, type, amount
    [, related_account]) VALUES ...]: the id is the next value of the
    sequence and the timestamp is the column default. *)
Definition insert_transaction (now : Q) (a ty : string) (x : float)
    (rel : option string) (d : database) : database :=
  let i := (sqlite_sequence d + 1)%Z in
  mk_database (accounts d) (users d)
              (transactions d
                 ++ [mk_transaction i a ty (store x) rel
                                    (CURRENT_TIMESTAMP now)])
              i.

(** [DELETE FROM transactions | users | accounts WHERE account_number =
    ?] *)
Definition delete_transactions (a : string) (d : database) : database :=
  mk_database (accounts d) (users d)
    (filter (fun r => negb (String.eqb (txn_account_number r) a))
            (transactions d))
    (sqlite_sequence d).

Definition delete_users (a : string) (d : database) : database :=
  mk_database (accounts d)
    (filter (fun r => negb (String.eqb (user_account_number r) a))
            (users d))
    (transactions d) (sqlite_sequence d).

Definition delete_accounts (a : string) (d : database) : database :=
  mk_database
    (filter (fun r => negb (String.eqb (account_number r) a)) (accounts d))
    (users d) (transactions d) (sqlite_sequence d).

(** *** Connections

    [file] is what is committed in [bank.db]; [pending] is the view of the
    transaction that is open on the connection, if one is.  Python's
    [sqlite3] opens a transaction before the first [INSERT], [UPDATE] or
    [DELETE] and keeps it open until [commit] or [rollback], also when the
    statement itself fails. *)
Record connection : Type := mk_connection {
  file : database;
  pending : option database
}.

(** [sqlite3.connect("bank.db")] *)
Definition connect (f : database) : connection := mk_connection f None.

Definition view (c : connection) : database :=
  match pending c with Some d => d | None => file c end.

Definition in_transaction (c : connection) : bool :=
  match pending c with Some _ => true | None => false end.

(** A writing statement that cannot fail. *)
Definition execute (f : database -> database) (c : connection)
  : connection :=
  mk_connection (file c) (Some (f (view c))).

(** A writing statement that can fail on a constraint: the transaction is
    open in both cases, the failed statement leaves no row. *)
Definition try_execute (f : database -> database + sqlite_error)
    (c : connection) : connection * option sqlite_error :=
  match f (view c) with
  | inl d => (mk_connection (file c) (Some d), None)
  | inr e => (mk_connection (file c) (Some (view c)), Some e)
  end.

(** [conn.execute("BEGIN TRANSACTION")] *)
Definition begin_transaction (c : connection)
  : connection * option sqlite_error :=
  if in_transaction c then (c, Some OperationalError)
  else (mk_connection (file c) (Some (file c)), None).

Definition commit (c : connection) : connection :=
  mk_connection (view c) None.

Definition rollback (c : connection) : connection :=
  mk_connection (file c) None.

(** [conn.close()]: what was not committed is lost. *)
Definition close (c : connection) : database := file c.

(** *** Derived readings used in the statements of the properties *)

(** The balance column of an account, if the account exists. *)
Definition balance_of (d : database) (a : string) : option real :=
  option_map balance (select_account d a).

(** *** The schema's constraints and the ledger's invariants *)

(** The constraints of the schema: [PRIMARY KEY] on
    [accounts.account_number] and [users.username], [UNIQUE] on
    [users.account_number]. *)
Record constraints (d : database) : Prop := mk_constraints {
  accounts_pk : NoDup (map account_number (accounts d));
  users_pk : NoDup (map username (users d));
  users_unique : NoDup (map user_account_number (users d))
}.

(** Every user row points to an account row. *)
Definition users_have_accounts (d : database) : Prop :=
  forall u, In u (users d) -> select_account d (user_account_number u) <> None.

(** A balance that is a number and not below zero. *)
Definition nonnegative (b : real) : Prop :=
  match b with
  | REAL x => (0 <=? x)%float = true
  | NULL => False
  end.

(** No account has a negative balance. *)
Definition balances_nonnegative (d : database) : Prop :=
  Forall (fun r => nonnegative (balance r)) (accounts d).

End Sqlite.

(** ** Python exceptions that the two programs can raise *)

Inductive exception : Type :=
| TypeError   (* [None[...]] on a row that [fetchone()] did not find, and
                 [x > None], [None + x] or [f"{None:.2f}"] on a balance or
                 an amount that is [NULL] *)
| KeyError    (* a key that the [current_user] dict does not have *)
| sqlite3_Error (e : Sqlite.sqlite_error).

(** [hashlib.sha256(s.encode()).hexdigest()] is a function of the program's
    environment; nothing but its being a function is used. *)
Section Hash.

Variable sha256_hexdigest : string -> string.

(** The row pair that both [initialize_database] functions insert. *)
Definition sample_data : Sqlite.database :=
  Sqlite.mk_database
    [Sqlite.mk_account "1234567890" "Test User" (Sqlite.REAL 10000)]
    [Sqlite.mk_user "test" "1234567890" (sha256_hexdigest "test123")]
    [] 0.

End Hash.

(** ** The web front-end, [app.py] *)

Module App.

Import Sqlite.

(** The keys that [login] puts in Flask's [session]. *)
Record identity : Type := mk_identity {
  session_username : string;
  session_account_number : string
}.

(** [session]: [None] when ['username' not in session]. *)
Definition session : Type := option identity.

Inductive http_method : Type := GET | POST.

(** One constructor per [flash(...)] of the source. *)
Inductive message : Type :=
| Login_successful                   (* 'Login successful!' *)
| Invalid_username_or_password       (* 'Invalid username or password' *)
| Username_already_exists            (* 'Username already exists' *)
| Registration_successful (account_number : string)
| Deposit_amount_must_be_positive    (* 'Deposit amount must be positive' *)
| Successfully_deposited (amount : float)
| Withdrawal_amount_must_be_positive
| Insufficient_funds                 (* 'Insufficient funds' *)
| Successfully_withdrew (amount : float)
| Cannot_transfer_to_your_own_account
| Recipient_account_not_found
| Successfully_transferred (amount : float) (to_account : string)
| Transfer_failed
| You_have_been_logged_out.

(** [render_dashboard] is the call [render_template('dashboard.html',
    account=..., transactions=...)] with its two arguments; what Jinja
    makes of the template is not part of the embedding. *)
Inductive response : Type :=
| redirect (endpoint : string)       (* [redirect(url_for(endpoint))] *)
| render_template (template : string)
| render_dashboard (account : option account_row)
                   (transactions : list transaction_row)
| internal_server_error (e : exception). (* an exception left the view *)

(** What a request leaves behind: the committed file, the session, the
    response and the messages it flashed. *)
Record result : Type := mk_result {
  db : database;
  sess : session;
  resp : response;
  flashed : list message
}.

Section Views.

Variable sha256_hexdigest : string -> string.

Definition hash_password (password : string) : string :=
  sha256_hexdigest password.

(** [initialize_database()]: the three tables are dropped and created
    again, then the sample rows are inserted. *)
Definition initialize_database (_ : database) : database :=
  sample_data sha256_hexdigest.

(** [/login] *)
Definition login (m : http_method) (username password : string)
    (f : database) (s : session) : result :=
  match m with
  | POST =>
      match select_user (view (connect f)) username with
      | Some user =>
          if String.eqb (password_hash user) (hash_password password)
          then mk_result f
                 (Some (mk_identity (Sqlite.username user)
                                    (user_account_number user)))
                 (redirect "dashboard") [Login_successful]
          else mk_result f s (render_template "login.html")
                         [Invalid_username_or_password]
      | None => mk_result f s (render_template "login.html")
                          [Invalid_username_or_password]
      end
  | GET => mk_result f s (render_template "login.html") []
  end.

(** [/register] *)
Definition register (m : http_method) (now : Q)
    (username password name : string) (initial_deposit : float)
    (f : database) (s : session) : result :=
  match m with
  | POST =>
      let conn := connect f in
      match select_user (view conn) username with
      | Some _ =>
          mk_result (close conn) s (redirect "register")
                    [Username_already_exists]
      | None =>
          let account_number := last_chars 10 (str (int_of_float now)) in
          match try_execute
                  (insert_account account_number name initial_deposit)
                  conn with
          | (conn, Some e) =>
              mk_result (close conn) s
                        (internal_server_error (sqlite3_Error e)) []
          | (conn, None) =>
              match try_execute
                      (insert_user username account_number
                                   (hash_password password)) conn with
              | (conn, Some e) =>
                  mk_result (close conn) s
                            (internal_server_error (sqlite3_Error e)) []
              | (conn, None) =>
                  let conn := commit conn in
                  mk_result (close conn) s (redirect "login")
                            [Registration_successful account_number]
              end
          end
      end
  | GET => mk_result f s (render_template "register.html") []
  end.

End Views.

(** The [LIMIT] of the dashboard's query. *)
Definition dashboard_limit : nat := 5.

(** [/dashboard] *)
Definition dashboard (f : database) (s : session) : result :=
  match s with
  | None => mk_result f s (redirect "login") []
  | Some i =>
      let conn := connect f in
      let account := select_account (view conn) (session_account_number i) in
      let transactions :=
        select_history (view conn) (session_account_number i)
                       dashboard_limit in
      mk_result (close conn) s (render_dashboard account transactions) []
  end.

(** [/deposit] *)
Definition deposit (now : Q) (amount : float) (f : database) (s : session)
  : result :=
  match s with
  | None => mk_result f s (redirect "login") []
  | Some i =>
      if float_le amount 0
      then mk_result f s (redirect "dashboard")
                     [Deposit_amount_must_be_positive]
      else
        let conn := connect f in
        let conn :=
          execute (update_balance_plus amount (session_account_number i))
                  conn in
        let conn :=
          execute (insert_transaction now (session_account_number i)
                                      "Deposit" amount None) conn in
        let conn := commit conn in
        mk_result (close conn) s (redirect "dashboard")
                  [Successfully_deposited amount]
  end.

(** [/withdraw].  [amount > account['balance']] raises [TypeError] when
    no row was found and when the balance of the row is [None]. *)
Definition withdraw (now : Q) (amount : float) (f : database) (s : session)
  : result :=
  match s with
  | None => mk_result f s (redirect "login") []
  | Some i =>
      let conn := connect f in
      let account := select_account (view conn) (session_account_number i) in
      if float_le amount 0
      then mk_result (close conn) s (redirect "dashboard")
                     [Withdrawal_amount_must_be_positive]
      else
        match option_map balance account with
        | None | Some NULL =>
            mk_result (close conn) s (internal_server_error TypeError) []
        | Some (REAL balance) =>
            if float_gt amount balance
            then mk_result (close conn) s (redirect "dashboard")
                           [Insufficient_funds]
            else
              let conn :=
                execute (update_balance_minus amount
                           (session_account_number i)) conn in
              let conn :=
                execute (insert_transaction now (session_account_number i)
                           "Withdrawal" amount None) conn in
              let conn := commit conn in
              mk_result (close conn) s (redirect "dashboard")
                        [Successfully_withdrew amount]
        end
  end.

(** [/transfer].  [amount > sender_balance] raises [TypeError] when the
    balance of the sender is [None].  No statement of the [try] block can
    fail in this model of the store, so its [except] branch (rollback,
    'Transfer failed') is not reached. *)
Definition transfer (now : Q) (to_account : string) (amount : float)
    (f : database) (s : session) : result :=
  match s with
  | None => mk_result f s (redirect "login") []
  | Some i =>
      if String.eqb to_account (session_account_number i)
      then mk_result f s (redirect "dashboard")
                     [Cannot_transfer_to_your_own_account]
      else
        let conn := connect f in
        match select_account (view conn) to_account with
        | None => mk_result (close conn) s (redirect "dashboard")
                            [Recipient_account_not_found]
        | Some _ =>
            match option_map balance
                    (select_account (view conn) (session_account_number i))
            with
            | None | Some NULL =>
                mk_result (close conn) s (internal_server_error TypeError) []
            | Some (REAL sender_balance) =>
                if float_gt amount sender_balance
                then mk_result (close conn) s (redirect "dashboard")
                               [Insufficient_funds]
                else
                  let conn :=
                    execute (update_balance_minus amount
                               (session_account_number i)) conn in
                  let conn :=
                    execute (update_balance_plus amount to_account) conn in
                  let conn :=
                    execute (insert_transaction now
                               (session_account_number i) "Transfer Sent"
                               amount (Some to_account)) conn in
                  let conn :=
                    execute (insert_transaction now to_account
                               "Transfer Received" amount
                               (Some (session_account_number i))) conn in
                  let conn := commit conn in
                  mk_result (close conn) s (redirect "dashboard")
                            [Successfully_transferred amount to_account]
            end
        end
  end.

(** [/logout] *)
Definition logout (f : database) (s : session) : result :=
  mk_result f None (redirect "home") [You_have_been_logged_out].

(** *** Sequences of requests

    One browser, its requests served one after the other. *)
Inductive request : Type :=
| Login (username password : string)
| Register (now : Q) (username password name : string)
           (initial_deposit : float)
| Dashboard
| Deposit (now : Q) (amount : float)
| Withdraw (now : Q) (amount : float)
| Transfer (now : Q) (to_account : string) (amount : float)
| Logout.

Definition handle (sha256_hexdigest : string -> string) (q : request)
    (f : database) (s : session) : result :=
  match q with
  | Login u p => login sha256_hexdigest POST u p f s
  | Register now u p n x => register sha256_hexdigest POST now u p n x f s
  | Dashboard => dashboard f s
  | Deposit now x => deposit now x f s
  | Withdraw now x => withdraw now x f s
  | Transfer now a x => transfer now a x f s
  | Logout => logout f s
  end.

Fixpoint serve (sha256_hexdigest : string -> string) (qs : list request)
    (f : database) (s : session) : database * session :=
  match qs with
  | [] => (f, s)
  | q :: qs' =>
      let r := handle sha256_hexdigest q f s in
      serve sha256_hexdigest qs' (db r) (sess r)
  end.

End App.

(** ** PyJWT, as far as [online-banking-system.py] uses it

    The HS256 signature is a function of the program's environment.  A token
    is a signed payload, or a string that is no token at all. *)

Module Jwt.

Record payload : Type := mk_payload {
  claim_username : string;
  claim_account_number : string;
  exp : Z   (* seconds since the epoch *)
}.

Inductive token : Type :=
| jws (p : payload) (signature : string)
| malformed (s : string).

Inductive decoded : Type :=
| Payload (p : payload)
| ExpiredSignatureError
| InvalidTokenError.

Section HS256.

Variable hmac_sha256 : string -> payload -> string.

(** [jwt.encode(payload, key, algorithm='HS256')] *)
Definition encode (p : payload) (key : string) : token :=
  jws p (hmac_sha256 key p).

(** [jwt.decode(token, key, algorithms=['HS256'])] at clock [now]: the
    signature is verified first, the [exp] claim after it. *)
Definition decode (now : Q) (t : token) (key : string) : decoded :=
  match t with
  | malformed _ => InvalidTokenError
  | jws p s =>
      if String.eqb s (hmac_sha256 key p)
      then if Qle_bool (inject_Z (exp p)) now
           then ExpiredSignatureError
           else Payload p
      else InvalidTokenError
  end.

End HS256.

End Jwt.

(** ** The console front-end, [online-banking-system.py] *)

Module Bank.

Import Sqlite.

Definition TOKEN_EXPIRATION_MINUTES : Z := 30.

(** The dict [self.current_user]: ['username'] and ['account_number'] are
    set first, ['name'] and ['balance'] once the account row was read.
    ['balance'] is what was read from the [REAL] column, [None] or a float,
    and afterwards the float that the methods compute from it. *)
Record user_dict : Type := mk_user_dict {
  cu_username : string;
  cu_account_number : string;
  cu_name : option string;
  cu_balance : option real
}.

(** The [Bank] object of [__main__], together with the module's global
    [rate_limit_cache]. *)
Record state : Type := mk_state {
  conn : connection;
  current_user : option user_dict;
  token : option Jwt.token;
  rate_limit_cache : string -> option Q
}.

(** One constructor per [print(...)] of the source. *)
Inductive message : Type :=
| Please_login_first
| Too_many_requests
| An_error_occurred (e : exception)
| Token_has_expired
| Invalid_token
| Username_already_exists
| Registration_successful (account_number : string)
| Invalid_username_or_password
| Login_successful (name : string)
| Logged_out_successfully
| Deposited_successfully (amount new_balance : float)
| Deposit_amount_must_be_positive
| Insufficient_balance
| Withdrawal_amount_must_be_positive
| Withdrawn_successfully (amount new_balance : float)
| Account_Balance (balance : float)
| Account_Details
| Account_Holder (name : string)
| Account_Number (account_number : string)
| Balance (balance : float)
| Cannot_transfer_to_your_own_account
| Recipient_account_not_found
| Transferred_successfully (amount : float) (to_account : string)
| New_balance (balance : float)
| Transfer_failed
| No_transactions_found
| Last_10_Transactions
| Transferred_to (timestamp : Z) (amount : float) (account : option string)
| Received_from (timestamp : Z) (amount : float) (account : option string)
| Transaction_of (timestamp : Z) (type : string) (amount : float)
| Account_deletion_cancelled
| Account_deleted_successfully
| Failed_to_delete_account.

(** How a call ends: with a value ([None], [True] or [False]) or with an
    exception that leaves the method. *)
Inductive completion : Type :=
| returned (v : option bool)
| raised (e : exception).

Record outcome : Type := mk_outcome {
  self : state;
  printed : list message;
  completed : completion
}.

Definition method : Type := state -> outcome.

Definition set_conn (s : state) (c : connection) : state :=
  mk_state c (current_user s) (token s) (rate_limit_cache s).

(** *** Middleware decorators *)

(** [@authenticate] *)
Definition authenticate (func : method) : method :=
  fun s =>
    match current_user s with
    | None => mk_outcome s [Please_login_first] (returned None)
    | Some _ => func s
    end.

(** [@rate_limiter], reading [time.time()] as [now]. *)
Definition rate_limiter (now : Q) (func : method) : method :=
  fun s =>
    match current_user s with
    | None => mk_outcome s [] (raised TypeError)
    | Some cu =>
        let account_number := cu_account_number cu in
        let current_time := now in
        let limited :=
          match rate_limit_cache s account_number with
          | Some last => Qgtb 2 (current_time - last)
          | None => false
          end in
        if limited
        then mk_outcome s [Too_many_requests] (returned None)
        else
          func (mk_state (conn s) (current_user s) (token s)
                  (fun k => if String.eqb k account_number
                            then Some current_time
                            else rate_limit_cache s k))
    end.

(** [@error_handler]: [except Exception] prints and returns [None]. *)
Definition error_handler (func : method) : method :=
  fun s =>
    let o := func s in
    match completed o with
    | raised e =>
        mk_outcome (self o) (printed o ++ [An_error_occurred e])
                   (returned None)
    | returned _ => o
    end.

Section Methods.

Variable sha256_hexdigest : string -> string.
Variable hmac_sha256 : string -> Jwt.payload -> string.
Variable SECRET_KEY : string.

(** [Bank()] on the file [f]. *)
Definition __init__ (f : database) : state :=
  mk_state (connect f) None None (fun _ => None).

Definition _hash_password (password : string) : string :=
  sha256_hexdigest password.

Definition _verify_password (stored_hash provided_password : string)
  : bool :=
  String.eqb stored_hash (_hash_password provided_password).

(** [_generate_token]: the [exp] claim is the expiry in whole seconds. *)
Definition _generate_token (now : Q) (username account_number : string)
  : Jwt.token :=
  let expiration := now + inject_Z (TOKEN_EXPIRATION_MINUTES * 60) in
  Jwt.encode hmac_sha256
    (Jwt.mk_payload username account_number (int_of_float expiration))
    SECRET_KEY.

(** [_verify_token]: the payload, or [None] after a message. *)
Definition _verify_token (now : Q) (t : Jwt.token)
  : option Jwt.payload * list message :=
  match Jwt.decode hmac_sha256 now t SECRET_KEY with
  | Jwt.Payload p => (Some p, [])
  | Jwt.ExpiredSignatureError => (None, [Token_has_expired])
  | Jwt.InvalidTokenError => (None, [Invalid_token])
  end.

(** [register] before its decorator. *)
Definition register_def (now : Q) (username password name : string)
    (initial_deposit : float) : method :=
  fun s =>
    match select_user (view (conn s)) username with
    | Some _ => mk_outcome s [Username_already_exists] (returned (Some false))
    | None =>
        let account_number := last_chars 10 (str (int_of_float now)) in
        match try_execute
                (insert_account account_number name initial_deposit)
                (conn s) with
        | (c, Some e) => mk_outcome (set_conn s c) [] (raised (sqlite3_Error e))
        | (c, None) =>
            let password_hash := _hash_password password in
            match try_execute
                    (insert_user username account_number password_hash)
                    c with
            | (c, Some e) =>
                mk_outcome (set_conn s c) [] (raised (sqlite3_Error e))
            | (c, None) =>
                mk_outcome (set_conn s (commit c))
                           [Registration_successful account_number]
                           (returned (Some true))
            end
        end
    end.

Definition register (now : Q) (username password name : string)
    (initial_deposit : float) : method :=
  error_handler (register_def now username password name initial_deposit).

(** [login] before its decorator. *)
Definition login_def (now : Q) (username password : string) : method :=
  fun s =>
    match select_user (view (conn s)) username with
    | None => mk_outcome s [Invalid_username_or_password]
                         (returned (Some false))
    | Some user =>
        if negb (_verify_password (password_hash user) password)
        then mk_outcome s [Invalid_username_or_password]
                        (returned (Some false))
        else
          let tok :=
            _generate_token now (Sqlite.username user)
                            (user_account_number user) in
          match select_account (view (conn s)) (user_account_number user)
          with
          | None =>
              mk_outcome
                (mk_state (conn s)
                   (Some (mk_user_dict (Sqlite.username user)
                            (user_account_number user) None None))
                   (Some tok) (rate_limit_cache s))
                [] (raised TypeError)
          | Some account_details =>
              mk_outcome
                (mk_state (conn s)
                   (Some (mk_user_dict (Sqlite.username user)
                            (user_account_number user)
                            (Some (Sqlite.name account_details))
                            (Some (balance account_details))))
                   (Some tok) (rate_limit_cache s))
                [Login_successful (Sqlite.name account_details)]
                (returned (Some true))
          end
    end.

Definition login (now : Q) (username password : string) : method :=
  error_handler (login_def now username password).

End Methods.

(** [logout] *)
Definition logout : method :=
  fun s =>
    mk_outcome (mk_state (conn s) None None (rate_limit_cache s))
               [Logged_out_successfully] (returned None).

(** [self.current_user['balance'] = b] for a float [b]. *)
Definition set_cached_balance (s : state) (cu : user_dict) (b : float)
  : state :=
  mk_state (conn s)
    (Some (mk_user_dict (cu_username cu) (cu_account_number cu)
                        (cu_name cu) (Some (REAL b))))
    (token s) (rate_limit_cache s).

(** [deposit] before its decorators.  [self.current_user['balance'] +=
    amount] comes after the commit; it raises [KeyError] without the key
    and [TypeError] on a balance that is [None]. *)
Definition deposit_def (now : Q) (amount : float) : method :=
  fun s =>
    match current_user s with
    | None => mk_outcome s [] (raised TypeError)
    | Some cu =>
        if float_gt amount 0
        then
          let c :=
            execute (update_balance_plus amount (cu_account_number cu))
                    (conn s) in
          let c :=
            execute (insert_transaction now (cu_account_number cu)
                                        "Deposit" amount None) c in
          let c := commit c in
          let s := set_conn s c in
          match cu_balance cu with
          | None => mk_outcome s [] (raised KeyError)
          | Some NULL => mk_outcome s [] (raised TypeError)
          | Some (REAL b) =>
              mk_outcome (set_cached_balance s cu (b + amount))
                         [Deposited_successfully amount (b + amount)]
                         (returned None)
          end
        else mk_outcome s [Deposit_amount_must_be_positive] (returned None)
    end.

Definition deposit (now : Q) (amount : float) : method :=
  authenticate (rate_limiter now (deposit_def now amount)).

(** [withdraw] before its decorators.  [amount >
    self.current_user['balance']] raises [TypeError] on a balance that is
    [None]. *)
Definition withdraw_def (now : Q) (amount : float) : method :=
  fun s =>
    match current_user s with
    | None => mk_outcome s [] (raised TypeError)
    | Some cu =>
        match cu_balance cu with
        | None => mk_outcome s [] (raised KeyError)
        | Some NULL => mk_outcome s [] (raised TypeError)
        | Some (REAL b) =>
            if float_gt amount b
            then mk_outcome s [Insufficient_balance] (returned None)
            else if float_le amount 0
            then mk_outcome s [Withdrawal_amount_must_be_positive]
                            (returned None)
            else
              let c :=
                execute (update_balance_minus amount (cu_account_number cu))
                        (conn s) in
              let c :=
                execute (insert_transaction now (cu_account_number cu)
                                            "Withdraw" amount None) c in
              let c := commit c in
              let s := set_conn s c in
              mk_outcome (set_cached_balance s cu (b - amount))
                         [Withdrawn_successfully amount (b - amount)]
                         (returned None)
        end
    end.

Definition withdraw (now : Q) (amount : float) : method :=
  authenticate (rate_limiter now (withdraw_def now amount)).

(** [get_account_balance]: the format [{:.2f}] raises [TypeError] on a
    balance that is [None]. *)
Definition get_account_balance : method :=
  authenticate (fun s =>
    match current_user s with
    | None => mk_outcome s [] (raised TypeError)
    | Some cu =>
        match cu_balance cu with
        | None => mk_outcome s [] (raised KeyError)
        | Some NULL => mk_outcome s [] (raised TypeError)
        | Some (REAL b) => mk_outcome s [Account_Balance b] (returned None)
        end
    end).

(** [display_account_details]: the lines are printed one by one, so a
    missing key, or a balance that is [None], stops the output where it is
    read. *)
Definition display_account_details : method :=
  authenticate (fun s =>
    match current_user s with
    | None => mk_outcome s [] (raised TypeError)
    | Some cu =>
        match cu_name cu with
        | None => mk_outcome s [Account_Details] (raised KeyError)
        | Some n =>
            match cu_balance cu with
            | None =>
                mk_outcome s
                  [Account_Details; Account_Holder n;
                   Account_Number (cu_account_number cu)]
                  (raised KeyError)
            | Some NULL =>
                mk_outcome s
                  [Account_Details; Account_Holder n;
                   Account_Number (cu_account_number cu)]
                  (raised TypeError)
            | Some (REAL b) =>
                mk_outcome s
                  [Account_Details; Account_Holder n;
                   Account_Number (cu_account_number cu); Balance b]
                  (returned None)
            end
        end
    end).

(** [transfer_money] before its decorators.  [amount >
    self.current_user['balance']] raises [TypeError] on a balance that is
    [None].  [BEGIN TRANSACTION] is outside the [try]; no statement inside
    the [try] can fail in this model of the store, so the [except] branch
    (rollback, 'Transfer failed') is not reached. *)
Definition transfer_money_def (now : Q) (to_account : string)
    (amount : float) : method :=
  fun s =>
    match current_user s with
    | None => mk_outcome s [] (raised TypeError)
    | Some cu =>
        if String.eqb to_account (cu_account_number cu)
        then mk_outcome s [Cannot_transfer_to_your_own_account]
                        (returned None)
        else
          match select_account (view (conn s)) to_account with
          | None => mk_outcome s [Recipient_account_not_found]
                               (returned None)
          | Some target_account =>
              match cu_balance cu with
              | None => mk_outcome s [] (raised KeyError)
              | Some NULL => mk_outcome s [] (raised TypeError)
              | Some (REAL b) =>
                  if float_gt amount b
                  then mk_outcome s [Insufficient_balance] (returned None)
                  else
                    match begin_transaction (conn s) with
                    | (c, Some e) =>
                        mk_outcome (set_conn s c) [] (raised (sqlite3_Error e))
                    | (c, None) =>
                        let c :=
                          execute (update_balance_minus amount
                                     (cu_account_number cu)) c in
                        let c :=
                          execute (update_balance_plus amount to_account)
                                  c in
                        let c :=
                          execute (insert_transaction now
                                     (cu_account_number cu) "Transfer Sent"
                                     amount (Some to_account)) c in
                        let c :=
                          execute (insert_transaction now to_account
                                     "Transfer Received" amount
                                     (Some (cu_account_number cu))) c in
                        let c := commit c in
                        let s := set_conn s c in
                        mk_outcome (set_cached_balance s cu (b - amount))
                          [Transferred_successfully amount to_account;
                           New_balance (b - amount)]
                          (returned None)
                    end
              end
          end
    end.

Definition transfer_money (now : Q) (to_account : string) (amount : float)
  : method :=
  authenticate (rate_limiter now (transfer_money_def now to_account amount)).

(** The [LIMIT] of the history query. *)
Definition history_limit : nat := 10.

(** The line that [get_transaction_history] prints for one row; the
    format [{:.2f}] raises [TypeError] on an amount that is [None]. *)
Definition history_line (t : transaction_row) : option message :=
  match amount t with
  | NULL => None
  | REAL x =>
      Some (if String.eqb (type t) "Transfer Sent"
            then Transferred_to (timestamp t) x (related_account t)
            else if String.eqb (type t) "Transfer Received"
            then Received_from (timestamp t) x (related_account t)
            else Transaction_of (timestamp t) (type t) x)
  end.

(** The [for] loop of [get_transaction_history]: the lines that are
    printed, and how the loop ends. *)
Fixpoint print_history (l : list transaction_row)
  : list message * completion :=
  match l with
  | [] => ([], returned None)
  | t :: l' =>
      match history_line t with
      | None => ([], raised TypeError)
      | Some m => (m :: fst (print_history l'), snd (print_history l'))
      end
  end.

(** The rows that [get_transaction_history] fetches. *)
Definition fetch_history (s : state) (cu : user_dict)
  : list transaction_row :=
  select_history (view (conn s)) (cu_account_number cu) history_limit.

(** [get_transaction_history] *)
Definition get_transaction_history : method :=
  authenticate (fun s =>
    match current_user s with
    | None => mk_outcome s [] (raised TypeError)
    | Some cu =>
        match fetch_history s cu with
        | [] => mk_outcome s [No_transactions_found] (returned None)
        | transactions =>
            mk_outcome s
              (Last_10_Transactions :: fst (print_history transactions))
              (snd (print_history transactions))
        end
    end).

(** [c.lower()] on one character and [s.lower()] on a string. *)
Definition lower_ascii (c : ascii) : ascii :=
  let n := nat_of_ascii c in
  if ((65 <=? n) && (n <=? 90))%nat then ascii_of_nat (n + 32) else c.

Fixpoint lower (s : string) : string :=
  match s with
  | EmptyString => EmptyString
  | String c s' => String (lower_ascii c) (lower s')
  end.

(** [delete_account], with the line that [input()] reads as [confirm].
    As in [transfer_money], the [except] branch is not reached. *)
Definition delete_account (confirm : string) : method :=
  authenticate (fun s =>
    match current_user s with
    | None => mk_outcome s [] (raised TypeError)
    | Some cu =>
        if negb (String.eqb (lower confirm) "yes")
        then mk_outcome s [Account_deletion_cancelled] (returned None)
        else
          match begin_transaction (conn s) with
          | (c, Some e) =>
              mk_outcome (set_conn s c) [] (raised (sqlite3_Error e))
          | (c, None) =>
              let c := execute (delete_transactions (cu_account_number cu)) c in
              let c := execute (delete_users (cu_account_number cu)) c in
              let c := execute (delete_accounts (cu_account_number cu)) c in
              let c := commit c in
              let o := logout (set_conn s c) in
              mk_outcome (self o)
                         (Account_deleted_successfully :: printed o)
                         (returned None)
          end
    end).

(** *** Sequences of calls

    The calls that [main_menu] makes on the [Bank] object, with what it
    read from [input()] and the clock.  An exception that leaves a method
    ends the program. *)
Inductive call : Type :=
| Login (now : Q) (username password : string)
| Register (now : Q) (username password name : string)
           (initial_deposit : float)
| Deposit (now : Q) (amount : float)
| Withdraw (now : Q) (amount : float)
| Get_account_balance
| Display_account_details
| Transfer_money (now : Q) (to_account : string) (amount : float)
| Get_transaction_history
| Delete_account (confirm : string)
| Logout.

Section Main.

Variable sha256_hexdigest : string -> string.
Variable hmac_sha256 : string -> Jwt.payload -> string.
Variable SECRET_KEY : string.

Definition invoke (c : call) : method :=
  match c with
  | Login now u p => login sha256_hexdigest hmac_sha256 SECRET_KEY now u p
  | Register now u p n x => register sha256_hexdigest now u p n x
  | Deposit now x => deposit now x
  | Withdraw now x => withdraw now x
  | Get_account_balance => get_account_balance
  | Display_account_details => display_account_details
  | Transfer_money now a x => transfer_money now a x
  | Get_transaction_history => get_transaction_history
  | Delete_account confirm => delete_account confirm
  | Logout => logout
  end.

Fixpoint run (cs : list call) (s : state) : state :=
  match cs with
  | [] => s
  | c :: cs' =>
      let o := invoke c s in
      match completed o with
      | returned _ => run cs' (self o)
      | raised _ => self o
      end
  end.

End Main.

End Bank.

(** ** The two front-ends on one file

    Both programs open ["bank.db"].  A world is the console process and one
    browser session; a step is a call of a console method or a request to a
    view of the web front-end, which reads and writes the committed file. *)

Module SharedFile.

Import Sqlite.

Record world : Type := mk_world {
  console : Bank.state;
  browser : App.session
}.

Definition console_call (m : Bank.method) (w : world) : world :=
  mk_world (Bank.self (m (console w))) (browser w).

Definition web_request (v : database -> App.session -> App.result)
    (w : world) : world :=
  let r := v (file (Bank.conn (console w))) (browser w) in
  mk_world
    (Bank.set_conn (console w)
       (mk_connection (App.db r) (pending (Bank.conn (console w)))))
    (App.sess r).

End SharedFile.

(** ** Data for the worked examples

    Stand-ins for the two functions of the environment, and the store of
    section 8 of the specification: account A with 10000.00 and account B
    with 0.00. *)

Module Scenario.

Import Sqlite.

Definition sha256_hexdigest (s : string) : string := "sha256:" ++ s.

Definition hmac_sha256 (key : string) (p : Jwt.payload) : string :=
  key ++ "/" ++ Jwt.claim_username p ++ "/" ++ Jwt.claim_account_number p
      ++ "/" ++ str (Jwt.exp p).

Definition SECRET_KEY : string := "0f1e2d3c".

Definition A : string := "1234567890".
Definition B : string := "1700000000".

Definition bank_db : database :=
  mk_database
    [mk_account A "Test User" (REAL 10000); mk_account B "Bob" (REAL 0)]
    [mk_user "test" A (sha256_hexdigest "test123");
     mk_user "bob" B (sha256_hexdigest "hunter2")]
    [] 0.

(** The browser session and the console session of the user [test]. *)
Definition test_session : App.identity := App.mk_identity "test" A.

Definition test_dict (b : float) : Bank.user_dict :=
  Bank.mk_user_dict "test" A (Some "Test User") (Some (REAL b)).

Definition logged_in (f : database) (b : float) : Bank.state :=
  Bank.mk_state (connect f) (Some (test_dict b)) None (fun _ => None).

(** The console logs in as [test]; then a browser logs in as [test] and
    withdraws 9000.00 through the web front-end. *)
Definition t0 : Q := 1700000100.

Definition console_logged_in : SharedFile.world :=
  SharedFile.console_call
    (Bank.login sha256_hexdigest hmac_sha256 SECRET_KEY t0 "test" "test123")
    (SharedFile.mk_world (Bank.__init__ bank_db) None).

Definition after_web_withdrawal : SharedFile.world :=
  SharedFile.web_request (App.withdraw (t0 + 60) 9000)
    (SharedFile.web_request
       (App.login sha256_hexdigest App.POST "test" "test123")
       console_logged_in).

(** A deposit and a withdrawal of the web front-end within one second. *)
Definition two_in_one_second : database :=
  App.db (App.withdraw (t0 + (1 # 2)) 200
            (App.db (App.deposit t0 500 bank_db (Some test_session)))
            (Some test_session)).

(** The console session of [test] after a login at [t0], and the same
    session holding a string that is no token. *)
Definition console_session : Bank.state :=
  Bank.self
    (Bank.login sha256_hexdigest hmac_sha256 SECRET_KEY t0 "test" "test123"
                (Bank.__init__ bank_db)).

Definition tampered_session : Bank.state :=
  Bank.mk_state (Bank.conn console_session)
    (Bank.current_user console_session)
    (Some (Jwt.malformed "eyJhbGciOi"))
    (Bank.rate_limit_cache console_session).


(** A console session: a login, a deposit, a withdrawal that is refused,
    a transfer to B, a second deposit that comes too soon, the history. *)
Definition a_console_session : list Bank.call :=
  [Bank.Login t0 "test" "test123";
   Bank.Deposit (t0 + 5) 500;
   Bank.Withdraw (t0 + 10) 20000;
   Bank.Transfer_money (t0 + 15) B 1000;
   Bank.Deposit (t0 + 16) 1;
   Bank.Get_transaction_history].

End Scenario.

(** * Vocabulary of the properties *)

Module Spec.

Import Sqlite.

(** The two rows of a transfer, for a sequence counter that stood at
    [seq] before it. *)
Definition transfer_records (now : Q) (seq : Z) (sender recipient : string)
    (amt : float) : list transaction_row :=
  [mk_transaction (seq + 1) sender "Transfer Sent" (store amt)
                  (Some recipient) (CURRENT_TIMESTAMP now);
   mk_transaction (seq + 1 + 1) recipient "Transfer Received" (store amt)
                  (Some sender) (CURRENT_TIMESTAMP now)].


(** The sum of the balance column in exact arithmetic, when every balance
    is a finite number. *)
Definition exact_sum (l : list account_row) : option Q :=
  fold_right
    (fun r t =>
       match balance r, t with
       | REAL x, Some t => option_map (fun q => q + t) (exact x)
       | _, _ => None
       end)
    (Some 0) l.

Definition exact_total (d : database) : option Q := exact_sum (accounts d).


(** The sum of all balances is what it was. *)
Definition same_total (before after : database) : Prop :=
  exists t t',
    exact_total before = Some t /\ exact_total after = Some t' /\ t' == t.

(** The binary64 operation [x - y], respectively [x + y], is exact: its
    operands and its result are finite and no rounding took place. *)
Definition exact_difference (x y : float) : Prop :=
  exists qx qy qz,
    exact x = Some qx /\ exact y = Some qy /\ exact (x - y) = Some qz
    /\ qz == qx - qy.

Definition exact_addition (x y : float) : Prop :=
  exists qx qy qz,
    exact x = Some qx /\ exact y = Some qy /\ exact (x + y) = Some qz
    /\ qz == qx + qy.


(** The four statements of the [try] block, in the order of the source. *)
Definition transfer_statements (now : Q) (sender recipient : string)
    (amt : float) (d : database) : database :=
  insert_transaction now recipient "Transfer Received" amt (Some sender)
    (insert_transaction now sender "Transfer Sent" amt (Some recipient)
       (update_balance_plus amt recipient
          (update_balance_minus amt sender d))).

(** The rate gate of the console lets the caller through at [now]. *)
Definition rate_gate_open (now : Q) (s : Bank.state) (a : string) : Prop :=
  match Bank.rate_limit_cache s a with
  | Some last => 2 <= now - last
  | None => True
  end.

(** The state in which the rate limiter calls the method it lets
    through. *)
Definition past_rate_gate (now : Q) (s : Bank.state) (cu : Bank.user_dict)
  : Bank.state :=
  Bank.mk_state (Bank.conn s) (Bank.current_user s) (Bank.token s)
    (fun k => if String.eqb k (Bank.cu_account_number cu)
              then Some now else Bank.rate_limit_cache s k).

(** The store after the two statements of a deposit or a withdrawal. *)
Definition deposited (now : Q) (a ty : string) (x : float) (d : database)
  : database :=
  insert_transaction now a ty x None (update_balance_plus x a d).

Definition withdrawn (now : Q) (a ty : string) (x : float) (d : database)
  : database :=
  insert_transaction now a ty x None (update_balance_minus x a d).

(** The four kinds of transaction record. *)
Definition kinds : list string :=
  ["Deposit"; "Withdrawal"; "Transfer Sent"; "Transfer Received"].

(** Newest first, and of two rows of one timestamp the one inserted later
    first. *)
Definition newest_first_later_first (x y : transaction_row) : Prop :=
  (timestamp y < timestamp x)%Z
  \/ (timestamp y = timestamp x /\ id y < id x)%Z.

(** Newest first, and of two rows of one timestamp the one inserted
    earlier first. *)
Definition newest_first_earlier_first (x y : transaction_row) : Prop :=
  (timestamp y < timestamp x)%Z
  \/ (timestamp y = timestamp x /\ id x < id y)%Z.

(** [AUTOINCREMENT]: the ids of the table grow with the rowid. *)
Definition ids_increasing (d : database) : Prop :=
  StronglySorted (fun x y => (id x < id y)%Z) (transactions d).

(** The rows of account [a], oldest first. *)
Definition records_of (d : database) (a : string) : list transaction_row :=
  filter (fun r => String.eqb (txn_account_number r) a) (transactions d).

(** [res] is what a history of at most [n] rows of account [a] has to be
    under the order [ord]: the first [n] rows of the account's rows put in
    that order. *)
Definition history_of (ord : transaction_row -> transaction_row -> Prop)
    (d : database) (a : string) (n : nat) (res : list transaction_row)
  : Prop :=
  (List.length res <= n)%nat
  /\ exists rest,
       Permutation (res ++ rest)%list (records_of d a)
       /\ StronglySorted ord (res ++ rest)%list
       /\ (rest = [] \/ List.length res = n).

(** The balance that the console holds for its user is the balance of the
    accounts table, as the connection sees it and as it is committed. *)
Definition snapshot_is_stored (s : Bank.state) : Prop :=
  forall cu b,
    Bank.current_user s = Some cu ->
    Bank.cu_balance cu = Some b ->
    balance_of (view (Bank.conn s)) (Bank.cu_account_number cu) = Some b
    /\ balance_of (file (Bank.conn s)) (Bank.cu_account_number cu) = Some b.

(** What the store keeps of a value that Python holds: a NaN as [NULL]
    and -0.0 as 0.0. *)
Definition stored_form (v : real) : real :=
  match v with
  | REAL x => store x
  | NULL => NULL
  end.

(** The same up to what the store keeps: the balance that the console
    holds, in the form the store keeps, is the stored balance. *)
Definition snapshot_corresponds (s : Bank.state) : Prop :=
  forall cu b,
    Bank.current_user s = Some cu ->
    Bank.cu_balance cu = Some b ->
    option_map stored_form
      (balance_of (view (Bank.conn s)) (Bank.cu_account_number cu))
    = Some (stored_form b)
    /\ option_map stored_form
         (balance_of (file (Bank.conn s)) (Bank.cu_account_number cu))
       = Some (stored_form b).

(** No transaction is open on the connection, or the open one has written
    nothing. *)
Definition nothing_uncommitted (c : connection) : Prop :=
  pending c = None \/ pending c = Some (file c).

(** The invariant of the console process. *)
Definition console_invariant (s : Bank.state) : Prop :=
  users_have_accounts (view (Bank.conn s))
  /\ nothing_uncommitted (Bank.conn s)
  /\ snapshot_corresponds s.

(** A method keeps the invariant of the console. *)
Definition preserves (m : Bank.method) : Prop :=
  forall s, console_invariant s -> console_invariant (Bank.self (m s)).

End Spec.

(** * The rest of the two programs *)

(** ** The template filter [indian_format] of [app.py]

    [indian_number_format] formats a value below 1000 with ["{:,.2f}"] and
    takes, for any other value, the text of [str(value)] before the first
    ['.'] and groups its characters.  The grouping is embedded here, as a
    function of that text; a Python [str] is the list of its characters.
    The conversions between floats and text are not. *)

Module Format.

(** [value[-3:]] and [value[:-3]] *)
Definition last_three (value : list ascii) : list ascii :=
  skipn (List.length value - 3) value.

Definition other_numbers (value : list ascii) : list ascii :=
  firstn (List.length value - 3) value.

(** [s.replace('', sep)]: [sep] before every character and at the end. *)
Fixpoint replace_empty (sep : ascii) (s : list ascii) : list ascii :=
  sep :: match s with
         | [] => []
         | c :: s' => c :: replace_empty sep s'
         end.

(** [s[1:-1]] *)
Definition slice_1_m1 (s : list ascii) : list ascii := removelast (tl s).

(** The [else] branch of [indian_number_format], from [last_three = ...]
    on. *)
Definition indian_number_format_else (value : list ascii) : list ascii :=
  match other_numbers value with
  | [] => last_three value
  | _ :: _ =>
      rev (slice_1_m1 (replace_empty ","%char (rev (other_numbers value))))
        ++ ","%char :: last_three value
  end.

(** The same on [string]. *)
Definition indian_number_format_of_text (value : string) : string :=
  string_of_list_ascii
    (indian_number_format_else (list_ascii_of_string value)).

(** [sep] between every two characters of [s]. *)
Definition intersperse (sep : ascii) (s : list ascii) : list ascii :=
  match s with
  | [] => []
  | c :: s' => c :: flat_map (fun y => [sep; y]) s'
  end.

End Format.

(** ** The menu of the console

    [main_menu] reads lines with [input()] and calls the methods of the
    [Bank] object.  A typed line comes with the clock at which it was
    entered; a call reads the clock of the last line that was typed for
    it.  [float(text)] is a function of the environment, [None] where
    Python raises [ValueError]; it can return infinities and NaN. *)

Module Menu.

Import Sqlite.

Definition nl : string := String (ascii_of_nat 10) EmptyString.

(** What the program writes: a [print], the prompt of an [input], or a
    message printed by a method. *)
Inductive line : Type :=
| shown (text : string)
| asked (prompt : string)
| said (m : Bank.message).

(** The exceptions that leave [main_menu]. *)
Inductive stop : Type :=
| EOFError                       (* [input()] at the end of the input *)
| ValueError                     (* [float(text)] on a text that is no float *)
| method_raised (e : exception).

Inductive ending : Type :=
| returned (v : bool) (rest : list (Q * string))
| raised (e : stop).

Record result : Type := mk_result {
  bank : Bank.state;
  output : list line;
  ended : ending
}.

Definition with_output (out : list line) (r : result) : result :=
  mk_result (bank r) (out ++ output r) (ended r).

Definition logged_out_menu : list line :=
  [shown (nl ++ "=== Welcome to Simple Bank ===");
   shown "1. Login"; shown "2. Register"; shown "3. Exit";
   asked "Enter your choice: "].

Definition logged_in_menu (name : string) : list line :=
  [shown (nl ++ "=== Welcome, " ++ name ++ " ===");
   shown "1. Deposit"; shown "2. Withdraw"; shown "3. Check Balance";
   shown "4. Account Details"; shown "5. Transfer Money";
   shown "6. Transaction History"; shown "7. Delete Account";
   shown "8. Logout"; asked "Enter your choice: "].

Definition invalid_choice : list line :=
  [shown "Invalid choice. Please try again."].

Definition said_by (o : Bank.outcome) : list line :=
  map said (Bank.printed o).

Section Main.

Variable sha256_hexdigest : string -> string.
Variable hmac_sha256 : string -> Jwt.payload -> string.
Variable SECRET_KEY : string.
Variable float : string -> option PrimFloat.float.

(** [main_menu(bank)] on the lines [inputs]. *)
Fixpoint main_menu (inputs : list (Q * string)) (b : Bank.state) : result :=
  match Bank.current_user b with
  | None =>
      let out := logged_out_menu in
      match inputs with
      | [] => mk_result b out (raised EOFError)
      | (_, choice) :: rest =>
          if String.eqb choice "1" then
            let out := (out ++ [asked "Username: "])%list in
            match rest with
            | [] => mk_result b out (raised EOFError)
            | (_, username) :: rest =>
                let out := (out ++ [asked "Password: "])%list in
                match rest with
                | [] => mk_result b out (raised EOFError)
                | (now, password) :: rest =>
                    let o :=
                      Bank.login sha256_hexdigest hmac_sha256 SECRET_KEY now
                                 username password b in
                    match Bank.completed o with
                    | Bank.raised e =>
                        mk_result (Bank.self o) (out ++ said_by o)
                                  (raised (method_raised e))
                    | Bank.returned _ =>
                        with_output (out ++ said_by o)
                                    (main_menu rest (Bank.self o))
                    end
                end
            end
          else if String.eqb choice "2" then
            let out := (out ++ [asked "Choose a username: "])%list in
            match rest with
            | [] => mk_result b out (raised EOFError)
            | (_, username) :: rest =>
                let out := (out ++ [asked "Choose a password: "])%list in
                match rest with
                | [] => mk_result b out (raised EOFError)
                | (_, password) :: rest =>
                    let out := (out ++ [asked "Your full name: "])%list in
                    match rest with
                    | [] => mk_result b out (raised EOFError)
                    | (_, name) :: rest =>
                        let out :=
                          (out ++ [asked "Initial deposit amount (0 if none): "])%list in
                        match rest with
                        | [] => mk_result b out (raised EOFError)
                        | (now, text) :: rest =>
                            match float text with
                            | None => mk_result b out (raised ValueError)
                            | Some initial_deposit =>
                                let o :=
                                  Bank.register sha256_hexdigest now username
                                    password name initial_deposit b in
                                match Bank.completed o with
                                | Bank.raised e =>
                                    mk_result (Bank.self o) (out ++ said_by o)
                                              (raised (method_raised e))
                                | Bank.returned _ =>
                                    with_output (out ++ said_by o)
                                      (main_menu rest (Bank.self o))
                                end
                            end
                        end
                    end
                end
            end
          else if String.eqb choice "3" then
            mk_result b (out ++ [shown "Goodbye!"]) (returned false rest)
          else
            with_output (out ++ invalid_choice) (main_menu rest b)
      end
  | Some cu =>
      match Bank.cu_name cu with
      | None => mk_result b [] (raised (method_raised KeyError))
      | Some name =>
          let out := logged_in_menu name in
          match inputs with
          | [] => mk_result b out (raised EOFError)
          | (now0, choice) :: rest =>
              if String.eqb choice "1" then
                let out := (out ++ [asked "Enter deposit amount: "])%list in
                match rest with
                | [] => mk_result b out (raised EOFError)
                | (now, text) :: rest =>
                    match float text with
                    | None => mk_result b out (raised ValueError)
                    | Some amount =>
                        let o := Bank.deposit now amount b in
                        match Bank.completed o with
                        | Bank.raised e =>
                            mk_result (Bank.self o) (out ++ said_by o)
                                      (raised (method_raised e))
                        | Bank.returned _ =>
                            with_output (out ++ said_by o)
                                        (main_menu rest (Bank.self o))
                        end
                    end
                end
              else if String.eqb choice "2" then
                let out := (out ++ [asked "Enter withdrawal amount: "])%list in
                match rest with
                | [] => mk_result b out (raised EOFError)
                | (now, text) :: rest =>
                    match float text with
                    | None => mk_result b out (raised ValueError)
                    | Some amount =>
                        let o := Bank.withdraw now amount b in
                        match Bank.completed o with
                        | Bank.raised e =>
                            mk_result (Bank.self o) (out ++ said_by o)
                                      (raised (method_raised e))
                        | Bank.returned _ =>
                            with_output (out ++ said_by o)
                                        (main_menu rest (Bank.self o))
                        end
                    end
                end
              else if String.eqb choice "3" then
                let o := Bank.get_account_balance b in
                match Bank.completed o with
                | Bank.raised e =>
                    mk_result (Bank.self o) (out ++ said_by o)
                              (raised (method_raised e))
                | Bank.returned _ =>
                    with_output (out ++ said_by o)
                                (main_menu rest (Bank.self o))
                end
              else if String.eqb choice "4" then
                let o := Bank.display_account_details b in
                match Bank.completed o with
                | Bank.raised e =>
                    mk_result (Bank.self o) (out ++ said_by o)
                              (raised (method_raised e))
                | Bank.returned _ =>
                    with_output (out ++ said_by o)
                                (main_menu rest (Bank.self o))
                end
              else if String.eqb choice "5" then
                let out :=
                  (out ++ [asked "Enter recipient account number: "])%list in
                match rest with
                | [] => mk_result b out (raised EOFError)
                | (_, to_account) :: rest =>
                    let out :=
                      (out ++ [asked "Enter transfer amount: "])%list in
                    match rest with
                    | [] => mk_result b out (raised EOFError)
                    | (now, text) :: rest =>
                        match float text with
                        | None => mk_result b out (raised ValueError)
                        | Some amount =>
                            let o :=
                              Bank.transfer_money now to_account amount b in
                            match Bank.completed o with
                            | Bank.raised e =>
                                mk_result (Bank.self o) (out ++ said_by o)
                                          (raised (method_raised e))
                            | Bank.returned _ =>
                                with_output (out ++ said_by o)
                                            (main_menu rest (Bank.self o))
                            end
                        end
                    end
                end
              else if String.eqb choice "6" then
                let o := Bank.get_transaction_history b in
                match Bank.completed o with
                | Bank.raised e =>
                    mk_result (Bank.self o) (out ++ said_by o)
                              (raised (method_raised e))
                | Bank.returned _ =>
                    with_output (out ++ said_by o)
                                (main_menu rest (Bank.self o))
                end
              else if String.eqb choice "7" then
                let out :=
                  (out ++ [asked "Are you sure you want to delete your account? This cannot be undone. (yes/no): "])%list in
                match rest with
                | [] => mk_result b out (raised EOFError)
                | (_, confirm) :: rest =>
                    let o := Bank.delete_account confirm b in
                    match Bank.completed o with
                    | Bank.raised e =>
                        mk_result (Bank.self o) (out ++ said_by o)
                                  (raised (method_raised e))
                    | Bank.returned _ =>
                        with_output (out ++ said_by o)
                                    (main_menu rest (Bank.self o))
                    end
                end
              else if String.eqb choice "8" then
                let o := Bank.logout b in
                mk_result (Bank.self o) (out ++ said_by o)
                          (returned true rest)
              else
                with_output (out ++ invalid_choice) (main_menu rest b)
          end
      end
  end.

(** The loop of [__main__], [while True: if not main_menu(bank): break],
    for at most [turns] calls of [main_menu]; [None] when they do not
    suffice. *)
Fixpoint main_loop (turns : nat) (inputs : list (Q * string))
    (b : Bank.state) : option result :=
  match turns with
  | O => None
  | S turns' =>
      let r := main_menu inputs b in
      match ended r with
      | returned true rest =>
          option_map (with_output (output r)) (main_loop turns' rest (bank r))
      | _ => Some r
      end
  end.

(** [__main__] after [initialize_database()] and [backup_database()], on
    the file [f]: the [Bank] object is created, the loop runs, and the
    [finally] closes the connection.  The result is the file that is left,
    what was written to the terminal, and how the program ended. *)
Definition main (inputs : list (Q * string)) (f : database)
  : option (database * list line * ending) :=
  option_map
    (fun r => (close (Bank.conn (bank r)), output r, ended r))
    (main_loop (S (List.length inputs)) inputs
               (Bank.__init__ f)).

End Main.

End Menu.

(** * Vocabulary of the further properties *)

Module Further.

Import Sqlite Spec.

(** The account number that [register] derives from the clock. *)
Definition account_number_at (now : Q) : string :=
  last_chars 10 (str (int_of_float now)).

(** The store after a registration that succeeds. *)
Definition registered (sha256_hexdigest : string -> string) (now : Q)
    (u pw n : string) (x : float) (d : database) : database :=
  mk_database
    (accounts d ++ [mk_account (account_number_at now) n (store x)])
    (users d ++ [mk_user u (account_number_at now) (sha256_hexdigest pw)])
    (transactions d) (sqlite_sequence d).

(** The store after the three [DELETE] statements of [delete_account]. *)
Definition deleted (a : string) (d : database) : database :=
  delete_accounts a (delete_users a (delete_transactions a d)).

(** The calls of the console that are behind [@authenticate]. *)
Definition gated (c : Bank.call) : bool :=
  match c with
  | Bank.Login _ _ _ | Bank.Register _ _ _ _ _ | Bank.Logout => false
  | _ => true
  end.

(** The requests of the web front-end that begin with the test
    ['username' not in session]. *)
Definition needs_session (q : App.request) : bool :=
  match q with
  | App.Dashboard | App.Deposit _ _ | App.Withdraw _ _ | App.Transfer _ _ _ =>
      true
  | _ => false
  end.

(** The calls of the console that are behind [@rate_limiter], with the
    clock they read. *)
Definition rate_limited (c : Bank.call) : option Q :=
  match c with
  | Bank.Deposit now _ | Bank.Withdraw now _ | Bank.Transfer_money now _ _ =>
      Some now
  | _ => None
  end.

(** One group of statements that appends to the tables or moves
    balances: the two statements of a deposit or of a withdrawal, the four
    of a transfer, and the two [INSERT]s of a registration, the second
    after the first. *)
Inductive appends : database -> database -> Prop :=
| booked_deposit now a ty x d : appends d (deposited now a ty x d)
| booked_withdrawal now a ty x d : appends d (withdrawn now a ty x d)
| booked_transfer now a b x d : appends d (transfer_statements now a b x d)
| inserted_account a n x d d' :
    insert_account a n x d = inl d' -> appends d d'
| inserted_user u a h d d' :
    select_account d a <> None ->
    insert_user u a h d = inl d' -> appends d d'.

(** The same, or the three [DELETE]s of [delete_account]. *)
Inductive statements : database -> database -> Prop :=
| appending d d' : appends d d' -> statements d d'
| deleting a d : statements d (deleted a d).

(** What a sequence of such groups makes of a store. *)
Inductive after (R : database -> database -> Prop)
  : database -> database -> Prop :=
| after_none d : after R d d
| after_more d d' d'' : R d d' -> after R d' d'' -> after R d d''.

(** The constraints of the schema hold and every user has an account. *)
Definition wellformed (d : database) : Prop :=
  constraints d /\ users_have_accounts d.

(** The ids of the transactions table grow with the rowid and are covered
    by the sequence counter. *)
Definition sequence_covers (d : database) : Prop :=
  ids_increasing d
  /\ Forall (fun r => (id r <= sqlite_sequence d)%Z) (transactions d).

(** Nothing is removed or rewritten but balances: the rows of the three
    tables are the rows before, in their order, followed by new ones, an
    account row keeping its number and name. *)
Definition only_grows (d d' : database) : Prop :=
  (exists l, transactions d' = (transactions d ++ l)%list)
  /\ (exists l, users d' = (users d ++ l)%list)
  /\ (exists l,
         map (fun r => (account_number r, name r)) (accounts d')
         = (map (fun r => (account_number r, name r)) (accounts d) ++ l)%list).

(** What a method makes of the store as its connection sees it. *)
Definition through (R : database -> database -> Prop) (m : Bank.method)
  : Prop :=
  forall s, after R (view (Bank.conn s))
                    (view (Bank.conn (Bank.self (m s)))).

(** What [main_menu] leaves of a process [b] when it had fewer than [n]
    lines after those it read: the store is reached by statement groups of
    the methods, the invariant of the console is kept, and a return hands
    back fewer lines than [n]. *)
Definition menu_ok (n : nat) (b : Bank.state) (r : Menu.result) : Prop :=
  after statements (view (Bank.conn b)) (view (Bank.conn (Menu.bank r)))
  /\ (console_invariant b -> console_invariant (Menu.bank r))
  /\ (forall v rest,
         Menu.ended r = Menu.returned v rest -> (List.length rest < n)%nat).

End Further.

(** ** Data for the examples of the further properties *)

Module Examples.

(** A stand-in for [float(text)], on the text 'nan' and on the decimal
    numerals below 2^53, which binary64 holds exactly. *)
Definition float (text : string) : option PrimFloat.float :=
  if String.eqb text "nan" then Some nan
  else
    match NilZero.uint_of_string text with
    | Some u =>
        if (Z.of_uint u <? 2 ^ 53)%Z
        then Some (of_uint63 (Uint63.of_Z (Z.of_uint u)))
        else None
    | None => None
    end.

(** What is typed in a session at the console, a line every ten seconds:
    a login, a deposit of 500, a transfer of 1000 to B, the logout, and
    the exit. *)
Definition typed : list (Q * string) :=
  map (fun p => (Scenario.t0 + inject_Z (10 * Z.of_nat (fst p)), snd p))
      (combine (seq 0 12)
         ["1"; "test"; "test123"; "1"; "500"; "5"; Scenario.B; "1000";
          "8"; "9"; "3"; "never read"]).

(** The same with a withdrawal of 'nan' and a look at the balance: a
    login, the withdrawal, the balance, the logout, and the exit. *)
Definition typed_nan : list (Q * string) :=
  map (fun p => (Scenario.t0 + inject_Z (10 * Z.of_nat (fst p)), snd p))
      (combine (seq 0 8)
         ["1"; "test"; "test123"; "2"; "nan"; "3"; "8"; "3"]).

End Examples.

(** * Properties *)

(** ** Comparisons of the clock *)

Lemma Qgtb_true (x y : Q) : Qgtb x y = true <-> y < x.
Proof.
  unfold Qgtb. rewrite negb_true_iff, <- not_true_iff_false, Qle_bool_iff.
  split; [apply Qnot_le_lt | apply Qlt_not_le].
Qed.

Lemma Qgtb_false (x y : Q) : Qgtb x y = false <-> x <= y.
Proof.
  unfold Qgtb. rewrite negb_false_iff. apply Qle_bool_iff.
Qed.

(** ** Binary64

    What the properties use of the primitive floats, from the
    specification of their operations ([Prim2SF], [SFcompare], [SFadd],
    [SFsub]). *)

Module FloatFacts.

Lemma SFcompare_antisym x y :
  SFcompare y x = option_map CompOpp (SFcompare x y).
Proof.
  destruct x as [sx|sx| |sx mx ex], y as [sy|sy| |sy my ey]; simpl;
    try reflexivity;
    try (destruct sx; reflexivity); try (destruct sy; reflexivity);
    try (destruct sx, sy; reflexivity).
  change PosDef.Pos.compare_cont with Pos.compare_cont.
  destruct sx, sy; simpl; try reflexivity;
    rewrite (Z.compare_antisym ex ey);
    destruct (ex ?= ey)%Z; simpl; try reflexivity;
    rewrite (Pos.compare_cont_antisym mx my Eq); simpl;
    destruct (Pos.compare_cont Eq mx my); reflexivity.
Qed.

Lemma is_nan_Prim2SF x : is_nan x = true <-> Prim2SF x = S754_nan.
Proof.
  unfold Prim2SF. destruct (is_nan x); [tauto|].
  split; [discriminate|].
  destruct (is_zero x); [discriminate|].
  destruct (is_infinity x); [discriminate|].
  destruct (Z.frexp x) as [r e].
  destruct (shr_fexp _ _ _ _ _) as [shr e'].
  destruct (shr_m shr); discriminate.
Qed.

Lemma not_nan_Prim2SF x : is_nan x = false <-> Prim2SF x <> S754_nan.
Proof.
  rewrite <- is_nan_Prim2SF. destruct (is_nan x); split; congruence.
Qed.

(** A comparison that holds has no NaN among its operands. *)
Lemma ltb_not_nan x y :
  (x <? y)%float = true -> is_nan x = false /\ is_nan y = false.
Proof.
  rewrite ltb_spec, !not_nan_Prim2SF. unfold SFltb.
  destruct (Prim2SF x), (Prim2SF y); simpl; try discriminate;
    split; discriminate.
Qed.

Lemma leb_not_nan x y :
  (x <=? y)%float = true -> is_nan x = false /\ is_nan y = false.
Proof.
  rewrite leb_spec, !not_nan_Prim2SF. unfold SFleb.
  destruct (Prim2SF x), (Prim2SF y); simpl; try discriminate;
    split; discriminate.
Qed.

Lemma ltb_leb_false x y : (x <? y)%float = true -> (y <=? x)%float = false.
Proof.
  rewrite ltb_spec, leb_spec. unfold SFltb, SFleb.
  rewrite (SFcompare_antisym (Prim2SF x) (Prim2SF y)).
  destruct (SFcompare (Prim2SF x) (Prim2SF y)) as [[]|]; simpl; congruence.
Qed.

Lemma leb_ltb_false x y : (x <=? y)%float = true -> (y <? x)%float = false.
Proof.
  rewrite ltb_spec, leb_spec. unfold SFltb, SFleb.
  rewrite (SFcompare_antisym (Prim2SF x) (Prim2SF y)).
  destruct (SFcompare (Prim2SF x) (Prim2SF y)) as [[]|]; simpl; congruence.
Qed.

(** Python's tests, from the order of the operands. *)
Lemma float_gt_true x y : (y <? x)%float = true -> float_gt x y = true.
Proof. intros H. exact H. Qed.

Lemma float_gt_false x y : (x <=? y)%float = true -> float_gt x y = false.
Proof. apply leb_ltb_false. Qed.

Lemma float_le_true x y : (x <=? y)%float = true -> float_le x y = true.
Proof. intros H. exact H. Qed.

Lemma float_le_false x y : (y <? x)%float = true -> float_le x y = false.
Proof. apply ltb_leb_false. Qed.

(** A NaN passes none of them. *)
Lemma float_gt_nan x y : is_nan x = true -> float_gt x y = false.
Proof.
  intros H. unfold float_gt.
  destruct (y <? x)%float eqn:E; [|reflexivity].
  apply ltb_not_nan in E. destruct E. congruence.
Qed.

Lemma float_le_nan x y : is_nan x = true -> float_le x y = false.
Proof.
  intros H. unfold float_le.
  destruct (x <=? y)%float eqn:E; [|reflexivity].
  apply leb_not_nan in E. destruct E. congruence.
Qed.

(** An operation on a NaN gives a NaN. *)
Lemma add_nan_l x y : is_nan x = true -> is_nan (x + y) = true.
Proof. rewrite !is_nan_Prim2SF, add_spec. intros ->. reflexivity. Qed.

Lemma add_nan_r x y : is_nan y = true -> is_nan (x + y) = true.
Proof.
  rewrite !is_nan_Prim2SF, add_spec. intros ->.
  unfold SF64add, SFadd. now destruct (Prim2SF x).
Qed.

Lemma sub_nan_l x y : is_nan x = true -> is_nan (x - y) = true.
Proof. rewrite !is_nan_Prim2SF, sub_spec. intros ->. reflexivity. Qed.

Lemma sub_nan_r x y : is_nan y = true -> is_nan (x - y) = true.
Proof.
  rewrite !is_nan_Prim2SF, sub_spec. intros ->.
  unfold SF64sub, SFsub. now destruct (Prim2SF x).
Qed.

(** The two zeros. *)
Lemma is_zero_Prim2SF x :
  is_zero x = true <-> exists sg, Prim2SF x = S754_zero sg.
Proof.
  unfold is_zero. rewrite eqb_spec.
  change (Prim2SF zero) with (S754_zero false). unfold SFeqb.
  destruct (Prim2SF x) as [sg|sg| |sg m e]; simpl.
  - split; [now exists sg | reflexivity].
  - destruct sg; (split; [discriminate | intros [? [=]]]).
  - split; [discriminate | intros [? [=]]].
  - destruct sg; (split; [discriminate | intros [? [=]]]).
Qed.

Lemma is_zero_not_nan x : is_zero x = true -> is_nan x = false.
Proof.
  intros H. apply is_zero_Prim2SF in H. destruct H as [sg H].
  apply not_nan_Prim2SF. rewrite H. discriminate.
Qed.

Lemma positive_not_zero x : (0 <? x)%float = true -> is_zero x = false.
Proof.
  intros H. destruct (is_zero x) eqn:E; [|reflexivity].
  apply is_zero_Prim2SF in E. destruct E as [sg E].
  rewrite ltb_spec, E in H.
  change (Prim2SF 0) with (S754_zero false) in H. discriminate.
Qed.


(** The sign of a zero does not show in a sum or a difference, unless the
    result is a zero. *)
Lemma add_zeros s c x :
  is_zero s = true -> is_zero c = true ->
  Prim2SF (s + x) = Prim2SF (c + x)
  \/ ((exists sg, Prim2SF (s + x) = S754_zero sg)
      /\ (exists sg, Prim2SF (c + x) = S754_zero sg)).
Proof.
  intros Hs Hc. apply is_zero_Prim2SF in Hs, Hc.
  destruct Hs as [a Hs], Hc as [b Hc].
  rewrite !add_spec, Hs, Hc. unfold SF64add, SFadd.
  destruct (Prim2SF x) as [sy|sy| |sy my ey]; try (left; reflexivity).
  right. split; destruct a, b, sy; eexists; reflexivity.
Qed.

Lemma sub_zeros s c x :
  is_zero s = true -> is_zero c = true ->
  Prim2SF (s - x) = Prim2SF (c - x)
  \/ ((exists sg, Prim2SF (s - x) = S754_zero sg)
      /\ (exists sg, Prim2SF (c - x) = S754_zero sg)).
Proof.
  intros Hs Hc. apply is_zero_Prim2SF in Hs, Hc.
  destruct Hs as [a Hs], Hc as [b Hc].
  rewrite !sub_spec, Hs, Hc. unfold SF64sub, SFsub.
  destruct (Prim2SF x) as [sy|sy| |sy my ey]; try (left; reflexivity).
  right. split; destruct a, b, sy; eexists; reflexivity.
Qed.


End FloatFacts.

(** ** The store *)

Module SqliteFacts.

Import Sqlite FloatFacts.

Lemma bind_not_nan x : is_nan x = false -> bind x = REAL x.
Proof. unfold bind. now intros ->. Qed.

Lemma bind_nan x : is_nan x = true -> bind x = NULL.
Proof. unfold bind. now intros ->. Qed.

(** What the store keeps of a float. *)
Lemma store_nan x : is_nan x = true -> store x = NULL.
Proof. unfold store. intros H. now rewrite (bind_nan _ H). Qed.

Lemma store_zero x : is_zero x = true -> store x = REAL 0.
Proof.
  intros H. unfold store. rewrite (bind_not_nan _ (is_zero_not_nan _ H)).
  simpl. now rewrite H.
Qed.

Lemma store_other x :
  is_nan x = false -> is_zero x = false -> store x = REAL x.
Proof.
  intros Hn Hz. unfold store. rewrite (bind_not_nan _ Hn). simpl.
  now rewrite Hz.
Qed.

Lemma store_positive x : (0 <? x)%float = true -> store x = REAL x.
Proof.
  intros H. apply store_other; [|now apply positive_not_zero].
  now apply ltb_not_nan in H.
Qed.


Lemma store_NULL x : store x = NULL -> is_nan x = true.
Proof.
  unfold store, bind. destruct (is_nan x); [reflexivity|]. simpl.
  destruct (is_zero x); discriminate.
Qed.

(** Two floats of which the store keeps the same are both NaN, both zero,
    or the same float. *)
Lemma store_same x y :
  store x = store y ->
  (is_nan x = true /\ is_nan y = true)
  \/ (is_zero x = true /\ is_zero y = true)
  \/ x = y.
Proof.
  unfold store, bind.
  destruct (is_nan x) eqn:Nx, (is_nan y) eqn:Ny; simpl.
  - now left.
  - destruct (is_zero y); discriminate.
  - destruct (is_zero x); discriminate.
  - destruct (is_zero x) eqn:Zx, (is_zero y) eqn:Zy.
    + right. now left.
    + intros [= <-]. change (is_zero 0) with true in Zy. discriminate.
    + intros [= ->]. change (is_zero 0) with true in Zx. discriminate.
    + intros [= ->]. right. now right.
Qed.

Lemma store_alike x y :
  Prim2SF x = Prim2SF y
  \/ ((exists sg, Prim2SF x = S754_zero sg)
      /\ (exists sg, Prim2SF y = S754_zero sg)) ->
  store x = store y.
Proof.
  intros [H|[Hx Hy]].
  - now rewrite (Prim2SF_inj _ _ H).
  - apply is_zero_Prim2SF in Hx, Hy.
    now rewrite (store_zero _ Hx), (store_zero _ Hy).
Qed.

(** [balance + ?] and [balance - ?] as they are written to the column, on
    a balance that is a number: what the store keeps of the binary64
    result, also for a parameter that is a NaN. *)
Lemma keep_plus b x : keep (plus (REAL b) (bind x)) = store (b + x).
Proof.
  unfold bind at 1. destruct (is_nan x) eqn:E; [|reflexivity].
  simpl. symmetry. now apply store_nan, add_nan_r.
Qed.

Lemma keep_minus b x : keep (minus (REAL b) (bind x)) = store (b - x).
Proof.
  unfold bind at 1. destruct (is_nan x) eqn:E; [|reflexivity].
  simpl. symmetry. now apply store_nan, sub_nan_r.
Qed.

(** The same on a balance that the store has kept of a float. *)
Lemma keep_plus_store b x : keep (plus (store b) (bind x)) = store (b + x).
Proof.
  destruct (is_nan b) eqn:N.
  - rewrite (store_nan _ N). simpl. symmetry.
    now apply store_nan, add_nan_l.
  - destruct (is_zero b) eqn:Z.
    + rewrite (store_zero _ Z), keep_plus.
      apply store_alike, add_zeros; [reflexivity | exact Z].
    + rewrite (store_other _ N Z). apply keep_plus.
Qed.


Lemma account_number_set_balance f a r :
  account_number (set_balance f a r) = account_number r.
Proof. unfold set_balance. destruct (String.eqb _ _); reflexivity. Qed.

Lemma map_account_number_set_balance f a l :
  map account_number (map (set_balance f a) l) = map account_number l.
Proof.
  rewrite map_map. apply map_ext. intros r. apply account_number_set_balance.
Qed.

Lemma find_set_balance f a k l :
  find (fun r => String.eqb (account_number r) k) (map (set_balance f a) l)
  = option_map (set_balance f a)
      (find (fun r => String.eqb (account_number r) k) l).
Proof.
  induction l as [|r l IH]; simpl; [reflexivity|].
  rewrite account_number_set_balance.
  destruct (String.eqb (account_number r) k); [reflexivity | exact IH].
Qed.

Lemma find_account_number k l r :
  find (fun r => String.eqb (account_number r) k) l = Some r ->
  account_number r = k.
Proof.
  intros H. apply find_some in H. destruct H as [_ H].
  now apply String.eqb_eq.
Qed.


(** The balance of [k] after [UPDATE ... WHERE account_number = a]. *)
Lemma balance_of_set_balance f a k (d : database) acc' :
  acc' = map (set_balance f a) (accounts d) ->
  balance_of (mk_database acc' (users d) (transactions d) (sqlite_sequence d)) k
  = if String.eqb k a then option_map f (balance_of d k) else balance_of d k.
Proof.
  intros ->. unfold balance_of, select_account. simpl.
  rewrite find_set_balance.
  destruct (find _ (accounts d)) as [r|] eqn:E; simpl.
  - apply find_account_number in E. unfold set_balance. rewrite E.
    destruct (String.eqb k a); reflexivity.
  - destruct (String.eqb k a); reflexivity.
Qed.

Lemma balance_of_update_plus x a k d :
  balance_of (update_balance_plus x a d) k
  = if String.eqb k a
    then option_map (fun b => keep (plus b (bind x))) (balance_of d k)
    else balance_of d k.
Proof. now apply balance_of_set_balance. Qed.

Lemma balance_of_update_minus x a k d :
  balance_of (update_balance_minus x a d) k
  = if String.eqb k a
    then option_map (fun b => keep (minus b (bind x))) (balance_of d k)
    else balance_of d k.
Proof. now apply balance_of_set_balance. Qed.

Lemma balance_of_insert_transaction now a ty x rel d k :
  balance_of (insert_transaction now a ty x rel d) k = balance_of d k.
Proof. reflexivity. Qed.




End SqliteFacts.

(** ** Transfers *)

Module TransferFacts.

Import Sqlite FloatFacts SqliteFacts Spec.





Lemma rate_limiter_open now func s cu :
  Bank.current_user s = Some cu ->
  rate_gate_open now s (Bank.cu_account_number cu) ->
  Bank.rate_limiter now func s = func (past_rate_gate now s cu).
Proof.
  intros Hcu Hopen.
  unfold Bank.rate_limiter, rate_gate_open, past_rate_gate in *.
  rewrite Hcu.
  destruct (Bank.rate_limit_cache s (Bank.cu_account_number cu)) as [last|];
    [|reflexivity].
  apply Qgtb_false in Hopen. rewrite Hopen. reflexivity.
Qed.


End TransferFacts.

(** ** Deposits and withdrawals *)

Module LedgerFacts.

Import Sqlite FloatFacts SqliteFacts Spec.

(** The two statements of a deposit and of a withdrawal, in the order of
    the source; [ty] is the text that the front-end writes in the [type]
    column. *)
Lemma balance_after_deposit now a ty x d b :
  balance_of d a = Some b ->
  balance_of (deposited now a ty x d) a = Some (keep (plus b (bind x))).
Proof.
  intros H. unfold deposited.
  rewrite balance_of_insert_transaction, balance_of_update_plus.
  now rewrite String.eqb_refl, H.
Qed.

Lemma balance_after_withdrawal now a ty x d b :
  balance_of d a = Some b ->
  balance_of (withdrawn now a ty x d) a = Some (keep (minus b (bind x))).
Proof.
  intros H. unfold withdrawn.
  rewrite balance_of_insert_transaction, balance_of_update_minus.
  now rewrite String.eqb_refl, H.
Qed.

Lemma balance_of_deposited_other now a ty x d k :
  k <> a -> balance_of (deposited now a ty x d) k = balance_of d k.
Proof.
  intros H. unfold deposited.
  rewrite balance_of_insert_transaction, balance_of_update_plus.
  apply String.eqb_neq in H. now rewrite H.
Qed.

Lemma balance_of_withdrawn_other now a ty x d k :
  k <> a -> balance_of (withdrawn now a ty x d) k = balance_of d k.
Proof.
  intros H. unfold withdrawn.
  rewrite balance_of_insert_transaction, balance_of_update_minus.
  apply String.eqb_neq in H. now rewrite H.
Qed.

(** The web front-end performs every deposit that its test [amount <= 0]
    lets through. *)
Lemma App_deposit_ok now x f i :
  float_le x 0 = false ->
  let r := App.deposit now x f (Some i) in
  App.flashed r = [App.Successfully_deposited x]
  /\ App.sess r = Some i
  /\ App.db r = deposited now (App.session_account_number i) "Deposit" x f.
Proof.
  intros Hx r. subst r. unfold App.deposit. rewrite Hx. repeat split.
Qed.

Lemma App_withdraw_ok now x f i b :
  balance_of f (App.session_account_number i) = Some (REAL b) ->
  float_le x 0 = false -> float_gt x b = false ->
  let r := App.withdraw now x f (Some i) in
  App.flashed r = [App.Successfully_withdrew x]
  /\ App.sess r = Some i
  /\ App.db r
     = withdrawn now (App.session_account_number i) "Withdrawal" x f.
Proof.
  intros Hb Hx Hle r. subst r. unfold App.withdraw.
  cbn [view connect pending file].
  fold (balance_of f (App.session_account_number i)).
  rewrite Hb, Hx, Hle. repeat split.
Qed.

Lemma App_withdraw_insufficient now x f i b :
  balance_of f (App.session_account_number i) = Some (REAL b) ->
  float_le x 0 = false -> float_gt x b = true ->
  let r := App.withdraw now x f (Some i) in
  App.flashed r = [App.Insufficient_funds]
  /\ App.resp r = App.redirect "dashboard"
  /\ App.sess r = Some i
  /\ App.db r = f.
Proof.
  intros Hb Hx Hlt r. subst r. unfold App.withdraw.
  cbn [view connect pending file].
  fold (balance_of f (App.session_account_number i)).
  rewrite Hb, Hx, Hlt. repeat split.
Qed.

End LedgerFacts.

(** ** Deposits and withdrawals of the console *)

Module ConsoleFacts.

Import Sqlite FloatFacts SqliteFacts Spec.

Lemma Bank_deposit_ok now x s cu b :
  Bank.current_user s = Some cu ->
  Bank.cu_balance cu = Some (REAL b) ->
  rate_gate_open now s (Bank.cu_account_number cu) ->
  float_gt x 0 = true ->
  let o := Bank.deposit now x s in
  Bank.completed o = Bank.returned None
  /\ Bank.printed o = [Bank.Deposited_successfully x (b + x)]
  /\ Bank.self o
     = Bank.set_cached_balance
         (Bank.set_conn (past_rate_gate now s cu)
            (connect (deposited now (Bank.cu_account_number cu) "Deposit" x
                        (view (Bank.conn s)))))
         cu (b + x).
Proof.
  intros Hcu Hb Hopen Hx o. subst o.
  unfold Bank.deposit, Bank.authenticate. rewrite Hcu.
  rewrite (TransferFacts.rate_limiter_open _ _ _ _ Hcu Hopen).
  unfold Bank.deposit_def. cbn [Bank.current_user past_rate_gate].
  rewrite Hcu, Hb, Hx.
  repeat split.
Qed.

Lemma Bank_withdraw_ok now x s cu b :
  Bank.current_user s = Some cu ->
  Bank.cu_balance cu = Some (REAL b) ->
  rate_gate_open now s (Bank.cu_account_number cu) ->
  float_gt x b = false -> float_le x 0 = false ->
  let o := Bank.withdraw now x s in
  Bank.completed o = Bank.returned None
  /\ Bank.printed o = [Bank.Withdrawn_successfully x (b - x)]
  /\ Bank.self o
     = Bank.set_cached_balance
         (Bank.set_conn (past_rate_gate now s cu)
            (connect (withdrawn now (Bank.cu_account_number cu) "Withdraw" x
                        (view (Bank.conn s)))))
         cu (b - x).
Proof.
  intros Hcu Hb Hopen Hle Hx o. subst o.
  unfold Bank.withdraw, Bank.authenticate. rewrite Hcu.
  rewrite (TransferFacts.rate_limiter_open _ _ _ _ Hcu Hopen).
  unfold Bank.withdraw_def. cbn [Bank.current_user past_rate_gate].
  rewrite Hcu, Hb, Hx, Hle. repeat split.
Qed.

Lemma Bank_withdraw_insufficient now x s cu b :
  Bank.current_user s = Some cu ->
  Bank.cu_balance cu = Some (REAL b) ->
  rate_gate_open now s (Bank.cu_account_number cu) ->
  float_gt x b = true ->
  let o := Bank.withdraw now x s in
  Bank.completed o = Bank.returned None
  /\ Bank.printed o = [Bank.Insufficient_balance]
  /\ Bank.self o = past_rate_gate now s cu.
Proof.
  intros Hcu Hb Hopen Hlt o. subst o.
  unfold Bank.withdraw, Bank.authenticate. rewrite Hcu.
  rewrite (TransferFacts.rate_limiter_open _ _ _ _ Hcu Hopen).
  unfold Bank.withdraw_def. cbn [Bank.current_user past_rate_gate].
  rewrite Hcu, Hb, Hlt. repeat split.
Qed.

End ConsoleFacts.

(** ** C1: what a transfer moves *)

Import Sqlite Spec.




(** The transfer of the witness is exact: 10000 - 1000 and 0 + 1000 are
    binary64 values, and the sum of the balances is 10000 before and
    after. *)
Example exact_transfer_keeps_the_total :
  exact_difference 10000 1000 /\ exact_addition 0 1000
  /\ same_total Scenario.bank_db
       (App.db (App.transfer 1700000100 Scenario.B 1000 Scenario.bank_db
                             (Some Scenario.test_session))).
Proof.
  split; [|split].
  - do 3 eexists. split; [reflexivity|]. split; [reflexivity|].
    split; [reflexivity|]. apply Qeq_bool_iff. vm_compute. reflexivity.
  - do 3 eexists. split; [reflexivity|]. split; [reflexivity|].
    split; [reflexivity|]. apply Qeq_bool_iff. vm_compute. reflexivity.
  - do 2 eexists. split; [reflexivity|]. split; [reflexivity|].
    apply Qeq_bool_iff. vm_compute. reflexivity.
Qed.

(** ** C5: registering a username that exists *)

Lemma select_user_present d u :
  In u (map username (users d)) -> exists r, select_user d u = Some r.
Proof.
  unfold select_user. induction (users d) as [|x l IH]; simpl; [tauto|].
  intros [E|H].
  - rewrite E, String.eqb_refl. now exists x.
  - destruct (String.eqb (username x) u); [now exists x | now apply IH].
Qed.

(** C5.  A registration under a username that the users table already has
    reports 'Username already exists' and writes nothing: in the web
    front-end the file and the session are the ones before the request, in
    the console the whole state (connection included) is the one before the
    call, which returns [False]. *)
Theorem register_existing_username_writes_nothing
    sha256_hexdigest now username password name initial_deposit :
  (forall f s,
      In username (map Sqlite.username (users f)) ->
      let r := App.register sha256_hexdigest App.POST now username password
                            name initial_deposit f s in
      App.flashed r = [App.Username_already_exists]
      /\ App.resp r = App.redirect "register"
      /\ accounts (App.db r) = accounts f
      /\ users (App.db r) = users f
      /\ App.db r = f)
  /\ (forall s,
         In username (map Sqlite.username (users (view (Bank.conn s)))) ->
         let o := Bank.register sha256_hexdigest now username password name
                                initial_deposit s in
         Bank.printed o = [Bank.Username_already_exists]
         /\ Bank.completed o = Bank.returned (Some false)
         /\ Bank.self o = s).
Proof.
  split.
  - intros f s H r. subst r. unfold App.register.
    destruct (select_user_present _ _ H) as [row E].
    cbn [view connect pending file]. rewrite E. repeat split.
  - intros s H o. subst o.
    unfold Bank.register, Bank.error_handler, Bank.register_def.
    destruct (select_user_present _ _ H) as [row E]. rewrite E.
    repeat split.
Qed.

Lemma register_existing_username_writes_nothing_witness :
  App.db (App.register Scenario.sha256_hexdigest App.POST 1700000200 "bob"
            "pw" "Robert" 25 Scenario.bank_db None)
  = Scenario.bank_db
  /\ Bank.self (Bank.register Scenario.sha256_hexdigest 1700000200 "bob"
                  "pw" "Robert" 25 (Bank.__init__ Scenario.bank_db))
     = Bank.__init__ Scenario.bank_db.
Proof.
  destruct (register_existing_username_writes_nothing
              Scenario.sha256_hexdigest 1700000200 "bob" "pw" "Robert" 25)
    as [Hweb Hconsole].
  split.
  - apply (Hweb Scenario.bank_db None). simpl. tauto.
  - apply (Hconsole (Bank.__init__ Scenario.bank_db)). simpl. tauto.
Defined.

(** ** C3: a transfer of an amount that is not positive *)

(** C3, on the code.  Neither [transfer] nor [transfer_money] compares the
    amount with zero.  A transfer of -50.00 from A (10000.00) to B (0.00) is
    performed by both: A holds 10050.00 and B -50.00 afterwards, and the two
    rows are written. *)
Theorem transfer_of_negative_amount_is_performed :
  let r := App.transfer 1700000100 Scenario.B (-50) Scenario.bank_db
                        (Some Scenario.test_session) in
  let o := Bank.transfer_money 1700000100 Scenario.B (-50)
             (Scenario.logged_in Scenario.bank_db 10000) in
  (App.flashed r = [App.Successfully_transferred (-50) Scenario.B]
   /\ balance_of (App.db r) Scenario.A = Some (REAL 10050)
   /\ balance_of (App.db r) Scenario.B = Some (REAL (-50))
   /\ transactions (App.db r)
      = transfer_records 1700000100 0 Scenario.A Scenario.B (-50))
  /\ (Bank.printed o
      = [Bank.Transferred_successfully (-50) Scenario.B;
         Bank.New_balance 10050]
      /\ balance_of (file (Bank.conn (Bank.self o))) Scenario.A = Some (REAL 10050)
      /\ balance_of (file (Bank.conn (Bank.self o))) Scenario.B = Some (REAL (-50))
      /\ transactions (file (Bank.conn (Bank.self o)))
         = transfer_records 1700000100 0 Scenario.A Scenario.B (-50)).
Proof. vm_compute. repeat split. Qed.

(** ** C7: the record of a withdrawal *)

(** The web front-end: the balance becomes what the store keeps of the
    binary64 difference of it and the amount, and one row of type
    'Withdrawal' is appended, in one commit. *)
Lemma App_withdraw_records_Withdrawal now x f i b :
  balance_of f (App.session_account_number i) = Some (REAL b) ->
  (0 <? x)%float = true -> (x <=? b)%float = true ->
  let r := App.withdraw now x f (Some i) in
  App.flashed r = [App.Successfully_withdrew x]
  /\ balance_of (App.db r) (App.session_account_number i)
     = Some (store (b - x))
  /\ transactions (App.db r)
     = (transactions f
          ++ [mk_transaction (sqlite_sequence f + 1)
                (App.session_account_number i) "Withdrawal" (REAL x) None
                (CURRENT_TIMESTAMP now)])%list
  /\ In "Withdrawal" kinds.
Proof.
  intros Hb Hx Hle r.
  destruct (LedgerFacts.App_withdraw_ok now x f i b Hb
              (FloatFacts.float_le_false _ _ Hx)
              (FloatFacts.float_gt_false _ _ Hle)) as (H1 & _ & H3).
  subst r. rewrite H3. split; [exact H1|]. split; [|split].
  - rewrite (LedgerFacts.balance_after_withdrawal now _ _ x f _ Hb).
    now rewrite SqliteFacts.keep_minus.
  - simpl. now rewrite (SqliteFacts.store_positive _ Hx).
  - simpl. tauto.
Qed.

(** C7, on the code.  The console writes the text 'Withdraw' in the [type]
    column, which is none of the four kinds; the web front-end writes
    'Withdrawal' for the same operation on the same table.  A withdrawal of
    100.00 from A (10000.00) in the console: *)
Theorem console_withdraw_records_type_Withdraw :
  let o := Bank.withdraw 1700000100 100
             (Scenario.logged_in Scenario.bank_db 10000) in
  Bank.printed o = [Bank.Withdrawn_successfully 100 9900]
  /\ balance_of (file (Bank.conn (Bank.self o))) Scenario.A
     = Some (REAL 9900)
  /\ transactions (file (Bank.conn (Bank.self o)))
     = [mk_transaction 1 Scenario.A "Withdraw" (REAL 100) None 1700000100]
  /\ ~ In "Withdraw" kinds.
Proof.
  vm_compute. repeat split. intuition discriminate.
Qed.

(** ** C4: a withdrawal of more than the stored balance *)

(** The web front-end reads the balance from the store at the check. *)
Lemma App_withdraw_more_than_stored now x f i b :
  balance_of f (App.session_account_number i) = Some (REAL b) ->
  (0 <? x)%float = true -> (b <? x)%float = true ->
  let r := App.withdraw now x f (Some i) in
  App.flashed r = [App.Insufficient_funds] /\ App.db r = f.
Proof.
  intros Hb Hx Hlt r.
  destruct (LedgerFacts.App_withdraw_insufficient now x f i b Hb
              (FloatFacts.float_le_false _ _ Hx) Hlt)
    as (H1 & _ & _ & H4).
  now split.
Qed.

(** C4, on the code.  The console compares the amount with
    [current_user['balance']], the balance read at login.  After the
    console's login (10000.00) a withdrawal of 9000.00 through the web
    front-end leaves 1000.00 in the store; the console then accepts a
    withdrawal of 5000.00 and the stored balance is -4000.00. *)
Theorem console_withdraw_checks_the_login_snapshot :
  let w := Scenario.after_web_withdrawal in
  let o := Bank.withdraw (Scenario.t0 + 120) 5000 (SharedFile.console w) in
  balance_of (file (Bank.conn (SharedFile.console w))) Scenario.A
  = Some (REAL 1000)
  /\ Bank.printed o = [Bank.Withdrawn_successfully 5000 5000]
  /\ balance_of (file (Bank.conn (Bank.self o))) Scenario.A
     = Some (REAL (-4000))
  /\ List.length (transactions (file (Bank.conn (Bank.self o)))) = 2%nat.
Proof. vm_compute. repeat split. Qed.

(** ** C8: a deposit followed by a withdrawal of the same amount *)




(** In the witness nothing is rounded: 10000 + 500 - 500 is 10000. *)
Example deposit_then_withdraw_of_500 :
  store (10000 + 500 - 500) = REAL 10000.
Proof. reflexivity. Qed.

(** ** C9: a session whose token has expired *)

(** [_verify_token] itself answers as the claim says. *)
Lemma verify_token_expired hmac_sha256 key now p :
  inject_Z (Jwt.exp p) <= now ->
  Bank._verify_token hmac_sha256 key now (Jwt.encode hmac_sha256 p key)
  = (None, [Bank.Token_has_expired]).
Proof.
  intros H. unfold Bank._verify_token, Jwt.encode, Jwt.decode.
  rewrite String.eqb_refl. apply Qle_bool_iff in H. now rewrite H.
Qed.

Lemma verify_token_malformed hmac_sha256 key now x :
  Bank._verify_token hmac_sha256 key now (Jwt.malformed x)
  = (None, [Bank.Invalid_token]).
Proof. reflexivity. Qed.

(** C9, on the code.  [_verify_token] is defined and never called:
    [authenticate] looks at [current_user] only.  Thirty minutes and a
    second after the login the token of the session is expired, and a
    deposit, a withdrawal, a transfer and the history are served all the
    same; so they are for a session that holds a string that is no
    token. *)
Theorem expired_session_is_served :
  let late := Scenario.t0 + 1801 in
  let verify :=
    Bank._verify_token Scenario.hmac_sha256 Scenario.SECRET_KEY late in
  let s := Scenario.console_session in
  let s' := Scenario.tampered_session in
  option_map verify (Bank.token s) = Some (None, [Bank.Token_has_expired])
  /\ option_map verify (Bank.token s') = Some (None, [Bank.Invalid_token])
  /\ Bank.printed (Bank.deposit late 500 s)
     = [Bank.Deposited_successfully 500 10500]
  /\ Bank.printed (Bank.withdraw late 500 s)
     = [Bank.Withdrawn_successfully 500 9500]
  /\ Bank.printed (Bank.transfer_money late Scenario.B 500 s)
     = [Bank.Transferred_successfully 500 Scenario.B; Bank.New_balance 9500]
  /\ Bank.printed (Bank.get_transaction_history s)
     = [Bank.No_transactions_found]
  /\ Bank.printed (Bank.deposit late 500 s')
     = [Bank.Deposited_successfully 500 10500]
  /\ balance_of (file (Bank.conn (Bank.self (Bank.deposit late 500 s))))
                Scenario.A = Some (REAL 10500).
Proof. vm_compute. repeat split. Qed.

(** ** C2: no balance is negative *)

(** C2, on the code.  One request, a transfer of -50.00 from A to B, takes
    a store in which no balance is negative to one in which B holds -50.00;
    the same call does it in the console.  It is the missing comparison of
    the amount with zero in [transfer] and [transfer_money]. *)
Theorem negative_transfer_makes_a_balance_negative :
  balances_nonnegative Scenario.bank_db
  /\ ~ balances_nonnegative
        (fst (App.serve Scenario.sha256_hexdigest
                [App.Transfer 1700000100 Scenario.B (-50)]
                Scenario.bank_db (Some Scenario.test_session)))
  /\ ~ balances_nonnegative
        (file (Bank.conn
           (Bank.run Scenario.sha256_hexdigest Scenario.hmac_sha256
              Scenario.SECRET_KEY
              [Bank.Login 1700000000 "test" "test123";
               Bank.Transfer_money 1700000100 Scenario.B (-50)]
              (Bank.__init__ Scenario.bank_db)))).
Proof.
  split; [|split].
  - repeat constructor.
  - intros H. vm_compute in H.
    inversion H as [|? ? _ H']. inversion H' as [|? ? Hb _].
    discriminate Hb.
  - intros H. vm_compute in H.
    inversion H as [|? ? _ H']. inversion H' as [|? ? Hb _].
    discriminate Hb.
Qed.

(** ** C6: the history *)

Module HistoryFacts.

Import Sqlite Spec.

Lemma sorter_insert_perm r l : Permutation (sorter_insert r l) (r :: l).
Proof.
  induction l as [|x l IH]; simpl; [reflexivity|].
  destruct (timestamp x <? timestamp r)%Z; [reflexivity|].
  rewrite IH. apply perm_swap.
Qed.

Lemma sorter_insert_sorted r l :
  StronglySorted newest_first_earlier_first l ->
  Forall (fun x => (id x < id r)%Z) l ->
  StronglySorted newest_first_earlier_first (sorter_insert r l).
Proof.
  induction l as [|x l IH]; simpl; intros Hs Hid.
  - repeat constructor.
  - apply StronglySorted_inv in Hs. destruct Hs as [Hs Hx].
    inversion Hid as [|? ? Hxr Hid']; subst.
    destruct (Z.ltb_spec (timestamp x) (timestamp r)) as [Hlt|Hge].
    + constructor; [constructor; assumption|].
      constructor; [left; exact Hlt|].
      rewrite Forall_forall in *. intros y Hy. left.
      destruct (Hx y Hy) as [H|[H _]]; lia.
    + constructor; [now apply IH|].
      rewrite Forall_forall. intros y Hy.
      apply (Permutation_in _ (sorter_insert_perm r l)) in Hy.
      destruct Hy as [<-|Hy].
      * unfold newest_first_earlier_first. lia.
      * rewrite Forall_forall in Hx. now apply Hx.
Qed.

Lemma fold_sorter_perm l :
  forall acc,
    Permutation (fold_left (fun acc r => sorter_insert r acc) l acc)
                (acc ++ l).
Proof.
  induction l as [|r l IH]; simpl; intros acc.
  - now rewrite app_nil_r.
  - rewrite IH, sorter_insert_perm. apply Permutation_middle.
Qed.

Lemma fold_sorter_sorted l :
  forall acc,
    StronglySorted (fun x y => (id x < id y)%Z) l ->
    StronglySorted newest_first_earlier_first acc ->
    Forall (fun x => Forall (fun y => (id x < id y)%Z) l) acc ->
    StronglySorted newest_first_earlier_first (fold_left (fun acc r => sorter_insert r acc) l acc).
Proof.
  induction l as [|r l IH]; simpl; intros acc Hl Hacc Hlt; [exact Hacc|].
  apply StronglySorted_inv in Hl. destruct Hl as [Hl Hr].
  apply IH; [exact Hl | |].
  - apply sorter_insert_sorted; [exact Hacc|].
    rewrite Forall_forall in *. intros x Hx.
    specialize (Hlt x Hx). now inversion Hlt.
  - rewrite Forall_forall in *. intros x Hx.
    apply (Permutation_in _ (sorter_insert_perm r acc)) in Hx.
    destruct Hx as [<-|Hx]; [apply Forall_forall; exact Hr|].
    specialize (Hlt x Hx). now inversion Hlt.
Qed.

Lemma order_by_timestamp_desc_perm l :
  Permutation (order_by_timestamp_desc l) l.
Proof. apply (fold_sorter_perm l []). Qed.

Lemma order_by_timestamp_desc_sorted l :
  StronglySorted (fun x y => (id x < id y)%Z) l ->
  StronglySorted newest_first_earlier_first (order_by_timestamp_desc l).
Proof.
  intros H. apply fold_sorter_sorted; [exact H | constructor | constructor].
Qed.

Lemma StronglySorted_filter {A} (P : A -> A -> Prop) (f : A -> bool) l :
  StronglySorted P l -> StronglySorted P (filter f l).
Proof.
  induction 1 as [|x l Hs IH Hx]; simpl; [constructor|].
  destruct (f x); [|exact IH].
  constructor; [exact IH|].
  rewrite Forall_forall in *. intros y Hy. apply filter_In in Hy.
  now apply Hx.
Qed.

(** The query returns the first [n] rows of the account's rows, newest
    first and, within one timestamp, in the order of insertion. *)
Lemma select_history_spec d a n :
  ids_increasing d ->
  history_of newest_first_earlier_first d a n (select_history d a n).
Proof.
  intros Hid. unfold history_of, select_history. fold (records_of d a).
  set (sorted := order_by_timestamp_desc (records_of d a)).
  split; [apply firstn_le_length|].
  exists (skipn n sorted). rewrite firstn_skipn. repeat split.
  - apply order_by_timestamp_desc_perm.
  - apply order_by_timestamp_desc_sorted.
    now apply StronglySorted_filter.
  - destruct (Nat.le_gt_cases (List.length sorted) n) as [H|H].
    + left. now apply skipn_all2.
    + right. apply firstn_length_le. lia.
Qed.

(** [INSERT INTO transactions] keeps the ids growing, as long as the
    sequence counter is not below the ids of the table. *)
Lemma insert_transaction_ids now a ty x rel d :
  ids_increasing d ->
  Forall (fun r => (id r <= sqlite_sequence d)%Z) (transactions d) ->
  ids_increasing (insert_transaction now a ty x rel d)
  /\ Forall (fun r => (id r <= sqlite_sequence
                                 (insert_transaction now a ty x rel d))%Z)
            (transactions (insert_transaction now a ty x rel d)).
Proof.
  unfold ids_increasing. simpl. intros Hs Hle. split.
  - induction (transactions d) as [|r l IH]; simpl.
    + repeat constructor.
    + apply StronglySorted_inv in Hs. destruct Hs as [Hs Hr].
      inversion Hle as [|? ? Hr' Hle']; subst.
      constructor; [now apply IH|].
      apply Forall_app. split; [exact Hr|].
      repeat constructor. simpl. lia.
  - apply Forall_app. split.
    + eapply Forall_impl; [|exact Hle]. simpl. intros; lia.
    + repeat constructor. simpl. lia.
Qed.

End HistoryFacts.

(** C6, as the claim states it, at the store in which the web front-end
    has served a deposit and a withdrawal within one second: the dashboard
    shows the deposit, which was inserted first, above the withdrawal. *)
Lemma history_ties_are_not_latest_first :
  ~ history_of newest_first_later_first Scenario.two_in_one_second
      Scenario.A App.dashboard_limit
      (select_history Scenario.two_in_one_second Scenario.A
                      App.dashboard_limit).
Proof.
  intros [_ [rest [_ [Hs _]]]].
  change (StronglySorted newest_first_later_first
            (mk_transaction 1 Scenario.A "Deposit" (REAL 500) None
                            1700000100
             :: mk_transaction 2 Scenario.A "Withdrawal" (REAL 200) None
                               1700000100
             :: rest)) in Hs.
  apply StronglySorted_inv in Hs. destruct Hs as [_ Hs].
  inversion Hs as [|? ? H _]. unfold newest_first_later_first in H.
  simpl in H. lia.
Qed.

(** The loop of [get_transaction_history] prints a line for every row
    when no amount is [NULL]. *)
Lemma print_history_complete l :
  Forall (fun t => amount t <> NULL) l ->
  snd (Bank.print_history l) = Bank.returned None
  /\ map Some (fst (Bank.print_history l)) = map Bank.history_line l.
Proof.
  induction 1 as [|t l Ht Hl [IH1 IH2]]; [now split|].
  cbn [Bank.print_history map].
  destruct (Bank.history_line t) as [m|] eqn:E.
  - cbn [fst snd map]. split; [exact IH1|]. now rewrite IH2.
  - unfold Bank.history_line in E.
    destruct (amount t); [contradiction | discriminate].
Qed.

(** C6, amended.  In a store whose transaction ids grow with the rowid,
    the history of an account is at most [limit] of its rows (5 on the
    dashboard, 10 in the console): the first [limit] of the account's rows
    put newest first by timestamp, rows of equal timestamp in the order of
    their insertion, the one inserted earlier first.  The console prints
    its lines in that order, one for every row when no amount is [NULL]. *)
Theorem history_newest_first_ties_in_insertion_order :
  (forall f i,
      ids_increasing f ->
      exists res,
        App.resp (App.dashboard f (Some i))
        = App.render_dashboard
            (select_account f (App.session_account_number i)) res
        /\ history_of newest_first_earlier_first f
             (App.session_account_number i) App.dashboard_limit res)
  /\ (forall s cu,
         Bank.current_user s = Some cu ->
         ids_increasing (view (Bank.conn s)) ->
         let res := Bank.fetch_history s cu in
         history_of newest_first_earlier_first (view (Bank.conn s))
           (Bank.cu_account_number cu) Bank.history_limit res
         /\ Bank.printed (Bank.get_transaction_history s)
            = match res with
              | [] => [Bank.No_transactions_found]
              | _ => Bank.Last_10_Transactions
                     :: fst (Bank.print_history res)
              end
         /\ (Forall (fun t => amount t <> NULL) res ->
             Bank.completed (Bank.get_transaction_history s)
             = Bank.returned None
             /\ map Some (fst (Bank.print_history res))
                = map Bank.history_line res)).
Proof.
  split.
  - intros f i Hid. eexists. split; [reflexivity|].
    now apply HistoryFacts.select_history_spec.
  - intros s cu Hcu Hid res. split; [|split].
    + now apply HistoryFacts.select_history_spec.
    + unfold Bank.get_transaction_history, Bank.authenticate.
      rewrite Hcu. fold res. destruct res; reflexivity.
    + intros Hall. destruct (print_history_complete res Hall) as [H1 H2].
      split; [|exact H2].
      unfold Bank.get_transaction_history, Bank.authenticate.
      rewrite Hcu. fold res. destruct res; [reflexivity | exact H1].
Qed.

Lemma history_newest_first_ties_in_insertion_order_witness :
  history_of newest_first_earlier_first Scenario.two_in_one_second
    Scenario.A Bank.history_limit
    (Bank.fetch_history
       (Scenario.logged_in Scenario.two_in_one_second 10300)
       (Scenario.test_dict 10300))
  /\ exists res,
       App.resp (App.dashboard Scenario.two_in_one_second
                               (Some Scenario.test_session))
       = App.render_dashboard
           (select_account Scenario.two_in_one_second Scenario.A) res
       /\ history_of newest_first_earlier_first Scenario.two_in_one_second
            Scenario.A App.dashboard_limit res.
Proof.
  assert (Hid : ids_increasing Scenario.two_in_one_second).
  { unfold ids_increasing. vm_compute.
    repeat constructor. }
  destruct history_newest_first_ties_in_insertion_order as [Hweb Hconsole].
  split.
  - apply (Hconsole (Scenario.logged_in Scenario.two_in_one_second 10300)
                    (Scenario.test_dict 10300) eq_refl Hid).
  - apply (Hweb Scenario.two_in_one_second Scenario.test_session Hid).
Defined.

(** ** C10: the balance that the console holds *)

Module SnapshotFacts.

Import Sqlite FloatFacts SqliteFacts Spec.

Lemma view_clean c : nothing_uncommitted c -> view c = file c.
Proof. unfold view. intros [H|H]; now rewrite H. Qed.

Lemma invariant_intro c u t rl :
  users_have_accounts (file c) ->
  pending c = None ->
  (forall cu b, u = Some cu -> Bank.cu_balance cu = Some b ->
                option_map stored_form
                  (balance_of (file c) (Bank.cu_account_number cu))
                = Some (stored_form b)) ->
  console_invariant (Bank.mk_state c u t rl).
Proof.
  intros Hu Hp Hs. unfold console_invariant, snapshot_corresponds, view.
  cbn [Bank.conn Bank.current_user]. rewrite Hp.
  split; [exact Hu|]. split; [now left|].
  intros cu b H1 H2. split; now apply Hs.
Qed.

(** *** What the store keeps of the float that the console computes *)

Lemma stored_form_store x : stored_form (store x) = store x.
Proof.
  destruct (is_nan x) eqn:N.
  - now rewrite (store_nan _ N).
  - destruct (is_zero x) eqn:Z.
    + rewrite (store_zero _ Z). reflexivity.
    + rewrite (store_other _ N Z). cbn [stored_form].
      now apply store_other.
Qed.

Lemma store_sum_same s c x : store s = store c -> store (s + x) = store (c + x).
Proof.
  intros H. destruct (store_same _ _ H) as [[Hs Hc]|[[Hs Hc]| ->]].
  - rewrite (store_nan _ (add_nan_l _ x Hs)).
    now rewrite (store_nan _ (add_nan_l _ x Hc)).
  - now apply store_alike, add_zeros.
  - reflexivity.
Qed.

Lemma store_difference_same s c x :
  store s = store c -> store (s - x) = store (c - x).
Proof.
  intros H. destruct (store_same _ _ H) as [[Hs Hc]|[[Hs Hc]| ->]].
  - rewrite (store_nan _ (sub_nan_l _ x Hs)).
    now rewrite (store_nan _ (sub_nan_l _ x Hc)).
  - now apply store_alike, sub_zeros.
  - reflexivity.
Qed.

Lemma stored_form_plus v c x :
  stored_form v = stored_form (REAL c) ->
  stored_form (keep (plus v (bind x))) = stored_form (REAL (c + x)).
Proof.
  destruct v as [|s]; cbn [stored_form]; intros H.
  - symmetry in H. apply store_NULL in H. simpl.
    symmetry. now apply store_nan, add_nan_l.
  - rewrite keep_plus, stored_form_store. now apply store_sum_same.
Qed.

Lemma stored_form_minus v c x :
  stored_form v = stored_form (REAL c) ->
  stored_form (keep (minus v (bind x))) = stored_form (REAL (c - x)).
Proof.
  destruct v as [|s]; cbn [stored_form]; intros H.
  - symmetry in H. apply store_NULL in H. simpl.
    symmetry. now apply store_nan, sub_nan_l.
  - rewrite keep_minus, stored_form_store. now apply store_difference_same.
Qed.

Lemma stored_form_plus_NULL v x :
  stored_form v = NULL -> stored_form (keep (plus v (bind x))) = NULL.
Proof.
  destruct v as [|s]; cbn [stored_form]; intros H; [reflexivity|].
  apply store_NULL in H. rewrite keep_plus, stored_form_store.
  now apply store_nan, add_nan_l.
Qed.

(** The stored balance of [a] after the statements of a deposit, of a
    withdrawal and of a transfer from [a], against the float that the
    console then holds. *)
Lemma corresponds_deposited now a ty x d c :
  option_map stored_form (balance_of d a) = Some (stored_form (REAL c)) ->
  option_map stored_form (balance_of (deposited now a ty x d) a)
  = Some (stored_form (REAL (c + x))).
Proof.
  destruct (balance_of d a) as [v|] eqn:E; [|discriminate].
  intros [= H]. rewrite (LedgerFacts.balance_after_deposit now a ty x d v E).
  cbn [option_map]. f_equal. now apply stored_form_plus.
Qed.

Lemma corresponds_deposited_None now a ty x d :
  option_map stored_form (balance_of d a) = Some NULL ->
  option_map stored_form (balance_of (deposited now a ty x d) a)
  = Some NULL.
Proof.
  destruct (balance_of d a) as [v|] eqn:E; [|discriminate].
  intros [= H]. rewrite (LedgerFacts.balance_after_deposit now a ty x d v E).
  cbn [option_map]. f_equal. now apply stored_form_plus_NULL.
Qed.

Lemma corresponds_withdrawn now a ty x d c :
  option_map stored_form (balance_of d a) = Some (stored_form (REAL c)) ->
  option_map stored_form (balance_of (withdrawn now a ty x d) a)
  = Some (stored_form (REAL (c - x))).
Proof.
  destruct (balance_of d a) as [v|] eqn:E; [|discriminate].
  intros [= H].
  rewrite (LedgerFacts.balance_after_withdrawal now a ty x d v E).
  cbn [option_map]. f_equal. now apply stored_form_minus.
Qed.

Lemma balance_of_sender_after_transfer now a b x d :
  a <> b ->
  balance_of (transfer_statements now a b x d) a
  = option_map (fun v => keep (minus v (bind x))) (balance_of d a).
Proof.
  intros Hne. unfold transfer_statements.
  rewrite !balance_of_insert_transaction, balance_of_update_plus.
  assert (E : String.eqb a b = false) by now apply String.eqb_neq.
  now rewrite E, balance_of_update_minus, String.eqb_refl.
Qed.

Lemma corresponds_transfer now a b x d c :
  a <> b ->
  option_map stored_form (balance_of d a) = Some (stored_form (REAL c)) ->
  option_map stored_form (balance_of (transfer_statements now a b x d) a)
  = Some (stored_form (REAL (c - x))).
Proof.
  intros Hne. rewrite (balance_of_sender_after_transfer now a b x d Hne).
  destruct (balance_of d a) as [v|]; [|discriminate].
  intros [= H]. cbn [option_map]. f_equal. now apply stored_form_minus.
Qed.

(** *** Statements and the link from users to accounts *)

Lemma select_account_set_balance_None f a k (d : database) :
  find (fun r => String.eqb (account_number r) k)
       (map (set_balance f a) (accounts d)) = None
  <-> select_account d k = None.
Proof.
  rewrite find_set_balance. unfold select_account.
  destruct (find _ (accounts d)); simpl; split; congruence.
Qed.

Lemma users_have_accounts_update_plus x a d :
  users_have_accounts d -> users_have_accounts (update_balance_plus x a d).
Proof.
  intros H u Hu E. apply (H u Hu).
  now apply (select_account_set_balance_None
               (fun b => keep (plus b (bind x))) a).
Qed.

Lemma users_have_accounts_update_minus x a d :
  users_have_accounts d -> users_have_accounts (update_balance_minus x a d).
Proof.
  intros H u Hu E. apply (H u Hu).
  now apply (select_account_set_balance_None
               (fun b => keep (minus b (bind x))) a).
Qed.

Lemma users_have_accounts_deposited now a ty x d :
  users_have_accounts d -> users_have_accounts (deposited now a ty x d).
Proof. intros H. now apply users_have_accounts_update_plus. Qed.

Lemma users_have_accounts_withdrawn now a ty x d :
  users_have_accounts d -> users_have_accounts (withdrawn now a ty x d).
Proof. intros H. now apply users_have_accounts_update_minus. Qed.

Lemma users_have_accounts_transfer now a b x d :
  users_have_accounts d ->
  users_have_accounts (transfer_statements now a b x d).
Proof.
  intros H. unfold transfer_statements.
  change (users_have_accounts
            (update_balance_plus x b (update_balance_minus x a d))).
  now apply users_have_accounts_update_plus,
            users_have_accounts_update_minus.
Qed.

Lemma find_append {A} (p : A -> bool) l l' :
  find p (l ++ l')
  = match find p l with Some x => Some x | None => find p l' end.
Proof.
  induction l as [|x l IH]; simpl; [reflexivity|].
  destruct (p x); [reflexivity | exact IH].
Qed.

(** [INSERT INTO accounts] of a number that is not in the table. *)
Lemma select_account_after_insert a n x d d' k :
  insert_account a n x d = inl d' ->
  select_account d a = None
  /\ users d' = users d
  /\ select_account d' a <> None
  /\ (select_account d k <> None ->
      select_account d' k = select_account d k).
Proof.
  unfold insert_account. destruct (select_account d a) eqn:E; [discriminate|].
  intros [= <-]. unfold select_account in *. simpl.
  split; [reflexivity|]. split; [reflexivity|]. split.
  - rewrite find_append, E. simpl. now rewrite String.eqb_refl.
  - intros H. rewrite find_append.
    destruct (find (fun r => String.eqb (account_number r) k) (accounts d));
      [reflexivity | contradiction].
Qed.

Lemma insert_user_succeeds u a h d :
  select_user d u = None ->
  (forall r, In r (users d) -> user_account_number r <> a) ->
  exists d', insert_user u a h d = inl d'
             /\ accounts d' = accounts d
             /\ users d' = (users d ++ [mk_user u a h])%list.
Proof.
  intros Hu Ha. unfold insert_user.
  destruct (existsb _ (users d)) eqn:E.
  - apply existsb_exists in E. destruct E as [r [Hin Hr]].
    apply orb_true_iff in Hr. destruct Hr as [Hr|Hr].
    + unfold select_user in Hu. apply (find_none _ _ Hu) in Hin.
      simpl in Hin. congruence.
    + apply String.eqb_eq in Hr. now apply Ha in Hin.
  - eexists. repeat split.
Qed.

Lemma select_account_delete a k d :
  k <> a ->
  select_account (delete_accounts a (delete_users a (delete_transactions a d))) k
  = select_account d k.
Proof.
  intros Hne. unfold select_account. simpl.
  induction (accounts d) as [|r l IH]; simpl; [reflexivity|].
  destruct (String.eqb_spec (account_number r) a) as [E|E]; simpl.
  - destruct (String.eqb_spec (account_number r) k); [congruence | exact IH].
  - destruct (String.eqb (account_number r) k); [reflexivity | exact IH].
Qed.

Lemma users_have_accounts_delete a d :
  users_have_accounts d ->
  users_have_accounts
    (delete_accounts a (delete_users a (delete_transactions a d))).
Proof.
  intros H u Hu. simpl in Hu. apply filter_In in Hu. destruct Hu as [Hu Hne].
  apply negb_true_iff, String.eqb_neq in Hne.
  rewrite select_account_delete by exact Hne. now apply H.
Qed.

(** *** The decorators *)

Lemma preserves_authenticate func :
  preserves func -> preserves (Bank.authenticate func).
Proof.
  intros H s Hs. unfold Bank.authenticate.
  destruct (Bank.current_user s); [now apply H | exact Hs].
Qed.

Lemma preserves_rate_limiter now func :
  preserves func -> preserves (Bank.rate_limiter now func).
Proof.
  intros H s Hs. unfold Bank.rate_limiter.
  destruct (Bank.current_user s) as [cu|] eqn:E; [|exact Hs].
  match goal with |- context [if ?b then _ else _] => destruct b end;
    [exact Hs|].
  apply H. destruct Hs as (H1 & H2 & H3).
  unfold console_invariant, snapshot_corresponds.
  cbn [Bank.conn Bank.current_user].
  split; [exact H1|]. split; [exact H2|].
  intros cu' b Hc Hb. apply H3; [congruence | exact Hb].
Qed.

Lemma preserves_error_handler func :
  preserves func -> preserves (Bank.error_handler func).
Proof.
  intros H s Hs. unfold Bank.error_handler. specialize (H s Hs).
  destruct (Bank.completed (func s)); exact H.
Qed.

(** *** The methods *)

Lemma preserves_deposit_def now x : preserves (Bank.deposit_def now x).
Proof.
  intros s Hs. pose proof Hs as (H1 & H2 & H3).
  unfold Bank.deposit_def.
  destruct (Bank.current_user s) as [cu|] eqn:E; [|exact Hs].
  destruct (float_gt x 0); [|exact Hs].
  destruct (Bank.cu_balance cu) as [[|b]|] eqn:B; cbn [Bank.self];
    apply invariant_intro; try reflexivity;
    try (now apply (users_have_accounts_deposited now _ "Deposit" x)).
  - intros cu' b' Hc Hb. rewrite E in Hc. injection Hc as <-.
    rewrite B in Hb. injection Hb as <-.
    apply (corresponds_deposited_None now _ "Deposit" x).
    now apply (H3 cu NULL).
  - intros cu' b' [= <-] [= <-].
    apply (corresponds_deposited now _ "Deposit" x).
    now apply (H3 cu (REAL b)).
  - intros cu' b' Hc Hb. rewrite E in Hc. injection Hc as <-. congruence.
Qed.

Lemma preserves_withdraw_def now x : preserves (Bank.withdraw_def now x).
Proof.
  intros s Hs. pose proof Hs as (H1 & H2 & H3).
  unfold Bank.withdraw_def.
  destruct (Bank.current_user s) as [cu|] eqn:E; [|exact Hs].
  destruct (Bank.cu_balance cu) as [[|b]|] eqn:B; try exact Hs.
  destruct (float_gt x b); [exact Hs|].
  destruct (float_le x 0); [exact Hs|].
  cbn [Bank.self]. apply invariant_intro; try reflexivity.
  - now apply (users_have_accounts_withdrawn now _ "Withdraw" x).
  - intros cu' b' [= <-] [= <-].
    apply (corresponds_withdrawn now _ "Withdraw" x).
    now apply (H3 cu (REAL b)).
Qed.

Lemma preserves_transfer_money_def now a x :
  preserves (Bank.transfer_money_def now a x).
Proof.
  intros s Hs. pose proof Hs as (H1 & H2 & H3).
  unfold Bank.transfer_money_def.
  destruct (Bank.current_user s) as [cu|] eqn:E; [|exact Hs].
  destruct (String.eqb_spec a (Bank.cu_account_number cu)) as [Ea|Ea];
    [exact Hs|].
  destruct (select_account (view (Bank.conn s)) a); [|exact Hs].
  destruct (Bank.cu_balance cu) as [[|b]|] eqn:B; try exact Hs.
  destruct (float_gt x b); [exact Hs|].
  unfold begin_transaction.
  destruct (in_transaction (Bank.conn s)) eqn:T.
  - cbn [Bank.self]. destruct s; exact Hs.
  - cbn [Bank.self]. apply invariant_intro; try reflexivity.
    + cbn. apply (users_have_accounts_transfer now _ a x).
      rewrite <- (view_clean _ H2). exact H1.
    + intros cu' b' [= <-] [= <-]. cbn.
      apply (corresponds_transfer now _ a x).
      * congruence.
      * now apply (H3 cu (REAL b)).
Qed.

Lemma preserves_logout : preserves Bank.logout.
Proof.
  intros s (H1 & H2 & H3). unfold Bank.logout. cbn [Bank.self].
  split; [exact H1|]. split; [exact H2|]. intros cu b [=].
Qed.

Lemma preserves_delete_account confirm :
  preserves (Bank.delete_account confirm).
Proof.
  apply preserves_authenticate.
  intros s Hs. pose proof Hs as (H1 & H2 & H3). cbv beta.
  destruct (Bank.current_user s) as [u|] eqn:E; [|exact Hs].
  destruct (negb _); [exact Hs|].
  unfold begin_transaction.
  destruct (in_transaction (Bank.conn s)) eqn:T.
  - cbn [Bank.self]. destruct s; exact Hs.
  - cbn [Bank.self Bank.logout]. apply invariant_intro; try reflexivity.
    + cbn. apply users_have_accounts_delete.
      rewrite <- (view_clean _ H2). exact H1.
    + intros cu' b' [=].
Qed.

Lemma select_account_same_accounts d d' k :
  accounts d' = accounts d -> select_account d' k = select_account d k.
Proof. unfold select_account. now intros ->. Qed.

Lemma preserves_register_def sha now u pw n x :
  preserves (Bank.register_def sha now u pw n x).
Proof.
  intros s Hs. pose proof Hs as (H1 & H2 & H3).
  unfold Bank.register_def.
  destruct (select_user (view (Bank.conn s)) u) eqn:Eu; [exact Hs|].
  set (a := last_chars 10 (str (int_of_float now))).
  unfold try_execute.
  destruct (insert_account a n x (view (Bank.conn s))) as [d1|e] eqn:E1.
  - destruct (select_account_after_insert a n x _ d1 a E1)
      as (Hnone & Husers & Hnew & _).
    assert (Hkeep : forall k, select_account (view (Bank.conn s)) k <> None ->
                              select_account d1 k
                              = select_account (view (Bank.conn s)) k)
      by (intros k; apply (select_account_after_insert a n x _ d1 k E1)).
    destruct (insert_user_succeeds u a (Bank._hash_password sha pw) d1)
      as (d2 & E2 & Hacc & Hus).
    + unfold select_user in *. now rewrite Husers.
    + intros r Hr Ha. rewrite Husers in Hr. apply (H1 r Hr).
      now rewrite Ha.
    + cbn [view pending file]. rewrite E2.
      cbn [Bank.self Bank.set_conn commit view pending file].
      apply invariant_intro; try reflexivity; cbn [file commit view pending].
      * intros r Hr. rewrite Hus in Hr.
        rewrite (select_account_same_accounts d1 d2 _ Hacc).
        apply in_app_or in Hr. destruct Hr as [Hr|[<-|[]]].
        -- rewrite Husers in Hr. rewrite (Hkeep _ (H1 r Hr)). now apply H1.
        -- exact Hnew.
      * intros cu b Hc Hb. unfold balance_of.
        rewrite (select_account_same_accounts d1 d2 _ Hacc).
        destruct (H3 cu b Hc Hb) as [Hv _]. unfold balance_of in Hv.
        rewrite Hkeep; [exact Hv|].
        destruct (select_account _ (Bank.cu_account_number cu));
          discriminate.
  - cbn [Bank.self Bank.set_conn].
    unfold console_invariant, snapshot_corresponds, nothing_uncommitted.
    cbn [Bank.conn Bank.current_user pending file view].
    split; [exact H1|]. split; [right; now rewrite (view_clean _ H2)|].
    intros cu b Hc Hb. destruct (H3 cu b Hc Hb) as [Hv Hf]. now split.
Qed.

Lemma preserves_login_def sha hmac key now u pw :
  preserves (Bank.login_def sha hmac key now u pw).
Proof.
  intros s Hs. pose proof Hs as (H1 & H2 & H3).
  unfold Bank.login_def.
  destruct (select_user (view (Bank.conn s)) u) as [user|]; [|exact Hs].
  destruct (negb _); [exact Hs|].
  destruct (select_account (view (Bank.conn s)) (user_account_number user))
    as [row|] eqn:E; cbn [Bank.self];
    (split; [exact H1|]; split; [exact H2|]).
  - intros cu b [= <-] [= <-]. cbn [Bank.conn Bank.cu_account_number].
    rewrite <- (view_clean _ H2). unfold balance_of. rewrite E. now split.
  - intros cu b [= <-] [=].
Qed.

Lemma preserves_reading (func : Bank.method) :
  (forall s, Bank.self (func s) = s) -> preserves func.
Proof. intros H s Hs. now rewrite H. Qed.

Lemma get_account_balance_reads s :
  Bank.self (Bank.get_account_balance s) = s.
Proof.
  unfold Bank.get_account_balance, Bank.authenticate.
  destruct (Bank.current_user s) as [cu|]; [|reflexivity].
  destruct (Bank.cu_balance cu) as [[|b]|]; reflexivity.
Qed.

Lemma display_account_details_reads s :
  Bank.self (Bank.display_account_details s) = s.
Proof.
  unfold Bank.display_account_details, Bank.authenticate.
  destruct (Bank.current_user s) as [cu|]; [|reflexivity].
  destruct (Bank.cu_name cu); [|reflexivity].
  destruct (Bank.cu_balance cu) as [[|b]|]; reflexivity.
Qed.

Lemma get_transaction_history_reads s :
  Bank.self (Bank.get_transaction_history s) = s.
Proof.
  unfold Bank.get_transaction_history, Bank.authenticate.
  destruct (Bank.current_user s) as [cu|]; [|reflexivity].
  destruct (Bank.fetch_history s cu); reflexivity.
Qed.

(** Every call of the console keeps the invariant. *)
Lemma preserves_invoke sha hmac key c :
  preserves (Bank.invoke sha hmac key c).
Proof.
  destruct c; simpl.
  - apply preserves_error_handler, preserves_login_def.
  - apply preserves_error_handler, preserves_register_def.
  - apply preserves_authenticate, preserves_rate_limiter,
      preserves_deposit_def.
  - apply preserves_authenticate, preserves_rate_limiter,
      preserves_withdraw_def.
  - apply preserves_reading, get_account_balance_reads.
  - apply preserves_reading, display_account_details_reads.
  - apply preserves_authenticate, preserves_rate_limiter,
      preserves_transfer_money_def.
  - apply preserves_reading, get_transaction_history_reads.
  - apply preserves_delete_account.
  - apply preserves_logout.
Qed.

Lemma run_invariant sha hmac key cs :
  forall s, console_invariant s ->
            console_invariant (Bank.run sha hmac key cs s).
Proof.
  induction cs as [|c cs IH]; simpl; intros s Hs; [exact Hs|].
  pose proof (preserves_invoke sha hmac key c s Hs) as H.
  destruct (Bank.completed _); [now apply IH | exact H].
Qed.

Lemma init_invariant f :
  users_have_accounts f -> console_invariant (Bank.__init__ f).
Proof.
  intros Hf. apply invariant_intro; [exact Hf | reflexivity|].
  intros cu b [=].
Qed.

(** In a console process that is the only writer of its store, the float
    held in the session and the stored balance are the same up to the
    NaN. *)
Lemma console_snapshot_corresponds sha hmac key calls f :
  users_have_accounts f ->
  snapshot_corresponds (Bank.run sha hmac key calls (Bank.__init__ f)).
Proof.
  intros Hf. now apply run_invariant, init_invariant.
Qed.

End SnapshotFacts.

(** C10, on the code.  [withdraw] lets through every amount for which
    neither [amount > balance] nor [amount <= 0] holds, and both are false
    for a NaN, which [float('nan')] gives; [deposit] tests [amount > 0] and
    refuses it.  After a login (10000.00 in the session and in the store) a
    withdrawal of NaN is reported as done: the session then holds NaN and
    the store [NULL], so the balance held is not the stored balance, and
    every later amount passes the test of the balance. *)
Theorem console_withdraw_of_nan_parts_session_and_store :
  let s := Scenario.console_session in
  let o := Bank.withdraw (Scenario.t0 + 5) nan s in
  let o' := Bank.withdraw (Scenario.t0 + 10) 1000000 (Bank.self o) in
  snapshot_is_stored s
  /\ Bank.printed (Bank.deposit (Scenario.t0 + 5) nan s)
     = [Bank.Deposit_amount_must_be_positive]
  /\ Bank.printed o = [Bank.Withdrawn_successfully nan nan]
  /\ Bank.completed o = Bank.returned None
  /\ option_map Bank.cu_balance (Bank.current_user (Bank.self o))
     = Some (Some (REAL nan))
  /\ balance_of (file (Bank.conn (Bank.self o))) Scenario.A = Some NULL
  /\ ~ snapshot_is_stored (Bank.self o)
  /\ Bank.printed o' = [Bank.Withdrawn_successfully 1000000 nan]
  /\ List.length (transactions (file (Bank.conn (Bank.self o')))) = 2%nat.
Proof.
  split; [|split; [|split; [|split; [|split; [|split; [|split; [|split]]]]]]];
    try (vm_compute; reflexivity).
  - intros cu b Hcu Hb. vm_compute in Hcu. injection Hcu as <-.
    vm_compute in Hb. injection Hb as <-. split; vm_compute; reflexivity.
  - intros H.
    destruct (H (Scenario.test_dict nan) (REAL nan)) as [Hv _];
      [vm_compute; reflexivity | reflexivity |].
    vm_compute in Hv. discriminate.
Qed.

(** The session of the example ends with 9500.00 in the session and in the
    store. *)
Example a_console_session_balance :
  let s := Bank.run Scenario.sha256_hexdigest Scenario.hmac_sha256
                    Scenario.SECRET_KEY Scenario.a_console_session
                    (Bank.__init__ Scenario.bank_db) in
  option_map Bank.cu_balance (Bank.current_user s) = Some (Some (REAL 9500))
  /\ balance_of (file (Bank.conn s)) Scenario.A = Some (REAL 9500)
  /\ balance_of (file (Bank.conn s)) Scenario.B = Some (REAL 1000)
  /\ List.length (transactions (file (Bank.conn s))) = 3%nat.
Proof. vm_compute. repeat split. Qed.

(** The scenario of section 8 of the specification, through the web
    front-end: a deposit of 500.00 into A, a withdrawal of 20000.00 that is
    refused, a transfer of 1000.00 to B, and a transfer from A to A that is
    refused. *)
Example section_8_scenario :
  let s := Some Scenario.test_session in
  let r1 := App.deposit 1700000100 500 Scenario.bank_db s in
  let r2 := App.withdraw 1700000101 20000 (App.db r1) s in
  let r3 := App.transfer 1700000102 Scenario.B 1000 (App.db r2) s in
  let r4 := App.transfer 1700000103 Scenario.A 100 (App.db r3) s in
  balance_of (App.db r1) Scenario.A = Some (REAL 10500)
  /\ transactions (App.db r1)
     = [mk_transaction 1 Scenario.A "Deposit" (REAL 500) None 1700000100]
  /\ App.flashed r2 = [App.Insufficient_funds]
  /\ App.db r2 = App.db r1
  /\ balance_of (App.db r3) Scenario.A = Some (REAL 9500)
  /\ balance_of (App.db r3) Scenario.B = Some (REAL 1000)
  /\ List.length (transactions (App.db r3)) = 3%nat
  /\ App.flashed r4 = [App.Cannot_transfer_to_your_own_account]
  /\ App.db r4 = App.db r3.
Proof. vm_compute. repeat split. Qed.

(** * Further properties of the code *)

Import Further.

Module RegisterFacts.

Import Sqlite SqliteFacts Spec.

Lemma insert_account_fresh a n x d :
  select_account d a = None ->
  insert_account a n x d
  = inl (mk_database (accounts d ++ [mk_account a n (store x)]) (users d)
                     (transactions d) (sqlite_sequence d)).
Proof. unfold insert_account. now intros ->. Qed.

Lemma insert_user_fresh u a h d :
  select_user d u = None ->
  (forall r, In r (users d) -> user_account_number r <> a) ->
  insert_user u a h d
  = inl (mk_database (accounts d) (users d ++ [mk_user u a h])
                     (transactions d) (sqlite_sequence d)).
Proof.
  intros Hu Ha. unfold insert_user.
  destruct (existsb _ (users d)) eqn:E; [|reflexivity].
  apply existsb_exists in E. destruct E as [r [Hin Hr]].
  apply orb_true_iff in Hr. destruct Hr as [Hr|Hr].
  - unfold select_user in Hu. apply (find_none _ _ Hu) in Hin.
    simpl in Hin. congruence.
  - apply String.eqb_eq in Hr. now apply Ha in Hin.
Qed.

Lemma no_user_of_missing_account d a :
  users_have_accounts d -> select_account d a = None ->
  forall r, In r (users d) -> user_account_number r <> a.
Proof. intros H Ha r Hr E. apply (H r Hr). now rewrite E. Qed.

Lemma select_user_registered sha now u pw n x d :
  select_user d u = None ->
  select_user (registered sha now u pw n x d) u
  = Some (mk_user u (account_number_at now) (sha pw)).
Proof.
  intros H. unfold select_user in *. simpl.
  rewrite SnapshotFacts.find_append, H. simpl.
  now rewrite String.eqb_refl.
Qed.

Lemma select_account_registered sha now u pw n x d :
  select_account d (account_number_at now) = None ->
  select_account (registered sha now u pw n x d) (account_number_at now)
  = Some (mk_account (account_number_at now) n (store x)).
Proof.
  intros H. unfold select_account in *. simpl.
  rewrite SnapshotFacts.find_append, H. simpl.
  now rewrite String.eqb_refl.
Qed.

Lemma App_register_registered sha now u pw n x f s :
  users_have_accounts f ->
  select_user f u = None ->
  select_account f (account_number_at now) = None ->
  App.register sha App.POST now u pw n x f s
  = App.mk_result (registered sha now u pw n x f) s (App.redirect "login")
      [App.Registration_successful (account_number_at now)].
Proof.
  intros Hf Hu Ha. unfold App.register, try_execute.
  cbn [view connect pending file]. rewrite Hu.
  fold (account_number_at now).
  rewrite (insert_account_fresh _ n x f Ha). cbn [view pending file].
  rewrite insert_user_fresh; [reflexivity | exact Hu |].
  cbn [users]. now apply no_user_of_missing_account.
Qed.

Lemma Bank_register_registered sha now u pw n x s f :
  Bank.conn s = connect f ->
  users_have_accounts f ->
  select_user f u = None ->
  select_account f (account_number_at now) = None ->
  Bank.register sha now u pw n x s
  = Bank.mk_outcome
      (Bank.set_conn s (connect (registered sha now u pw n x f)))
      [Bank.Registration_successful (account_number_at now)]
      (Bank.returned (Some true)).
Proof.
  intros Hc Hf Hu Ha.
  unfold Bank.register, Bank.error_handler, Bank.register_def, try_execute.
  rewrite Hc. cbn [view connect pending file]. rewrite Hu.
  fold (account_number_at now).
  rewrite (insert_account_fresh _ n x f Ha). cbn [view pending file].
  unfold Bank._hash_password.
  rewrite insert_user_fresh; [reflexivity | exact Hu |].
  cbn [users]. now apply no_user_of_missing_account.
Qed.

End RegisterFacts.

(** X1.  A registration under a new username, at a clock whose account
    number is not taken, appends one account row holding the initial
    deposit as the store keeps it ([NULL] for a NaN, 0.0 for -0.0) and one
    user row holding the hash of the password, and writes no transaction
    row; a login with the same username and password succeeds right after
    it and is bound to the new account.  The initial deposit is not
    compared with zero. *)
Theorem register_then_login
    sha256_hexdigest hmac_sha256 SECRET_KEY now now' u pw n x f :
  users_have_accounts f ->
  select_user f u = None ->
  select_account f (account_number_at now) = None ->
  let a := account_number_at now in
  let f' := registered sha256_hexdigest now u pw n x f in
  (forall s,
      let r := App.register sha256_hexdigest App.POST now u pw n x f s in
      App.db r = f'
      /\ App.flashed r = [App.Registration_successful a]
      /\ App.sess r = s
      /\ let r' := App.login sha256_hexdigest App.POST u pw (App.db r)
                              (App.sess r) in
         App.sess r' = Some (App.mk_identity u a)
         /\ App.flashed r' = [App.Login_successful]
         /\ App.db r' = f')
  /\ (forall s,
         Bank.conn s = connect f ->
         let o := Bank.register sha256_hexdigest now u pw n x s in
         Bank.completed o = Bank.returned (Some true)
         /\ Bank.printed o = [Bank.Registration_successful a]
         /\ Bank.conn (Bank.self o) = connect f'
         /\ let o' := Bank.login sha256_hexdigest hmac_sha256 SECRET_KEY now'
                                 u pw (Bank.self o) in
            Bank.completed o' = Bank.returned (Some true)
            /\ Bank.printed o' = [Bank.Login_successful n]
            /\ Bank.current_user (Bank.self o')
               = Some (Bank.mk_user_dict u a (Some n) (Some (store x)))).
Proof.
  intros Hf Hu Ha a f'. split.
  - intros s r.
    assert (Hr : r = App.mk_result f' s (App.redirect "login")
                       [App.Registration_successful a])
      by now apply RegisterFacts.App_register_registered.
    rewrite Hr. cbn [App.db App.flashed App.sess].
    repeat split.
    all: unfold App.login; cbn [view connect pending file];
      unfold f'; rewrite RegisterFacts.select_user_registered by exact Hu;
      cbn [password_hash]; unfold App.hash_password;
      rewrite String.eqb_refl; reflexivity.
  - intros s Hc o.
    assert (Ho : o = Bank.mk_outcome (Bank.set_conn s (connect f'))
                       [Bank.Registration_successful a]
                       (Bank.returned (Some true)))
      by now apply RegisterFacts.Bank_register_registered.
    rewrite Ho. cbn [Bank.completed Bank.printed Bank.self].
    repeat split.
    all: unfold Bank.login, Bank.error_handler, Bank.login_def, Bank.set_conn;
      cbn [Bank.conn view connect pending file];
      unfold f'; rewrite RegisterFacts.select_user_registered by exact Hu;
      cbn [password_hash user_account_number username];
      unfold Bank._verify_password, Bank._hash_password;
      rewrite String.eqb_refl; cbn [negb];
      fold a; unfold a;
      rewrite RegisterFacts.select_account_registered by exact Ha;
      reflexivity.
Qed.

Lemma register_then_login_witness :
  App.sess
    (App.login Scenario.sha256_hexdigest App.POST "carol" "pw"
       (App.db (App.register Scenario.sha256_hexdigest App.POST 1700000500
                  "carol" "pw" "Carol" 25 Scenario.bank_db None))
       None)
  = Some (App.mk_identity "carol" "1700000500")
  /\ Bank.current_user
       (Bank.self
          (Bank.login Scenario.sha256_hexdigest Scenario.hmac_sha256
             Scenario.SECRET_KEY 1700000600 "carol" "pw"
             (Bank.self
                (Bank.register Scenario.sha256_hexdigest 1700000500 "carol"
                   "pw" "Carol" 25 (Bank.__init__ Scenario.bank_db)))))
     = Some (Bank.mk_user_dict "carol" "1700000500" (Some "Carol")
                               (Some (REAL 25))).
Proof.
  assert (Hf : users_have_accounts Scenario.bank_db).
  { intros r [<-|[<-|[]]]; discriminate. }
  destruct (register_then_login Scenario.sha256_hexdigest
              Scenario.hmac_sha256 Scenario.SECRET_KEY 1700000500 1700000600
              "carol" "pw" "Carol" 25 Scenario.bank_db Hf eq_refl eq_refl)
    as [Hweb Hconsole].
  split.
  - apply (Hweb None).
  - apply (Hconsole (Bank.__init__ Scenario.bank_db) eq_refl).
Defined.

(** X2.  A login authenticates exactly when the users table has a row for
    the username whose stored hash is the hash of the password; the
    identity is then that row's username and account number.  Otherwise
    the session or the [Bank] object is left as it was. *)
Theorem login_authenticates_exactly_matching_credentials
    sha256_hexdigest hmac_sha256 SECRET_KEY now u pw :
  (forall f s,
      let r := App.login sha256_hexdigest App.POST u pw f s in
      App.db r = f
      /\ match select_user f u with
         | Some row =>
             if String.eqb (password_hash row) (sha256_hexdigest pw)
             then App.sess r
                  = Some (App.mk_identity (username row)
                                          (user_account_number row))
                  /\ App.flashed r = [App.Login_successful]
             else App.sess r = s
                  /\ App.flashed r = [App.Invalid_username_or_password]
         | None => App.sess r = s
                   /\ App.flashed r = [App.Invalid_username_or_password]
         end)
  /\ (forall s,
         let o := Bank.login sha256_hexdigest hmac_sha256 SECRET_KEY now u pw
                             s in
         Bank.conn (Bank.self o) = Bank.conn s
         /\ match select_user (view (Bank.conn s)) u with
            | Some row =>
                if String.eqb (password_hash row) (sha256_hexdigest pw)
                then exists cu,
                    Bank.current_user (Bank.self o) = Some cu
                    /\ Bank.cu_username cu = username row
                    /\ Bank.cu_account_number cu = user_account_number row
                else Bank.self o = s
                     /\ Bank.printed o = [Bank.Invalid_username_or_password]
                     /\ Bank.completed o = Bank.returned (Some false)
            | None => Bank.self o = s
                      /\ Bank.printed o = [Bank.Invalid_username_or_password]
                      /\ Bank.completed o = Bank.returned (Some false)
            end).
Proof.
  split.
  - intros f s r. subst r. unfold App.login, App.hash_password.
    cbn [view connect pending file].
    destruct (select_user f u) as [row|]; [|repeat split].
    destruct (String.eqb _ _); repeat split.
  - intros s o. subst o.
    unfold Bank.login, Bank.error_handler, Bank.login_def,
      Bank._verify_password, Bank._hash_password.
    destruct (select_user (view (Bank.conn s)) u) as [row|]; [|repeat split].
    destruct (String.eqb _ _); cbn [negb]; [|repeat split].
    destruct (select_account _ _); cbn; (split; [reflexivity|]);
      eexists; repeat split.
Qed.

(** X3.  Without a login nothing is served: every method of the console
    behind [@authenticate] prints 'Please login first.' and returns, and
    every view of the web front-end that tests the session redirects to the
    login page; neither reads or writes the store. *)
Theorem nothing_is_served_without_login
    sha256_hexdigest hmac_sha256 SECRET_KEY :
  (forall c s,
      gated c = true ->
      Bank.current_user s = None ->
      Bank.invoke sha256_hexdigest hmac_sha256 SECRET_KEY c s
      = Bank.mk_outcome s [Bank.Please_login_first] (Bank.returned None))
  /\ (forall q f,
         needs_session q = true ->
         App.handle sha256_hexdigest q f None
         = App.mk_result f None (App.redirect "login") []).
Proof.
  split.
  - intros c s Hc Hs.
    destruct c; try discriminate Hc; simpl;
      unfold Bank.deposit, Bank.withdraw, Bank.get_account_balance,
        Bank.display_account_details, Bank.transfer_money,
        Bank.get_transaction_history, Bank.delete_account, Bank.authenticate;
      now rewrite Hs.
  - intros q f Hq. destruct q; try discriminate Hq; reflexivity.
Qed.

Lemma nothing_is_served_without_login_witness :
  Bank.invoke Scenario.sha256_hexdigest Scenario.hmac_sha256
    Scenario.SECRET_KEY (Bank.Withdraw 1700000100 100)
    (Bank.__init__ Scenario.bank_db)
  = Bank.mk_outcome (Bank.__init__ Scenario.bank_db)
      [Bank.Please_login_first] (Bank.returned None)
  /\ App.handle Scenario.sha256_hexdigest
       (App.Transfer 1700000100 Scenario.B 100) Scenario.bank_db None
     = App.mk_result Scenario.bank_db None (App.redirect "login") [].
Proof.
  destruct (nothing_is_served_without_login Scenario.sha256_hexdigest
              Scenario.hmac_sha256 Scenario.SECRET_KEY) as [Hc Hw].
  split.
  - apply Hc; reflexivity.
  - apply Hw; reflexivity.
Defined.

(** ** The rate limiter *)

Module RateFacts.

Import Sqlite Spec.

(** The three methods behind [@rate_limiter] leave the cache of the rate
    limiter and the account number of the session as they are. *)
Ltac kept E := cbn; rewrite ?E; split; reflexivity.

Lemma deposit_def_keeps now x s :
  Bank.rate_limit_cache (Bank.self (Bank.deposit_def now x s))
  = Bank.rate_limit_cache s
  /\ option_map Bank.cu_account_number
       (Bank.current_user (Bank.self (Bank.deposit_def now x s)))
     = option_map Bank.cu_account_number (Bank.current_user s).
Proof.
  unfold Bank.deposit_def.
  destruct (Bank.current_user s) as [cu|] eqn:E; [|kept E].
  destruct (float_gt x 0); [|kept E].
  destruct (Bank.cu_balance cu) as [[|b]|]; kept E.
Qed.

Lemma withdraw_def_keeps now x s :
  Bank.rate_limit_cache (Bank.self (Bank.withdraw_def now x s))
  = Bank.rate_limit_cache s
  /\ option_map Bank.cu_account_number
       (Bank.current_user (Bank.self (Bank.withdraw_def now x s)))
     = option_map Bank.cu_account_number (Bank.current_user s).
Proof.
  unfold Bank.withdraw_def.
  destruct (Bank.current_user s) as [cu|] eqn:E; [|kept E].
  destruct (Bank.cu_balance cu) as [[|b]|]; try kept E.
  destruct (float_gt x _); [kept E|].
  destruct (float_le x 0); kept E.
Qed.

Lemma transfer_money_def_keeps now a x s :
  Bank.rate_limit_cache (Bank.self (Bank.transfer_money_def now a x s))
  = Bank.rate_limit_cache s
  /\ option_map Bank.cu_account_number
       (Bank.current_user (Bank.self (Bank.transfer_money_def now a x s)))
     = option_map Bank.cu_account_number (Bank.current_user s).
Proof.
  unfold Bank.transfer_money_def.
  destruct (Bank.current_user s) as [cu|] eqn:E; [|kept E].
  destruct (String.eqb a _); [kept E|].
  destruct (select_account _ a); [|kept E].
  destruct (Bank.cu_balance cu) as [[|b]|]; try kept E.
  destruct (float_gt x _); [kept E|].
  unfold begin_transaction.
  destruct (in_transaction _); kept E.
Qed.

(** A call behind the rate limiter is either refused outright or runs its
    method past the gate. *)
Lemma invoke_rate_limited sha hmac key c t s cu :
  rate_limited c = Some t ->
  Bank.current_user s = Some cu ->
  rate_gate_open t s (Bank.cu_account_number cu) ->
  let s1 := Bank.self (Bank.invoke sha hmac key c s) in
  Bank.rate_limit_cache s1 (Bank.cu_account_number cu) = Some t
  /\ option_map Bank.cu_account_number (Bank.current_user s1)
     = Some (Bank.cu_account_number cu).
Proof.
  intros Hc Hcu Hopen.
  assert (Hg : Bank.rate_limit_cache (past_rate_gate t s cu)
                 (Bank.cu_account_number cu) = Some t)
    by (simpl; now rewrite String.eqb_refl).
  assert (Hu : option_map Bank.cu_account_number
                 (Bank.current_user (past_rate_gate t s cu))
               = Some (Bank.cu_account_number cu))
    by (simpl; now rewrite Hcu).
  destruct c as [? ? ?|? ? ? ? ?|t0 x|t0 x| | |t0 a x| |?| ];
    try discriminate Hc; injection Hc as ->; simpl;
    unfold Bank.deposit, Bank.withdraw, Bank.transfer_money,
      Bank.authenticate;
    rewrite Hcu, (TransferFacts.rate_limiter_open _ _ _ _ Hcu Hopen).
  - destruct (deposit_def_keeps t x (past_rate_gate t s cu)) as [-> ->].
    now split.
  - destruct (withdraw_def_keeps t x (past_rate_gate t s cu)) as [-> ->].
    now split.
  - destruct (transfer_money_def_keeps t a x (past_rate_gate t s cu))
      as [-> ->].
    now split.
Qed.

Lemma invoke_refused sha hmac key c t s cu last :
  rate_limited c = Some t ->
  Bank.current_user s = Some cu ->
  Bank.rate_limit_cache s (Bank.cu_account_number cu) = Some last ->
  t - last < 2 ->
  Bank.invoke sha hmac key c s
  = Bank.mk_outcome s [Bank.Too_many_requests] (Bank.returned None).
Proof.
  intros Hc Hcu Hlast Hlt. apply Qgtb_true in Hlt.
  destruct c; try discriminate Hc; injection Hc as ->; simpl;
    unfold Bank.deposit, Bank.withdraw, Bank.transfer_money,
      Bank.authenticate, Bank.rate_limiter;
    now rewrite Hcu, Hlast, Hlt.
Qed.

End RateFacts.

(** X4.  After a deposit, a withdrawal or a transfer of the console that
    got past the rate limiter at clock [t], whatever it did, every deposit,
    withdrawal or transfer of the same session at a clock less than two
    seconds after [t] prints 'Too many requests. Please wait.' and leaves
    the [Bank] object and the store exactly as they are, so that a refused
    call does not prolong the wait; at two seconds or more the gate is
    open again. *)
Theorem rate_limiter_refuses_within_two_seconds
    sha256_hexdigest hmac_sha256 SECRET_KEY c c' t t' s cu :
  rate_limited c = Some t ->
  rate_limited c' = Some t' ->
  Bank.current_user s = Some cu ->
  rate_gate_open t s (Bank.cu_account_number cu) ->
  let s1 :=
    Bank.self (Bank.invoke sha256_hexdigest hmac_sha256 SECRET_KEY c s) in
  (t' - t < 2 ->
   Bank.invoke sha256_hexdigest hmac_sha256 SECRET_KEY c' s1
   = Bank.mk_outcome s1 [Bank.Too_many_requests] (Bank.returned None))
  /\ (2 <= t' - t -> rate_gate_open t' s1 (Bank.cu_account_number cu)).
Proof.
  intros Hc Hc' Hcu Hopen s1.
  destruct (RateFacts.invoke_rate_limited sha256_hexdigest hmac_sha256
              SECRET_KEY c t s cu Hc Hcu Hopen) as [Hcache Hacct].
  fold s1 in Hcache, Hacct.
  destruct (Bank.current_user s1) as [cu1|] eqn:E1; [|discriminate].
  injection Hacct as Hacct. split.
  - intros Hlt.
    apply (RateFacts.invoke_refused _ _ _ c' t' s1 cu1 t Hc' E1);
      [now rewrite Hacct | exact Hlt].
  - intros Hge. unfold rate_gate_open. now rewrite Hcache.
Qed.

Lemma rate_limiter_refuses_within_two_seconds_witness :
  let s1 :=
    Bank.self (Bank.invoke Scenario.sha256_hexdigest Scenario.hmac_sha256
                 Scenario.SECRET_KEY (Bank.Deposit 1700000100 500)
                 (Scenario.logged_in Scenario.bank_db 10000)) in
  Bank.invoke Scenario.sha256_hexdigest Scenario.hmac_sha256
    Scenario.SECRET_KEY (Bank.Withdraw (1700000100 + (3 # 2)) 100) s1
  = Bank.mk_outcome s1 [Bank.Too_many_requests] (Bank.returned None).
Proof.
  refine (proj1 (rate_limiter_refuses_within_two_seconds
                   Scenario.sha256_hexdigest Scenario.hmac_sha256
                   Scenario.SECRET_KEY (Bank.Deposit 1700000100 500)
                   (Bank.Withdraw (1700000100 + (3 # 2)) 100)
                   1700000100 (1700000100 + (3 # 2))
                   (Scenario.logged_in Scenario.bank_db 10000)
                   (Scenario.test_dict 10000) eq_refl eq_refl eq_refl I) _).
  reflexivity.
Defined.

(** ** The session token *)

Lemma int_of_float_floor (q : Q) :
  0 <= q -> inject_Z (int_of_float q) <= q /\ q < inject_Z (int_of_float q) + 1.
Proof.
  intros H. unfold int_of_float.
  assert (E : Z.quot (Qnum q) (Zpos (Qden q)) = Qfloor q).
  { destruct q as [n d]. simpl. apply Z.quot_div_nonneg; [|lia].
    unfold Qle in H. simpl in H. lia. }
  rewrite E. split; [apply Qfloor_le|].
  pose proof (Qlt_floor q) as Hlt. rewrite inject_Z_plus in Hlt. exact Hlt.
Qed.

(** X5.  The token that a login issues at clock [now] carries the username,
    the account number and an expiry [exp], the clock thirty minutes later
    cut to whole seconds.  [_verify_token] under the same key gives these
    claims back at every clock before [exp], hence for at least 1799
    seconds, and answers 'Token has expired' from [exp] on, hence from 1800
    seconds on; under a key that signs the claims differently it answers
    'Invalid token' at every clock. *)
Theorem token_round_trip_until_expiry hmac_sha256 SECRET_KEY now now' u a :
  let tok := Bank._generate_token hmac_sha256 SECRET_KEY now u a in
  let exp :=
    int_of_float (now + inject_Z (Bank.TOKEN_EXPIRATION_MINUTES * 60)) in
  let claims := Jwt.mk_payload u a exp in
  (now' < inject_Z exp ->
   Bank._verify_token hmac_sha256 SECRET_KEY now' tok = (Some claims, []))
  /\ (inject_Z exp <= now' ->
      Bank._verify_token hmac_sha256 SECRET_KEY now' tok
      = (None, [Bank.Token_has_expired]))
  /\ (0 <= now -> now' <= now + 1799 ->
      Bank._verify_token hmac_sha256 SECRET_KEY now' tok = (Some claims, []))
  /\ (0 <= now -> now + 1800 <= now' ->
      Bank._verify_token hmac_sha256 SECRET_KEY now' tok
      = (None, [Bank.Token_has_expired]))
  /\ (forall key,
         hmac_sha256 key claims <> hmac_sha256 SECRET_KEY claims ->
         Bank._verify_token hmac_sha256 key now' tok
         = (None, [Bank.Invalid_token])).
Proof.
  intros tok exp claims.
  assert (Hvalid : now' < inject_Z exp ->
                   Bank._verify_token hmac_sha256 SECRET_KEY now' tok
                   = (Some claims, [])).
  { intros H. unfold Bank._verify_token, tok, Bank._generate_token,
      Jwt.encode, Jwt.decode.
    rewrite String.eqb_refl. cbn [Jwt.exp]. fold exp.
    apply Qlt_not_le in H. rewrite <- Qle_bool_iff in H.
    apply not_true_is_false in H. now rewrite H. }
  assert (Hexpired : inject_Z exp <= now' ->
                     Bank._verify_token hmac_sha256 SECRET_KEY now' tok
                     = (None, [Bank.Token_has_expired])).
  { intros H. now apply verify_token_expired. }
  assert (Hbounds : 0 <= now ->
                    inject_Z exp <= now + 1800
                    /\ now + 1800 < inject_Z exp + 1).
  { intros H0. unfold exp. change (Bank.TOKEN_EXPIRATION_MINUTES * 60)%Z
      with 1800%Z.
    apply (int_of_float_floor (now + inject_Z 1800)).
    change (inject_Z 1800) with 1800. lra. }
  repeat split.
  - exact Hvalid.
  - exact Hexpired.
  - intros H0 H. apply Hvalid. destruct (Hbounds H0). lra.
  - intros H0 H. apply Hexpired. destruct (Hbounds H0). lra.
  - intros key Hkey. unfold Bank._verify_token, tok, Bank._generate_token,
      Jwt.encode, Jwt.decode. fold exp. fold claims.
    destruct (String.eqb_spec (hmac_sha256 SECRET_KEY claims)
                              (hmac_sha256 key claims)) as [E|E];
      [congruence | reflexivity].
Qed.

Lemma token_round_trip_until_expiry_witness :
  Bank._verify_token Scenario.hmac_sha256 Scenario.SECRET_KEY
    (1700000100 + 1799)
    (Bank._generate_token Scenario.hmac_sha256 Scenario.SECRET_KEY
       1700000100 "test" Scenario.A)
  = (Some (Jwt.mk_payload "test" Scenario.A 1700001900), [])
  /\ Bank._verify_token Scenario.hmac_sha256 "another key"
       (1700000100 + 1799)
       (Bank._generate_token Scenario.hmac_sha256 Scenario.SECRET_KEY
          1700000100 "test" Scenario.A)
     = (None, [Bank.Invalid_token]).
Proof.
  destruct (token_round_trip_until_expiry Scenario.hmac_sha256
              Scenario.SECRET_KEY 1700000100 (1700000100 + 1799) "test"
              Scenario.A) as (_ & _ & Hvalid & _ & Hkey).
  split.
  - apply Hvalid; unfold Qle; simpl; lia.
  - apply Hkey. discriminate.
Defined.

(** ** Deleting an account *)

Module DeleteFacts.

Import Sqlite SqliteFacts Spec.

Lemma select_account_deleted a d : select_account (deleted a d) a = None.
Proof.
  unfold select_account, deleted. simpl.
  induction (accounts d) as [|r l IH]; simpl; [reflexivity|].
  destruct (String.eqb (account_number r) a) eqn:E; simpl; [exact IH|].
  now rewrite E.
Qed.

Lemma users_deleted a d r :
  In r (users (deleted a d)) -> In r (users d) /\ user_account_number r <> a.
Proof.
  unfold deleted. simpl. intros H. apply filter_In in H.
  destruct H as [H E]. split; [exact H|].
  now apply negb_true_iff, String.eqb_neq in E.
Qed.

Lemma transactions_deleted a d r :
  In r (transactions (deleted a d)) ->
  In r (transactions d) /\ txn_account_number r <> a.
Proof.
  unfold deleted. simpl. intros H. apply filter_In in H.
  destruct H as [H E]. split; [exact H|].
  now apply negb_true_iff, String.eqb_neq in E.
Qed.

Lemma records_of_deleted a k d :
  k <> a -> records_of (deleted a d) k = records_of d k.
Proof.
  intros Hne. unfold records_of, deleted. simpl.
  induction (transactions d) as [|r l IH]; simpl; [reflexivity|].
  destruct (String.eqb_spec (txn_account_number r) a) as [E|E]; simpl.
  - destruct (String.eqb_spec (txn_account_number r) k); [congruence|exact IH].
  - now rewrite IH.
Qed.

Lemma find_nowhere {A} (p : A -> bool) l :
  (forall y, In y l -> p y = false) -> find p l = None.
Proof.
  induction l as [|x l IH]; simpl; intros H; [reflexivity|].
  rewrite (H x) by now left. apply IH. intros y Hy. apply H. now right.
Qed.

Lemma select_user_deleted a u d row :
  NoDup (map username (users d)) ->
  select_user d u = Some row ->
  user_account_number row = a ->
  select_user (deleted a d) u = None.
Proof.
  unfold select_user, deleted. simpl.
  induction (users d) as [|r l IH]; simpl; intros ND H Ha; [discriminate|].
  inversion ND as [|? ? Hr ND']; subst.
  destruct (String.eqb_spec (username r) u) as [E|E].
  - injection H as ->. rewrite String.eqb_refl. simpl.
    apply find_nowhere. intros y Hy. apply filter_In in Hy.
    destruct Hy as [Hy _].
    destruct (String.eqb_spec (username y) u) as [E'|]; [|reflexivity].
    exfalso. apply Hr. rewrite E, <- E'. now apply in_map.
  - destruct (negb _); simpl.
    + destruct (String.eqb_spec (username r) u); [contradiction|].
      now apply IH.
    + now apply IH.
Qed.

Lemma Bank_delete_account_yes confirm s cu f :
  Bank.conn s = connect f ->
  Bank.current_user s = Some cu ->
  Bank.lower confirm = "yes" ->
  Bank.delete_account confirm s
  = Bank.mk_outcome
      (Bank.mk_state (connect (deleted (Bank.cu_account_number cu) f))
                     None None (Bank.rate_limit_cache s))
      [Bank.Account_deleted_successfully; Bank.Logged_out_successfully]
      (Bank.returned None).
Proof.
  intros Hc Hcu E. unfold Bank.delete_account, Bank.authenticate.
  rewrite Hcu, E, Hc. reflexivity.
Qed.

End DeleteFacts.

(** X6.  [delete_account] deletes when the line typed at the prompt is
    'yes' in any mix of cases, and only then.  On 'yes', with no
    transaction open, it removes the account row, every user row and every
    transaction row of the account in one commit and logs out; the rows of
    every other account, its transactions included, are what they were, and
    the former username is no longer in the users table, so that a login
    under it is refused.  On any other line nothing changes. *)
Theorem delete_account_on_yes_only
    sha256_hexdigest hmac_sha256 SECRET_KEY now pw confirm s cu f :
  Bank.conn s = connect f ->
  Bank.current_user s = Some cu ->
  let a := Bank.cu_account_number cu in
  let o := Bank.delete_account confirm s in
  (Bank.lower confirm = "yes" ->
   Bank.printed o
   = [Bank.Account_deleted_successfully; Bank.Logged_out_successfully]
   /\ Bank.completed o = Bank.returned None
   /\ Bank.current_user (Bank.self o) = None
   /\ Bank.token (Bank.self o) = None
   /\ Bank.conn (Bank.self o) = connect (deleted a f)
   /\ select_account (deleted a f) a = None
   /\ (forall r, In r (users (deleted a f)) -> user_account_number r <> a)
   /\ (forall r, In r (transactions (deleted a f)) ->
                 txn_account_number r <> a)
   /\ (forall k, k <> a ->
                 select_account (deleted a f) k = select_account f k
                 /\ records_of (deleted a f) k = records_of f k)
   /\ (forall row,
          NoDup (map username (users f)) ->
          select_user f (Bank.cu_username cu) = Some row ->
          user_account_number row = a ->
          Bank.printed
            (Bank.login sha256_hexdigest hmac_sha256 SECRET_KEY now
                        (Bank.cu_username cu) pw (Bank.self o))
          = [Bank.Invalid_username_or_password]))
  /\ (Bank.lower confirm <> "yes" ->
      o = Bank.mk_outcome s [Bank.Account_deletion_cancelled]
                          (Bank.returned None)).
Proof.
  intros Hc Hcu a o. split.
  - intros E. subst o.
    rewrite (DeleteFacts.Bank_delete_account_yes confirm s cu f Hc Hcu E).
    cbn [Bank.printed Bank.completed Bank.self Bank.current_user Bank.token
         Bank.conn].
    fold a. repeat split.
    + apply DeleteFacts.select_account_deleted.
    + intros r Hr. now apply DeleteFacts.users_deleted in Hr.
    + intros r Hr. now apply DeleteFacts.transactions_deleted in Hr.
    + now apply SnapshotFacts.select_account_delete.
    + now apply DeleteFacts.records_of_deleted.
    + intros row ND Hrow Ha.
      unfold Bank.login, Bank.error_handler, Bank.login_def.
      cbn [Bank.conn view connect pending file].
      now rewrite (DeleteFacts.select_user_deleted _ _ _ row ND Hrow Ha).
  - intros E. subst o. unfold Bank.delete_account, Bank.authenticate.
    rewrite Hcu. apply String.eqb_neq in E. now rewrite E.
Qed.

Lemma delete_account_on_yes_only_witness :
  Bank.conn (Bank.self (Bank.delete_account "YeS"
                          (Scenario.logged_in Scenario.bank_db 10000)))
  = connect (deleted Scenario.A Scenario.bank_db)
  /\ Bank.delete_account "y"
       (Scenario.logged_in Scenario.bank_db 10000)
     = Bank.mk_outcome (Scenario.logged_in Scenario.bank_db 10000)
         [Bank.Account_deletion_cancelled] (Bank.returned None).
Proof.
  split.
  - apply (proj1 (delete_account_on_yes_only
                    Scenario.sha256_hexdigest Scenario.hmac_sha256
                    Scenario.SECRET_KEY 1700000100 "test123" "YeS"
                    (Scenario.logged_in Scenario.bank_db 10000)
                    (Scenario.test_dict 10000) Scenario.bank_db
                    eq_refl eq_refl)).
    reflexivity.
  - apply (proj2 (delete_account_on_yes_only
                    Scenario.sha256_hexdigest Scenario.hmac_sha256
                    Scenario.SECRET_KEY 1700000100 "test123" "y"
                    (Scenario.logged_in Scenario.bank_db 10000)
                    (Scenario.test_dict 10000) Scenario.bank_db
                    eq_refl eq_refl)).
    discriminate.
Defined.

(** ** Deposits, and what is refused *)

Module BookingFacts.

Import Sqlite SqliteFacts Spec.

Lemma set_balance_missing g a d :
  select_account d a = None ->
  map (set_balance g a) (accounts d) = accounts d.
Proof.
  unfold select_account. intros H.
  rewrite <- (map_id (accounts d)) at 2. apply map_ext_in. intros r Hr.
  apply (find_none _ _ H) in Hr. simpl in Hr. unfold set_balance.
  now rewrite Hr.
Qed.

Lemma balance_of_None_select d a :
  balance_of d a = None -> select_account d a = None.
Proof.
  unfold balance_of. now destruct (select_account d a).
Qed.

End BookingFacts.

(** X7.  A deposit of a positive amount adds the amount, in binary64, to
    the stored balance of the session's account and to no other (the store
    keeps a NaN result as [NULL] and -0.0 as 0.0), and appends the one row
    'Deposit' with that amount and no related account; a stored balance
    that is [NULL] stays [NULL].  When the account row of
    the session is gone the web front-end still appends the row and
    reports success while no balance moves.  An amount that is zero or
    negative is refused by both front-ends and nothing is written.  A NaN
    is refused by the console, whose test is [amount > 0], and let through
    by the web front-end, whose test is [amount <= 0]: it reports success,
    sets the balance to [NULL] and appends a row whose amount is [NULL]. *)
Theorem deposit_books_the_amount now x :
  (forall f i,
      let a := App.session_account_number i in
      let r := App.deposit now x f (Some i) in
      ((0 <? x)%float = true ->
       App.flashed r = [App.Successfully_deposited x]
       /\ transactions (App.db r)
          = (transactions f
               ++ [mk_transaction (sqlite_sequence f + 1) a "Deposit"
                                  (REAL x) None (CURRENT_TIMESTAMP now)])%list
       /\ users (App.db r) = users f
       /\ (forall b, balance_of f a = Some (REAL b) ->
                     balance_of (App.db r) a = Some (store (b + x)))
       /\ (balance_of f a = Some NULL -> balance_of (App.db r) a = Some NULL)
       /\ (balance_of f a = None -> accounts (App.db r) = accounts f)
       /\ (forall k, k <> a -> balance_of (App.db r) k = balance_of f k))
      /\ ((x <=? 0)%float = true ->
          r = App.mk_result f (Some i) (App.redirect "dashboard")
                [App.Deposit_amount_must_be_positive])
      /\ (is_nan x = true ->
          App.flashed r = [App.Successfully_deposited x]
          /\ transactions (App.db r)
             = (transactions f
                  ++ [mk_transaction (sqlite_sequence f + 1) a "Deposit"
                                     NULL None (CURRENT_TIMESTAMP now)])%list
          /\ (forall b, balance_of f a = Some b ->
                        balance_of (App.db r) a = Some NULL)))
  /\ (forall s cu b,
         Bank.current_user s = Some cu ->
         Bank.cu_balance cu = Some (REAL b) ->
         rate_gate_open now s (Bank.cu_account_number cu) ->
         let a := Bank.cu_account_number cu in
         let o := Bank.deposit now x s in
         ((0 <? x)%float = true ->
          Bank.printed o = [Bank.Deposited_successfully x (b + x)]
          /\ Bank.conn (Bank.self o)
             = connect (deposited now a "Deposit" x (view (Bank.conn s)))
          /\ option_map Bank.cu_balance (Bank.current_user (Bank.self o))
             = Some (Some (REAL (b + x))))
         /\ ((0 <? x)%float = false ->
             o = Bank.mk_outcome (past_rate_gate now s cu)
                   [Bank.Deposit_amount_must_be_positive]
                   (Bank.returned None))).
Proof.
  split.
  - intros f i a r. split; [|split].
    + intros Hx.
      destruct (LedgerFacts.App_deposit_ok now x f i
                  (FloatFacts.float_le_false _ _ Hx)) as (H1 & _ & H3).
      fold r in H1, H3. fold a in H3. rewrite H3.
      split; [exact H1|]. split; [|split; [|split; [|split; [|split]]]].
      * simpl. now rewrite (SqliteFacts.store_positive _ Hx).
      * reflexivity.
      * intros b Hb.
        rewrite (LedgerFacts.balance_after_deposit now a _ x f _ Hb).
        now rewrite SqliteFacts.keep_plus.
      * intros Hb.
        now rewrite (LedgerFacts.balance_after_deposit now a _ x f _ Hb).
      * intros Hb. apply BookingFacts.balance_of_None_select in Hb.
        simpl. now apply BookingFacts.set_balance_missing.
      * intros k Hk. now apply LedgerFacts.balance_of_deposited_other.
    + intros Hx. subst r. unfold App.deposit.
      now rewrite (FloatFacts.float_le_true _ _ Hx).
    + intros Hx.
      destruct (LedgerFacts.App_deposit_ok now x f i
                  (FloatFacts.float_le_nan _ 0 Hx)) as (H1 & _ & H3).
      fold r in H1, H3. fold a in H3. rewrite H3.
      split; [exact H1|]. split.
      * simpl. now rewrite (SqliteFacts.store_nan _ Hx).
      * intros b Hb.
        rewrite (LedgerFacts.balance_after_deposit now a _ x f _ Hb).
        rewrite (SqliteFacts.bind_nan _ Hx). now destruct b.
  - intros s cu b Hcu Hb Hopen a o. split.
    + intros Hx.
      destruct (ConsoleFacts.Bank_deposit_ok now x s cu b Hcu Hb Hopen Hx)
        as (_ & H2 & H3).
      fold o in H2, H3. rewrite H3. repeat split. exact H2.
    + intros Hx. subst o. unfold Bank.deposit, Bank.authenticate.
      rewrite Hcu, (TransferFacts.rate_limiter_open _ _ _ _ Hcu Hopen).
      unfold Bank.deposit_def. cbn [Bank.current_user past_rate_gate].
      rewrite Hcu. unfold float_gt. now rewrite Hx.
Qed.

Lemma deposit_books_the_amount_witness :
  balance_of (App.db (App.deposit 1700000100 500 Scenario.bank_db
                        (Some Scenario.test_session))) Scenario.A
  = Some (store (10000 + 500))
  /\ App.deposit 1700000100 0 Scenario.bank_db (Some Scenario.test_session)
     = App.mk_result Scenario.bank_db (Some Scenario.test_session)
         (App.redirect "dashboard") [App.Deposit_amount_must_be_positive]
  /\ balance_of (App.db (App.deposit 1700000100 nan Scenario.bank_db
                           (Some Scenario.test_session))) Scenario.A
     = Some NULL
  /\ Bank.printed (Bank.deposit 1700000100 500
                     (Scenario.logged_in Scenario.bank_db 10000))
     = [Bank.Deposited_successfully 500 (10000 + 500)]
  /\ Bank.deposit 1700000100 nan (Scenario.logged_in Scenario.bank_db 10000)
     = Bank.mk_outcome
         (past_rate_gate 1700000100
            (Scenario.logged_in Scenario.bank_db 10000)
            (Scenario.test_dict 10000))
         [Bank.Deposit_amount_must_be_positive] (Bank.returned None).
Proof.
  destruct (deposit_books_the_amount 1700000100 500) as [Hweb Hconsole].
  destruct (deposit_books_the_amount 1700000100 0) as [Hweb0 _].
  destruct (deposit_books_the_amount 1700000100 nan) as [Hwebn Hconsolen].
  split; [|split; [|split; [|split]]].
  - destruct (Hweb Scenario.bank_db Scenario.test_session) as [H _].
    destruct (H eq_refl) as (_ & _ & _ & Hb & _).
    apply Hb. reflexivity.
  - destruct (Hweb0 Scenario.bank_db Scenario.test_session) as (_ & H & _).
    apply H. reflexivity.
  - destruct (Hwebn Scenario.bank_db Scenario.test_session) as (_ & _ & H).
    destruct (H eq_refl) as (_ & _ & Hb).
    apply (Hb (REAL 10000)). reflexivity.
  - destruct (Hconsole (Scenario.logged_in Scenario.bank_db 10000)
                (Scenario.test_dict 10000) 10000%float eq_refl eq_refl I)
      as [H _].
    apply (H eq_refl).
  - destruct (Hconsolen (Scenario.logged_in Scenario.bank_db 10000)
                (Scenario.test_dict 10000) 10000%float eq_refl eq_refl I)
      as [_ H].
    apply (H eq_refl).
Defined.

(** X8.  A transfer to the sender's own account, to an account number that
    is not in the accounts table, or of more than the sender's balance is
    refused, in this order of tests, and writes nothing: the web front-end
    leaves the file as it is, the console leaves the store and its session
    as they are and only notes the time of the attempt in the rate
    limiter. *)
Theorem refused_transfer_writes_nothing now to x :
  (forall f i,
      let a := App.session_account_number i in
      let r := App.transfer now to x f (Some i) in
      let refused m :=
        r = App.mk_result f (Some i) (App.redirect "dashboard") [m] in
      (to = a -> refused App.Cannot_transfer_to_your_own_account)
      /\ (to <> a -> select_account f to = None ->
          refused App.Recipient_account_not_found)
      /\ (forall b, to <> a -> select_account f to <> None ->
                    balance_of f a = Some (REAL b) -> (b <? x)%float = true ->
                    refused App.Insufficient_funds))
  /\ (forall s cu,
         Bank.current_user s = Some cu ->
         rate_gate_open now s (Bank.cu_account_number cu) ->
         let a := Bank.cu_account_number cu in
         let o := Bank.transfer_money now to x s in
         let refused m :=
           o = Bank.mk_outcome (past_rate_gate now s cu) [m]
                               (Bank.returned None) in
         (to = a -> refused Bank.Cannot_transfer_to_your_own_account)
         /\ (to <> a -> select_account (view (Bank.conn s)) to = None ->
             refused Bank.Recipient_account_not_found)
         /\ (forall b, to <> a ->
                       select_account (view (Bank.conn s)) to <> None ->
                       Bank.cu_balance cu = Some (REAL b) ->
                       (b <? x)%float = true ->
                       refused Bank.Insufficient_balance)).
Proof.
  split.
  - intros f i a r refused. subst refused r. unfold App.transfer.
    cbn [view connect pending file]. fold a. repeat split.
    + intros ->. now rewrite String.eqb_refl.
    + intros Hne Hto. apply String.eqb_neq in Hne. now rewrite Hne, Hto.
    + intros b Hne Hto Hb Hlt. apply String.eqb_neq in Hne. rewrite Hne.
      destruct (select_account f to); [|contradiction].
      unfold balance_of in Hb. rewrite Hb.
      now rewrite (FloatFacts.float_gt_true _ _ Hlt).
  - intros s cu Hcu Hopen a o refused. subst refused o.
    unfold Bank.transfer_money, Bank.authenticate.
    rewrite Hcu, (TransferFacts.rate_limiter_open _ _ _ _ Hcu Hopen).
    unfold Bank.transfer_money_def.
    cbn [Bank.current_user Bank.conn past_rate_gate]. rewrite Hcu.
    fold a. repeat split.
    + intros ->. now rewrite String.eqb_refl.
    + intros Hne Hto. apply String.eqb_neq in Hne. now rewrite Hne, Hto.
    + intros b Hne Hto Hb Hlt. apply String.eqb_neq in Hne. rewrite Hne.
      destruct (select_account (view (Bank.conn s)) to); [|contradiction].
      rewrite Hb. now rewrite (FloatFacts.float_gt_true _ _ Hlt).
Qed.

Lemma refused_transfer_writes_nothing_witness :
  App.transfer 1700000100 "0000000000" 100 Scenario.bank_db
    (Some Scenario.test_session)
  = App.mk_result Scenario.bank_db (Some Scenario.test_session)
      (App.redirect "dashboard") [App.Recipient_account_not_found]
  /\ Bank.transfer_money 1700000100 Scenario.B 20000
       (Scenario.logged_in Scenario.bank_db 10000)
     = Bank.mk_outcome
         (past_rate_gate 1700000100
            (Scenario.logged_in Scenario.bank_db 10000)
            (Scenario.test_dict 10000))
         [Bank.Insufficient_balance] (Bank.returned None).
Proof.
  split.
  - destruct (refused_transfer_writes_nothing 1700000100 "0000000000" 100)
      as [Hweb _].
    destruct (Hweb Scenario.bank_db Scenario.test_session) as (_ & H & _).
    apply H; [discriminate | reflexivity].
  - destruct (refused_transfer_writes_nothing 1700000100 Scenario.B 20000)
      as [_ Hconsole].
    destruct (Hconsole (Scenario.logged_in Scenario.bank_db 10000)
                (Scenario.test_dict 10000) eq_refl I) as (_ & _ & H).
    apply (H 10000%float);
      [discriminate | discriminate | reflexivity | reflexivity].
Defined.

(** X9.  A withdrawal of an amount that is not positive writes nothing in
    either front-end.  The web front-end answers 'Withdrawal amount must
    be positive' whatever the balance; the console tests the balance
    first, so it prints 'Insufficient balance' when the balance it holds is
    below the amount and 'Withdrawal amount must be positive' otherwise. *)
Theorem withdraw_of_nonpositive_amount_writes_nothing now x :
  (x <=? 0)%float = true ->
  (forall f i,
      App.withdraw now x f (Some i)
      = App.mk_result f (Some i) (App.redirect "dashboard")
          [App.Withdrawal_amount_must_be_positive])
  /\ (forall s cu b,
         Bank.current_user s = Some cu ->
         Bank.cu_balance cu = Some (REAL b) ->
         rate_gate_open now s (Bank.cu_account_number cu) ->
         Bank.withdraw now x s
         = Bank.mk_outcome (past_rate_gate now s cu)
             [if float_gt x b then Bank.Insufficient_balance
              else Bank.Withdrawal_amount_must_be_positive]
             (Bank.returned None)).
Proof.
  intros Hx. apply FloatFacts.float_le_true in Hx. split.
  - intros f i. unfold App.withdraw. now rewrite Hx.
  - intros s cu b Hcu Hb Hopen. unfold Bank.withdraw, Bank.authenticate.
    rewrite Hcu, (TransferFacts.rate_limiter_open _ _ _ _ Hcu Hopen).
    unfold Bank.withdraw_def. cbn [Bank.current_user past_rate_gate].
    rewrite Hcu, Hb.
    destruct (float_gt x b); [reflexivity|]. now rewrite Hx.
Qed.

Lemma withdraw_of_nonpositive_amount_writes_nothing_witness :
  App.withdraw 1700000100 (-5) Scenario.bank_db (Some Scenario.test_session)
  = App.mk_result Scenario.bank_db (Some Scenario.test_session)
      (App.redirect "dashboard") [App.Withdrawal_amount_must_be_positive]
  /\ Bank.printed (Bank.withdraw 1700000100 (-5)
                     (Scenario.logged_in Scenario.bank_db 10000))
     = [Bank.Withdrawal_amount_must_be_positive].
Proof.
  destruct (withdraw_of_nonpositive_amount_writes_nothing 1700000100 (-5)
              eq_refl)
    as [Hweb Hconsole].
  split.
  - apply Hweb.
  - rewrite (Hconsole (Scenario.logged_in Scenario.bank_db 10000)
                      (Scenario.test_dict 10000) 10000%float
                      eq_refl eq_refl I).
    reflexivity.
Defined.

(** ** What the requests and the calls make of the store *)

Module StoreFacts.

Import Sqlite SqliteFacts Spec.

Lemma after_one R d d' : R d d' -> after R d d'.
Proof. intros H. eapply after_more; [exact H | apply after_none]. Qed.

Lemma after_trans R d d' d'' :
  after R d d' -> after R d' d'' -> after R d d''.
Proof.
  induction 1 as [|a b c Hab Hbc IH]; intros H; [exact H|].
  eapply after_more; [exact Hab | now apply IH].
Qed.

Lemma after_incl (R R' : database -> database -> Prop) d d' :
  (forall x y, R x y -> R' x y) -> after R d d' -> after R' d d'.
Proof.
  intros H. induction 1 as [|a b c Hab Hbc IH]; [apply after_none|].
  eapply after_more; [apply H; exact Hab | exact IH].
Qed.

Lemma after_invariant R (P : database -> Prop) d d' :
  (forall x y, R x y -> P x -> P y) -> after R d d' -> P d -> P d'.
Proof.
  intros H. induction 1 as [|a b c Hab Hbc IH]; intros Hd; [exact Hd|].
  apply IH. now apply (H a b).
Qed.

(** *** The web front-end *)

Lemma App_handle_appends sha q f s :
  after appends f (App.db (App.handle sha q f s)).
Proof.
  destruct q as [u pw | now u pw n x | | now x | now x | now a x | ]; simpl.
  - unfold App.login. cbn [view connect pending file].
    destruct (select_user f u); [|apply after_none].
    destruct (String.eqb _ _); apply after_none.
  - unfold App.register, try_execute. cbn [view connect pending file].
    destruct (select_user f u); [apply after_none|].
    destruct (insert_account _ n x f) as [d1|e] eqn:E1; [|apply after_none].
    cbn [view pending file].
    destruct (insert_user _ _ _ d1) as [d2|e] eqn:E2; [|apply after_none].
    simpl. eapply after_more; [eapply inserted_account; exact E1|].
    apply after_one. eapply inserted_user; [|exact E2].
    now destruct (SnapshotFacts.select_account_after_insert
                    _ n x f d1 "" E1) as (_ & _ & H & _).
  - unfold App.dashboard. destruct s; apply after_none.
  - unfold App.deposit. destruct s as [i|]; [|apply after_none].
    destruct (float_le x 0); [apply after_none|].
    apply after_one. apply booked_deposit.
  - unfold App.withdraw. destruct s as [i|]; [|apply after_none].
    cbn [view connect pending file].
    destruct (float_le x 0); [apply after_none|].
    destruct (option_map balance (select_account f _)) as [[|b]|];
      try apply after_none.
    destruct (float_gt x _); [apply after_none|].
    apply after_one. apply booked_withdrawal.
  - unfold App.transfer. destruct s as [i|]; [|apply after_none].
    destruct (String.eqb _ _); [apply after_none|].
    cbn [view connect pending file].
    destruct (select_account f a); [|apply after_none].
    destruct (option_map balance (select_account f _)) as [[|b]|];
      try apply after_none.
    destruct (float_gt x _); [apply after_none|].
    apply after_one. apply booked_transfer.
  - apply after_none.
Qed.

Lemma App_serve_appends sha qs :
  forall f s, after appends f (fst (App.serve sha qs f s)).
Proof.
  induction qs as [|q qs IH]; simpl; intros f s; [apply after_none|].
  eapply after_trans; [apply App_handle_appends | apply IH].
Qed.

(** *** The console *)

Lemma through_authenticate R func :
  through R func -> through R (Bank.authenticate func).
Proof.
  intros H s. unfold Bank.authenticate.
  destruct (Bank.current_user s); [apply H | apply after_none].
Qed.

Lemma through_rate_limiter R now func :
  through R func -> through R (Bank.rate_limiter now func).
Proof.
  intros H s. unfold Bank.rate_limiter.
  destruct (Bank.current_user s) as [cu|]; [|apply after_none].
  match goal with |- context [if ?b then _ else _] => destruct b end;
    [apply after_none|].
  match goal with |- context [func ?s'] => exact (H s') end.
Qed.

Lemma through_error_handler R func :
  through R func -> through R (Bank.error_handler func).
Proof.
  intros H s. unfold Bank.error_handler. specialize (H s).
  destruct (Bank.completed (func s)); exact H.
Qed.

Lemma through_reading R (func : Bank.method) :
  (forall s, Bank.self (func s) = s) -> through R func.
Proof. intros H s. rewrite H. apply after_none. Qed.

Lemma through_deposit_def now x : through appends (Bank.deposit_def now x).
Proof.
  intros s. unfold Bank.deposit_def.
  destruct (Bank.current_user s) as [cu|]; [|apply after_none].
  destruct (float_gt x 0); [|apply after_none].
  destruct (Bank.cu_balance cu) as [[|b]|]; apply after_one, booked_deposit.
Qed.

Lemma through_withdraw_def now x : through appends (Bank.withdraw_def now x).
Proof.
  intros s. unfold Bank.withdraw_def.
  destruct (Bank.current_user s) as [cu|]; [|apply after_none].
  destruct (Bank.cu_balance cu) as [[|b]|]; try apply after_none.
  destruct (float_gt x _); [apply after_none|].
  destruct (float_le x 0); [apply after_none|].
  apply after_one, booked_withdrawal.
Qed.

Lemma through_transfer_money_def now a x :
  through appends (Bank.transfer_money_def now a x).
Proof.
  intros s. unfold Bank.transfer_money_def.
  destruct (Bank.current_user s) as [cu|]; [|apply after_none].
  destruct (String.eqb a _); [apply after_none|].
  destruct (select_account _ a); [|apply after_none].
  destruct (Bank.cu_balance cu) as [[|b]|]; try apply after_none.
  destruct (float_gt x _); [apply after_none|].
  unfold begin_transaction, in_transaction, view.
  destruct (pending (Bank.conn s)) eqn:E; cbn; rewrite ?E;
    [apply after_none|].
  apply after_one, booked_transfer.
Qed.

Lemma through_register_def sha now u pw n x :
  through appends (Bank.register_def sha now u pw n x).
Proof.
  intros s. unfold Bank.register_def, try_execute.
  destruct (select_user _ u); [apply after_none|].
  destruct (insert_account _ n x (view (Bank.conn s))) as [d1|e] eqn:E1;
    [|apply after_none].
  cbn [view pending file].
  assert (S1 : appends (view (Bank.conn s)) d1)
    by (eapply inserted_account; exact E1).
  destruct (insert_user _ _ _ d1) as [d2|e] eqn:E2.
  - cbn. eapply after_more; [exact S1|].
    apply after_one. eapply inserted_user; [|exact E2].
    now destruct (SnapshotFacts.select_account_after_insert
                    _ n x _ d1 "" E1) as (_ & _ & H & _).
  - cbn. now apply after_one.
Qed.

Lemma through_login_def sha hmac key now u pw :
  through appends (Bank.login_def sha hmac key now u pw).
Proof.
  intros s. unfold Bank.login_def.
  destruct (select_user _ u) as [user|]; [|apply after_none].
  destruct (negb _); [apply after_none|].
  destruct (select_account _ _); apply after_none.
Qed.

Lemma through_delete_account confirm :
  through statements (Bank.delete_account confirm).
Proof.
  apply through_authenticate. intros s. cbv beta.
  destruct (Bank.current_user s) as [cu|]; [|apply after_none].
  destruct (negb _); [apply after_none|].
  unfold begin_transaction, in_transaction, view.
  destruct (pending (Bank.conn s)) eqn:E; cbn; rewrite ?E;
    [apply after_none|].
  apply after_one, deleting.
Qed.

Lemma through_more m : through appends m -> through statements m.
Proof.
  intros H s. eapply after_incl; [|apply H]. apply appending.
Qed.

(** Every call but [delete_account] appends; [delete_account] deletes. *)
Lemma Bank_invoke_appends sha hmac key c :
  (forall confirm, c <> Bank.Delete_account confirm) ->
  through appends (Bank.invoke sha hmac key c).
Proof.
  intros Hc. destruct c; simpl.
  - apply through_error_handler, through_login_def.
  - apply through_error_handler, through_register_def.
  - apply through_authenticate, through_rate_limiter, through_deposit_def.
  - apply through_authenticate, through_rate_limiter, through_withdraw_def.
  - apply through_reading, SnapshotFacts.get_account_balance_reads.
  - apply through_reading, SnapshotFacts.display_account_details_reads.
  - apply through_authenticate, through_rate_limiter,
      through_transfer_money_def.
  - apply through_reading, SnapshotFacts.get_transaction_history_reads.
  - now contradiction (Hc confirm).
  - intros s. apply after_none.
Qed.

Lemma Bank_invoke_statements sha hmac key c :
  through statements (Bank.invoke sha hmac key c).
Proof.
  destruct c as [? ? ?|? ? ? ? ?|? ?|? ?| | |? ? ?| |confirm| ];
    try (apply through_more, Bank_invoke_appends; discriminate).
  apply through_delete_account.
Qed.

Lemma Bank_run_statements sha hmac key cs :
  forall s, after statements (view (Bank.conn s))
                  (view (Bank.conn (Bank.run sha hmac key cs s))).
Proof.
  induction cs as [|c cs IH]; simpl; intros s; [apply after_none|].
  pose proof (Bank_invoke_statements sha hmac key c s) as H.
  destruct (Bank.completed _); [|exact H].
  eapply after_trans; [exact H | apply IH].
Qed.

End StoreFacts.

(** ** Invariants of the store *)

Module WellformedFacts.

Import Sqlite SqliteFacts Spec.

Lemma NoDup_map_filter {A B} (g : A -> B) (p : A -> bool) l :
  NoDup (map g l) -> NoDup (map g (filter p l)).
Proof.
  induction l as [|x l IH]; simpl; intros H; [constructor|].
  inversion H as [|? ? Hx H']; subst.
  destruct (p x); simpl; [|now apply IH].
  constructor; [|now apply IH].
  intros Hin. apply Hx. apply in_map_iff in Hin.
  destruct Hin as [y [Ey Hy]]. apply filter_In in Hy.
  rewrite <- Ey. apply in_map. tauto.
Qed.

Lemma NoDup_map_snoc {A B} (g : A -> B) l x :
  NoDup (map g l) -> (forall y, In y l -> g y <> g x) ->
  NoDup (map g (l ++ [x])).
Proof.
  intros ND H. rewrite map_app. simpl.
  apply NoDup_app; [exact ND | repeat constructor; simpl; tauto |].
  intros k Hk [<-|[]]. apply in_map_iff in Hk. destruct Hk as [y [Ey Hy]].
  now apply (H y Hy).
Qed.

Lemma wellformed_update g a d :
  wellformed d ->
  wellformed (mk_database (map (set_balance g a) (accounts d)) (users d)
                          (transactions d) (sqlite_sequence d)).
Proof.
  intros [[A U V] W]. split.
  - constructor; simpl; try assumption.
    now rewrite map_account_number_set_balance.
  - intros u Hu E. apply (W u Hu).
    now apply (SnapshotFacts.select_account_set_balance_None g a).
Qed.

Lemma wellformed_insert_transaction now a ty x rel d :
  wellformed d -> wellformed (insert_transaction now a ty x rel d).
Proof. intros [[A U V] W]. split; [constructor|]; assumption. Qed.

Lemma wellformed_insert_account a n x d d' :
  insert_account a n x d = inl d' -> wellformed d -> wellformed d'.
Proof.
  intros E [[A U V] W].
  destruct (SnapshotFacts.select_account_after_insert a n x d d' a E)
    as (Hnone & Husers & _ & _).
  split.
  - unfold insert_account in E. rewrite Hnone in E. injection E as <-.
    constructor; simpl; try assumption.
    apply NoDup_map_snoc; [exact A|]. intros y Hy. simpl.
    unfold select_account in Hnone.
    apply (find_none _ _ Hnone) in Hy. simpl in Hy.
    now apply String.eqb_neq.
  - intros u Hu. rewrite Husers in Hu.
    destruct (SnapshotFacts.select_account_after_insert
                a n x d d' (user_account_number u) E) as (_ & _ & _ & Hk).
    rewrite (Hk (W u Hu)). now apply W.
Qed.

Lemma wellformed_insert_user u a h d d' :
  select_account d a <> None ->
  insert_user u a h d = inl d' -> wellformed d -> wellformed d'.
Proof.
  unfold insert_user. intros Ha E [[A U V] W].
  destruct (existsb _ (users d)) eqn:X; [discriminate|].
  injection E as <-.
  assert (Hno : forall y, In y (users d) ->
                          username y <> u /\ user_account_number y <> a).
  { intros y Hy.
    assert (X' : existsb
                   (fun r => String.eqb (username r) u
                             || String.eqb (user_account_number r) a)
                   (users d) <> true) by now rewrite X.
    split; intros Ey; apply X'; apply existsb_exists; exists y;
      (split; [exact Hy|]); rewrite Ey, String.eqb_refl;
      [reflexivity | apply orb_true_r]. }
  split.
  - constructor; simpl; try assumption.
    + apply NoDup_map_snoc; [exact U|]. intros y Hy. now apply Hno.
    + apply NoDup_map_snoc; [exact V|]. intros y Hy. now apply Hno.
  - intros r Hr. simpl in Hr. apply in_app_or in Hr.
    destruct Hr as [Hr|[<-|[]]]; [now apply W | exact Ha].
Qed.

Lemma wellformed_deleted a d : wellformed d -> wellformed (deleted a d).
Proof.
  intros [[A U V] W]. split.
  - constructor; simpl; now apply NoDup_map_filter.
  - now apply SnapshotFacts.users_have_accounts_delete.
Qed.

Lemma wellformed_statements d d' :
  statements d d' -> wellformed d -> wellformed d'.
Proof.
  intros [x y [now a ty v e|now a ty v e|now a b v e|a n v e e' E
               |u a h e e' Ha E]|a e] H.
  - now apply wellformed_insert_transaction, wellformed_update.
  - now apply wellformed_insert_transaction, wellformed_update.
  - unfold transfer_statements.
    now apply wellformed_insert_transaction, wellformed_insert_transaction,
      wellformed_update, wellformed_update.
  - now apply (wellformed_insert_account a n v e e').
  - now apply (wellformed_insert_user u a h e e').
  - now apply wellformed_deleted.
Qed.

(** *** The sequence counter *)

Lemma sequence_covers_same d d' :
  transactions d' = transactions d ->
  sqlite_sequence d' = sqlite_sequence d ->
  sequence_covers d -> sequence_covers d'.
Proof.
  unfold sequence_covers, ids_increasing. now intros -> ->.
Qed.

Lemma sequence_covers_insert_transaction now a ty x rel d :
  sequence_covers d -> sequence_covers (insert_transaction now a ty x rel d).
Proof.
  intros [H1 H2]. now apply HistoryFacts.insert_transaction_ids.
Qed.

Lemma sequence_covers_deleted a d :
  sequence_covers d -> sequence_covers (deleted a d).
Proof.
  intros [H1 H2]. split.
  - unfold ids_increasing, deleted. simpl.
    now apply HistoryFacts.StronglySorted_filter.
  - unfold deleted. simpl. rewrite Forall_forall in *.
    intros r Hr. apply filter_In in Hr. now apply H2.
Qed.

Lemma sequence_covers_statements d d' :
  statements d d' -> sequence_covers d -> sequence_covers d'.
Proof.
  intros [x y [now a ty v e|now a ty v e|now a b v e|a n v e e' E
               |u a h e e' Ha E]|a e] H.
  - apply sequence_covers_insert_transaction.
    now apply (sequence_covers_same e).
  - apply sequence_covers_insert_transaction.
    now apply (sequence_covers_same e).
  - unfold transfer_statements.
    apply sequence_covers_insert_transaction,
      sequence_covers_insert_transaction.
    now apply (sequence_covers_same e).
  - unfold insert_account in E. destruct (select_account e a); [discriminate|].
    injection E as <-. now apply (sequence_covers_same e).
  - unfold insert_user in E. destruct (existsb _ _); [discriminate|].
    injection E as <-. now apply (sequence_covers_same e).
  - now apply sequence_covers_deleted.
Qed.

(** *** Nothing but balances is rewritten *)

Lemma only_grows_refl d : only_grows d d.
Proof. repeat split; exists []; now rewrite app_nil_r. Qed.

Lemma only_grows_trans d d' d'' :
  only_grows d d' -> only_grows d' d'' -> only_grows d d''.
Proof.
  intros ([l1 H1] & [l2 H2] & [l3 H3]) ([m1 G1] & [m2 G2] & [m3 G3]).
  repeat split.
  - exists (l1 ++ m1)%list. now rewrite G1, H1, app_assoc.
  - exists (l2 ++ m2)%list. now rewrite G2, H2, app_assoc.
  - exists (l3 ++ m3)%list. now rewrite G3, H3, app_assoc.
Qed.

Lemma map_key_set_balance g a l :
  map (fun r => (account_number r, name r)) (map (set_balance g a) l)
  = map (fun r => (account_number r, name r)) l.
Proof.
  rewrite map_map. apply map_ext. intros r. unfold set_balance.
  now destruct (String.eqb _ _).
Qed.

Lemma only_grows_appends d d' : appends d d' -> only_grows d d'.
Proof.
  intros [now a ty v e|now a ty v e|now a b v e|a n v e e' E
          |u a h e e' Ha E].
  - repeat split; simpl.
    + eexists; reflexivity.
    + exists []; now rewrite app_nil_r.
    + exists []. now rewrite map_key_set_balance, app_nil_r.
  - repeat split; simpl.
    + eexists; reflexivity.
    + exists []; now rewrite app_nil_r.
    + exists []. now rewrite map_key_set_balance, app_nil_r.
  - repeat split; simpl.
    + eexists. rewrite <- app_assoc. reflexivity.
    + exists []; now rewrite app_nil_r.
    + exists []. now rewrite !map_key_set_balance, app_nil_r.
  - unfold insert_account in E. destruct (select_account e a); [discriminate|].
    injection E as <-. repeat split; simpl.
    + exists []; now rewrite app_nil_r.
    + exists []; now rewrite app_nil_r.
    + eexists. rewrite map_app. reflexivity.
  - unfold insert_user in E. destruct (existsb _ _); [discriminate|].
    injection E as <-. repeat split; simpl.
    + exists []; now rewrite app_nil_r.
    + eexists; reflexivity.
    + exists []; now rewrite app_nil_r.
Qed.

Lemma only_grows_after d d' : after appends d d' -> only_grows d d'.
Proof.
  induction 1 as [|a b c Hab Hbc IH]; [apply only_grows_refl|].
  eapply only_grows_trans; [apply only_grows_appends; exact Hab | exact IH].
Qed.

End WellformedFacts.

(** X10.  The constraints of the schema (no two account rows with one
    account number, no two user rows with one username or one account
    number) and the link from every user row to an account row are kept by
    every sequence of requests of the web front-end and by every sequence
    of calls of the console, whatever the amounts, the session and the
    clock. *)
Theorem wellformed_store_stays_wellformed
    sha256_hexdigest hmac_sha256 SECRET_KEY :
  (forall qs f s,
      wellformed f -> wellformed (fst (App.serve sha256_hexdigest qs f s)))
  /\ (forall cs s,
         wellformed (view (Bank.conn s)) ->
         wellformed
           (view (Bank.conn
                    (Bank.run sha256_hexdigest hmac_sha256 SECRET_KEY cs s)))).
Proof.
  split.
  - intros qs f s. apply (StoreFacts.after_invariant statements).
    + apply WellformedFacts.wellformed_statements.
    + eapply StoreFacts.after_incl; [|apply StoreFacts.App_serve_appends].
      apply appending.
  - intros cs s. apply (StoreFacts.after_invariant statements).
    + apply WellformedFacts.wellformed_statements.
    + apply StoreFacts.Bank_run_statements.
Qed.

Lemma wellformed_store_stays_wellformed_witness :
  wellformed
    (fst (App.serve Scenario.sha256_hexdigest
            [App.Register 1700000500 "carol" "pw" "Carol" 25;
             App.Transfer 1700000600 Scenario.B 1000]
            Scenario.bank_db (Some Scenario.test_session)))
  /\ wellformed
       (view (Bank.conn
                (Bank.run Scenario.sha256_hexdigest Scenario.hmac_sha256
                   Scenario.SECRET_KEY Scenario.a_console_session
                   (Bank.__init__ Scenario.bank_db)))).
Proof.
  assert (H : wellformed Scenario.bank_db).
  { split.
    - constructor; repeat constructor; simpl; intuition discriminate.
    - intros r [<-|[<-|[]]]; discriminate. }
  destruct (wellformed_store_stays_wellformed Scenario.sha256_hexdigest
              Scenario.hmac_sha256 Scenario.SECRET_KEY) as [Hweb Hconsole].
  split.
  - now apply Hweb.
  - now apply Hconsole.
Defined.



Module GrowFacts.

Import Sqlite Spec.

Lemma Bank_run_appends sha hmac key cs :
  Forall (fun c => forall confirm, c <> Bank.Delete_account confirm) cs ->
  forall s, after appends (view (Bank.conn s))
                  (view (Bank.conn (Bank.run sha hmac key cs s))).
Proof.
  induction 1 as [|c cs Hc Hcs IH]; simpl; intros s; [apply after_none|].
  pose proof (StoreFacts.Bank_invoke_appends sha hmac key c Hc s) as H.
  destruct (Bank.completed _); [|exact H].
  eapply StoreFacts.after_trans; [exact H | apply IH].
Qed.

End GrowFacts.

(** X12.  The web front-end never removes or rewrites a row, balances
    apart: after every sequence of requests the transactions table and the
    users table begin with the rows they had, in their order, and the
    accounts table with the same account numbers and names.  The same
    holds for every sequence of calls of the console in which
    [delete_account] does not occur. *)
Theorem tables_only_grow sha256_hexdigest hmac_sha256 SECRET_KEY :
  (forall qs f s,
      only_grows f (fst (App.serve sha256_hexdigest qs f s)))
  /\ (forall cs s,
         Forall (fun c => forall confirm, c <> Bank.Delete_account confirm)
                cs ->
         only_grows (view (Bank.conn s))
           (view (Bank.conn
                    (Bank.run sha256_hexdigest hmac_sha256 SECRET_KEY cs s)))).
Proof.
  split.
  - intros qs f s. apply WellformedFacts.only_grows_after,
      StoreFacts.App_serve_appends.
  - intros cs s H. now apply WellformedFacts.only_grows_after,
      GrowFacts.Bank_run_appends.
Qed.

Lemma tables_only_grow_witness :
  only_grows Scenario.bank_db
    (view (Bank.conn
             (Bank.run Scenario.sha256_hexdigest Scenario.hmac_sha256
                Scenario.SECRET_KEY Scenario.a_console_session
                (Bank.__init__ Scenario.bank_db)))).
Proof.
  apply (proj2 (tables_only_grow Scenario.sha256_hexdigest
                  Scenario.hmac_sha256 Scenario.SECRET_KEY)
               Scenario.a_console_session (Bank.__init__ Scenario.bank_db)).
  repeat constructor; discriminate.
Defined.

(** ** The grouping of [indian_number_format] *)

Module FormatFacts.

Import Format.

Lemma replace_empty_flat_map (c : ascii) (s : list ascii) :
  replace_empty c s = (flat_map (fun y => [c; y]) s ++ [c])%list.
Proof.
  induction s as [|x s IH]; [reflexivity|].
  change (replace_empty c (x :: s)) with (c :: x :: replace_empty c s).
  now rewrite IH.
Qed.

Lemma removelast_replace_empty c s :
  removelast (replace_empty c s) = flat_map (fun y => [c; y]) s.
Proof. rewrite replace_empty_flat_map. apply removelast_last. Qed.

Lemma slice_replace_empty c s :
  slice_1_m1 (replace_empty c s) = intersperse c s.
Proof.
  destruct s as [|x s]; [reflexivity|].
  unfold slice_1_m1, intersperse.
  change (tl (replace_empty c (x :: s))) with (x :: replace_empty c s).
  rewrite <- removelast_replace_empty.
  rewrite replace_empty_flat_map.
  now destruct (flat_map (fun y => [c; y]) s).
Qed.

Lemma prefixed_snoc (c : ascii) (l : list ascii) :
  (flat_map (fun y => [c; y]) l ++ [c])%list
  = c :: flat_map (fun y => [y; c]) l.
Proof.
  induction l as [|x l IH]; [reflexivity|].
  simpl. now rewrite IH.
Qed.

Lemma intersperse_snoc (c : ascii) (l : list ascii) (x : ascii) :
  intersperse c (l ++ [x]) = (flat_map (fun y => [y; c]) l ++ [x])%list.
Proof.
  destruct l as [|y l]; [reflexivity|].
  simpl. f_equal. rewrite flat_map_app. simpl.
  change [c; x] with ([c] ++ [x])%list.
  now rewrite app_assoc, prefixed_snoc.
Qed.

Lemma rev_prefixed (c : ascii) (l : list ascii) :
  rev (flat_map (fun y => [c; y]) l) = flat_map (fun y => [y; c]) (rev l).
Proof.
  induction l as [|x l IH]; [reflexivity|].
  simpl. rewrite flat_map_app, <- IH. simpl.
  now rewrite <- app_assoc.
Qed.

Lemma rev_intersperse c l : rev (intersperse c l) = intersperse c (rev l).
Proof.
  destruct l as [|x l]; [reflexivity|].
  simpl. now rewrite intersperse_snoc, rev_prefixed.
Qed.

Lemma grouping_long value :
  (3 < List.length value)%nat ->
  indian_number_format_else value
  = (intersperse ","%char (other_numbers value) ++ ","%char :: last_three value)%list.
Proof.
  intros H. unfold indian_number_format_else.
  destruct (other_numbers value) as [|x l] eqn:E.
  - apply (f_equal (@List.length ascii)) in E. unfold other_numbers in E.
    rewrite length_firstn in E. simpl in E. lia.
  - rewrite slice_replace_empty, rev_intersperse, rev_involutive.
    reflexivity.
Qed.

Lemma grouping_short value :
  (List.length value <= 3)%nat -> indian_number_format_else value = value.
Proof.
  intros H. unfold indian_number_format_else, other_numbers, last_three.
  replace (List.length value - 3)%nat with 0%nat by lia. reflexivity.
Qed.

Lemma length_intersperse c l :
  List.length (intersperse c l) = (2 * List.length l - 1)%nat.
Proof.
  destruct l as [|x l]; [reflexivity|]. simpl.
  induction l as [|y l IH]; [reflexivity|]. simpl in *. lia.
Qed.

Lemma filter_intersperse c l :
  ~ In c l ->
  filter (fun y => negb (Ascii.eqb y c)) (intersperse c l) = l.
Proof.
  destruct l as [|x l]; [reflexivity|]. simpl. intros H.
  destruct (Ascii.eqb_spec x c) as [E|E]; [tauto|]. simpl. f_equal.
  assert (Hl : ~ In c l) by tauto. clear H E.
  induction l as [|y l IH]; [reflexivity|]. simpl.
  rewrite Ascii.eqb_refl. simpl.
  destruct (Ascii.eqb_spec y c) as [E|E]; [simpl in Hl; tauto|].
  simpl. f_equal. apply IH. simpl in Hl. tauto.
Qed.

Lemma filter_without (c : ascii) (l : list ascii) :
  ~ In c l -> filter (fun y => negb (Ascii.eqb y c)) l = l.
Proof.
  intros H. apply forallb_filter_id, forallb_forall. intros y Hy.
  destruct (Ascii.eqb_spec y c) as [E|E]; [|reflexivity].
  exfalso. apply H. now rewrite <- E.
Qed.

End FormatFacts.

(** X14.  The grouping of [indian_number_format]: a text of at most three
    characters is returned as it is; in a longer one the last three
    characters are kept together and a comma is put before them and
    between every two of the characters before them, one by one and not
    two by two, so that '1234567' becomes '1,2,3,4,567'.  For a text of
    [n > 3] characters the result has [2 n - 3] characters, and taking the
    commas out of the result of a text without commas gives the text
    back. *)
Theorem indian_grouping_separates_every_leading_character value :
  let result := Format.indian_number_format_else value in
  ((List.length value <= 3)%nat -> result = value)
  /\ ((3 < List.length value)%nat ->
      result
      = (Format.intersperse ","%char (firstn (List.length value - 3) value)
           ++ ","%char :: skipn (List.length value - 3) value)%list
      /\ List.length result = (2 * List.length value - 3)%nat)
  /\ (~ In ","%char value ->
      filter (fun c => negb (Ascii.eqb c ","%char)) result = value).
Proof.
  intros result. split; [|split].
  - apply FormatFacts.grouping_short.
  - intros H. subst result. rewrite (FormatFacts.grouping_long _ H).
    split; [reflexivity|].
    rewrite length_app, FormatFacts.length_intersperse.
    unfold Format.other_numbers, Format.last_three. simpl.
    rewrite length_firstn, length_skipn. lia.
  - intros Hc. subst result.
    destruct (Nat.le_gt_cases (List.length value) 3) as [H|H].
    + rewrite (FormatFacts.grouping_short _ H).
      now apply FormatFacts.filter_without.
    + rewrite (FormatFacts.grouping_long _ H), filter_app. simpl.
      rewrite FormatFacts.filter_intersperse, FormatFacts.filter_without.
      * apply firstn_skipn.
      * intros Hin. apply Hc.
        rewrite <- (firstn_skipn (List.length value - 3) value).
        apply in_or_app. now right.
      * intros Hin. apply Hc.
        rewrite <- (firstn_skipn (List.length value - 3) value).
        apply in_or_app. now left.
Qed.

Lemma indian_grouping_separates_every_leading_character_witness :
  Format.indian_number_format_else (list_ascii_of_string "1234567")
  = list_ascii_of_string "1,2,3,4,567"
  /\ Format.indian_number_format_else (list_ascii_of_string "inf")
     = list_ascii_of_string "inf".
Proof.
  split.
  - destruct (indian_grouping_separates_every_leading_character
                (list_ascii_of_string "1234567")) as (_ & H & _).
    destruct H as [H _]; [simpl; lia | exact H].
  - destruct (indian_grouping_separates_every_leading_character
                (list_ascii_of_string "inf")) as (H & _).
    apply H. simpl. lia.
Defined.

(** ** The menu *)

Module MenuFacts.

Import Sqlite Spec.

Lemma menu_ok_stop n b out e :
  menu_ok n b (Menu.mk_result b out (Menu.raised e)).
Proof.
  unfold menu_ok. simpl. split; [apply after_none|].
  split; [tauto | discriminate].
Qed.

Lemma menu_ok_with_output n b out r :
  menu_ok n b r -> menu_ok n b (Menu.with_output out r).
Proof. intros H. exact H. Qed.

Lemma menu_ok_weaken k n b r :
  menu_ok k b r -> (k <= n)%nat -> menu_ok n b r.
Proof.
  intros (H1 & H2 & H3) Hk. split; [exact H1|]. split; [exact H2|].
  intros v rest E. specialize (H3 v rest E). lia.
Qed.

(** A call of a method, then the rest of the loop. *)
Lemma menu_ok_invoke sha hmac key n k c b out out' r' :
  menu_ok k (Bank.self (Bank.invoke sha hmac key c b)) r' ->
  (k <= n)%nat ->
  menu_ok n b
    match Bank.completed (Bank.invoke sha hmac key c b) with
    | Bank.raised e =>
        Menu.mk_result (Bank.self (Bank.invoke sha hmac key c b)) out
                       (Menu.raised (Menu.method_raised e))
    | Bank.returned _ => Menu.with_output out' r'
    end.
Proof.
  intros (H1 & H2 & H3) Hk.
  pose proof (StoreFacts.Bank_invoke_statements sha hmac key c b) as Hs.
  pose proof (SnapshotFacts.preserves_invoke sha hmac key c b) as Hp.
  destruct (Bank.completed (Bank.invoke sha hmac key c b)).
  - unfold menu_ok. simpl. split; [|split].
    + eapply StoreFacts.after_trans; [exact Hs | exact H1].
    + intros H. apply H2, Hp, H.
    + intros v' rest E. specialize (H3 v' rest E). lia.
  - unfold menu_ok. simpl. split; [exact Hs|].
    split; [exact Hp | discriminate].
Qed.

(** [main_menu] on any lines. *)
Lemma main_menu_ok sha hmac key float n :
  forall inputs b,
    (List.length inputs <= n)%nat ->
    menu_ok (List.length inputs) b
            (Menu.main_menu sha hmac key float inputs b).
Proof.
  induction n as [|n IH]; intros inputs b Hn.
  - destruct inputs; [|simpl in Hn; lia].
    simpl. destruct (Bank.current_user b) as [cu|];
      [destruct (Bank.cu_name cu)|]; apply menu_ok_stop.
  - assert (Hrec : forall rest b', (List.length rest < List.length inputs)%nat ->
                     menu_ok (List.length rest) b'
                             (Menu.main_menu sha hmac key float rest b'))
      by (intros rest b' Hr; apply IH; lia).
    assert (Hcall : forall c rest out out',
               (List.length rest < List.length inputs)%nat ->
               menu_ok (List.length inputs) b
                 match Bank.completed (Bank.invoke sha hmac key c b) with
                 | Bank.raised e =>
                     Menu.mk_result (Bank.self (Bank.invoke sha hmac key c b))
                       out (Menu.raised (Menu.method_raised e))
                 | Bank.returned _ =>
                     Menu.with_output out'
                       (Menu.main_menu sha hmac key float rest
                          (Bank.self (Bank.invoke sha hmac key c b)))
                 end).
    { intros c rest out out' Hr.
      apply (menu_ok_invoke sha hmac key _ (List.length rest));
        [now apply Hrec | lia]. }
    assert (Hskip : forall rest out,
               (List.length rest < List.length inputs)%nat ->
               menu_ok (List.length inputs) b
                 (Menu.with_output out
                    (Menu.main_menu sha hmac key float rest b))).
    { intros rest out Hr. apply menu_ok_with_output.
      apply (menu_ok_weaken (List.length rest)); [now apply Hrec | lia]. }
    clear IH Hrec.
    destruct inputs as [|[t0 choice] rest].
    { simpl. destruct (Bank.current_user b) as [cu|];
        [destruct (Bank.cu_name cu)|]; apply menu_ok_stop. }
    cbn [Menu.main_menu].
    destruct (Bank.current_user b) as [cu|] eqn:Ecu.
    + destruct (Bank.cu_name cu) as [name|]; [|apply menu_ok_stop].
      destruct (String.eqb choice "1").
      { destruct rest as [|[t text] rest]; [apply menu_ok_stop|].
        destruct (float text) as [x|]; [|apply menu_ok_stop].
        apply (Hcall (Bank.Deposit t x)). simpl. lia. }
      destruct (String.eqb choice "2").
      { destruct rest as [|[t text] rest]; [apply menu_ok_stop|].
        destruct (float text) as [x|]; [|apply menu_ok_stop].
        apply (Hcall (Bank.Withdraw t x)). simpl. lia. }
      destruct (String.eqb choice "3").
      { apply (Hcall Bank.Get_account_balance). simpl. lia. }
      destruct (String.eqb choice "4").
      { apply (Hcall Bank.Display_account_details). simpl. lia. }
      destruct (String.eqb choice "5").
      { destruct rest as [|[t1 a] rest]; [apply menu_ok_stop|].
        destruct rest as [|[t text] rest]; [apply menu_ok_stop|].
        destruct (float text) as [x|]; [|apply menu_ok_stop].
        apply (Hcall (Bank.Transfer_money t a x)). simpl. lia. }
      destruct (String.eqb choice "6").
      { apply (Hcall Bank.Get_transaction_history). simpl. lia. }
      destruct (String.eqb choice "7").
      { destruct rest as [|[t confirm] rest]; [apply menu_ok_stop|].
        apply (Hcall (Bank.Delete_account confirm)). simpl. lia. }
      destruct (String.eqb choice "8").
      { unfold menu_ok. simpl. split; [apply after_none|]. split.
        - apply SnapshotFacts.preserves_logout.
        - intros v r [= _ <-]. lia. }
      apply Hskip. simpl. lia.
    + destruct (String.eqb choice "1").
      { destruct rest as [|[t1 u] rest]; [apply menu_ok_stop|].
        destruct rest as [|[t pw] rest]; [apply menu_ok_stop|].
        apply (Hcall (Bank.Login t u pw)). simpl. lia. }
      destruct (String.eqb choice "2").
      { destruct rest as [|[t1 u] rest]; [apply menu_ok_stop|].
        destruct rest as [|[t2 pw] rest]; [apply menu_ok_stop|].
        destruct rest as [|[t3 nm] rest]; [apply menu_ok_stop|].
        destruct rest as [|[t text] rest]; [apply menu_ok_stop|].
        destruct (float text) as [x|]; [|apply menu_ok_stop].
        apply (Hcall (Bank.Register t u pw nm x)). simpl. lia. }
      destruct (String.eqb choice "3").
      { unfold menu_ok. simpl. split; [apply after_none|]. split; [tauto|].
        intros v r [= _ <-]. lia. }
      apply Hskip. simpl. lia.
Qed.

(** The loop of [__main__] does not need more turns than there are lines,
    plus one. *)
Lemma main_loop_ok sha hmac key float turns :
  forall inputs b,
    (List.length inputs < turns)%nat ->
    exists r,
      Menu.main_loop sha hmac key float turns inputs b = Some r
      /\ menu_ok (S (List.length inputs)) b r.
Proof.
  induction turns as [|turns IH]; intros inputs b Ht; [lia|].
  simpl.
  pose proof (main_menu_ok sha hmac key float (List.length inputs) inputs b
                (Nat.le_refl _)) as Hm.
  destruct (Menu.ended (Menu.main_menu sha hmac key float inputs b))
    as [[|] rest|e] eqn:E.
  - destruct Hm as (H1 & H2 & H3).
    assert (Hr : (List.length rest < List.length inputs)%nat)
      by now apply (H3 true).
    destruct (IH rest (Menu.bank (Menu.main_menu sha hmac key float inputs b)))
      as (r & Er & G1 & G2 & G3); [lia|].
    rewrite Er. simpl. eexists. split; [reflexivity|].
    unfold menu_ok. simpl. split; [|split].
    + eapply StoreFacts.after_trans; [exact H1 | exact G1].
    + intros H. apply G2, H2, H.
    + intros v r' Ev. specialize (G3 v r' Ev). lia.
  - eexists. split; [reflexivity|].
    apply (menu_ok_weaken (List.length inputs)); [exact Hm | lia].
  - eexists. split; [reflexivity|].
    apply (menu_ok_weaken (List.length inputs)); [exact Hm | lia].
Qed.

End MenuFacts.

(** X15.  Whatever is typed at the console, a NaN or an infinity among the
    amounts included: [main_menu] keeps the invariant of the console (the
    balance held in the session is the stored balance up to the form that
    the store keeps, a NaN as [NULL] and -0.0 as 0.0; nothing is left
    uncommitted; every user has an account) and hands back fewer lines than it was given when it
    returns; the loop of [__main__] therefore ends within as many calls
    of [main_menu] as there are lines, plus one, by the exit, by the end
    of the input or by an exception, and the file it leaves satisfies the
    constraints of the schema, and has transaction ids that grow, if the
    file it started on did. *)
Theorem console_menu_keeps_the_invariants
    sha256_hexdigest hmac_sha256 SECRET_KEY float inputs :
  (forall b,
      let r := Menu.main_menu sha256_hexdigest hmac_sha256 SECRET_KEY float
                              inputs b in
      (console_invariant b -> console_invariant (Menu.bank r))
      /\ (forall v rest,
             Menu.ended r = Menu.returned v rest ->
             (List.length rest < List.length inputs)%nat))
  /\ (forall f,
         exists d out e,
           Menu.main sha256_hexdigest hmac_sha256 SECRET_KEY float inputs f
           = Some (d, out, e)
           /\ (wellformed f ->
               wellformed d /\ (sequence_covers f -> sequence_covers d))).
Proof.
  split.
  - intros b r.
    destruct (MenuFacts.main_menu_ok sha256_hexdigest hmac_sha256 SECRET_KEY
                float (List.length inputs) inputs b (Nat.le_refl _))
      as (_ & H2 & H3).
    split; assumption.
  - intros f.
    destruct (MenuFacts.main_loop_ok sha256_hexdigest hmac_sha256 SECRET_KEY
                float (S (List.length inputs)) inputs (Bank.__init__ f)
                (Nat.lt_succ_diag_r _)) as (r & Er & H1 & H2 & _).
    exists (Sqlite.close (Bank.conn (Menu.bank r))), (Menu.output r),
      (Menu.ended r).
    split; [unfold Menu.main; now rewrite Er|].
    intros [Hc Hu].
    destruct (H2 (SnapshotFacts.init_invariant f Hu)) as (_ & Hclean & _).
    unfold Sqlite.close. rewrite <- (SnapshotFacts.view_clean _ Hclean).
    split.
    + apply (StoreFacts.after_invariant statements wellformed _ _
               WellformedFacts.wellformed_statements H1).
      now split.
    + apply (StoreFacts.after_invariant statements sequence_covers _ _
               WellformedFacts.sequence_covers_statements H1).
Qed.

Lemma console_menu_keeps_the_invariants_witness :
  exists d out e,
    Menu.main Scenario.sha256_hexdigest Scenario.hmac_sha256
      Scenario.SECRET_KEY Examples.float Examples.typed Scenario.bank_db
    = Some (d, out, e)
    /\ wellformed d.
Proof.
  destruct (console_menu_keeps_the_invariants Scenario.sha256_hexdigest
              Scenario.hmac_sha256 Scenario.SECRET_KEY Examples.float
              Examples.typed) as [_ H].
  destruct (H Scenario.bank_db) as (d & out & e & E & Hw).
  exists d, out, e. split; [exact E|].
  apply Hw. split.
  - constructor; repeat constructor; simpl; intuition discriminate.
  - intros r [<-|[<-|[]]]; discriminate.
Defined.

(** The session of the example: 500.00 in, 1000.00 to B, then the exit,
    which leaves one typed line unread. *)
Example typed_session_result :
  match Menu.main Scenario.sha256_hexdigest Scenario.hmac_sha256
          Scenario.SECRET_KEY Examples.float Examples.typed Scenario.bank_db
  with
  | Some (d, _, e) =>
      balance_of d Scenario.A = Some (REAL 9500)
      /\ balance_of d Scenario.B = Some (REAL 1000)
      /\ e = Menu.returned false [(1700000210, "never read")]
  | None => False
  end.
Proof. vm_compute. repeat split. Qed.

(** The same menu with 'nan' typed as the amount of a withdrawal: the
    withdrawal is reported as done, the balance shown next is NaN, and the
    file holds [NULL] for A. *)
Example typed_nan_result :
  match Menu.main Scenario.sha256_hexdigest Scenario.hmac_sha256
          Scenario.SECRET_KEY Examples.float Examples.typed_nan
          Scenario.bank_db
  with
  | Some (d, out, e) =>
      balance_of d Scenario.A = Some NULL
      /\ In (Menu.said (Bank.Withdrawn_successfully nan nan)) out
      /\ In (Menu.said (Bank.Account_Balance nan)) out
      /\ e = Menu.returned false []
  | None => False
  end.
Proof. vm_compute. intuition. Qed.

(** X16.  In a console process that is the only writer of the store,
    started on a store in which every user has an account, after any
    sequence of calls: when the session holds a float as its balance,
    [get_account_balance] prints that float, formatted with two decimals,
    [display_account_details] prints it after the name and the account
    number of the session, and the accounts table holds it for the account
    of the session in the form the store keeps: [NULL] when it is a NaN,
    0.0 when it is -0.0. *)
Theorem console_shows_the_balance_it_holds
    sha256_hexdigest hmac_sha256 SECRET_KEY calls f :
  users_have_accounts f ->
  let s := Bank.run sha256_hexdigest hmac_sha256 SECRET_KEY calls
                    (Bank.__init__ f) in
  forall cu n b,
    Bank.current_user s = Some cu ->
    Bank.cu_name cu = Some n ->
    Bank.cu_balance cu = Some (REAL b) ->
    option_map stored_form
      (balance_of (file (Bank.conn s)) (Bank.cu_account_number cu))
    = Some (store b)
    /\ Bank.get_account_balance s
       = Bank.mk_outcome s [Bank.Account_Balance b] (Bank.returned None)
    /\ Bank.display_account_details s
       = Bank.mk_outcome s
           [Bank.Account_Details; Bank.Account_Holder n;
            Bank.Account_Number (Bank.cu_account_number cu); Bank.Balance b]
           (Bank.returned None).
Proof.
  intros Hf s cu n b Hcu Hn Hb.
  pose proof (SnapshotFacts.console_snapshot_corresponds
                sha256_hexdigest hmac_sha256 SECRET_KEY calls f Hf) as H3.
  split; [now apply (H3 cu (REAL b))|].
  unfold Bank.get_account_balance, Bank.display_account_details,
    Bank.authenticate.
  rewrite Hcu, Hn, Hb. split; reflexivity.
Qed.

Lemma console_shows_the_balance_it_holds_witness :
  Bank.printed
    (Bank.get_account_balance
       (Bank.run Scenario.sha256_hexdigest Scenario.hmac_sha256
          Scenario.SECRET_KEY Scenario.a_console_session
          (Bank.__init__ Scenario.bank_db)))
  = [Bank.Account_Balance 9500].
Proof.
  assert (Hf : users_have_accounts Scenario.bank_db).
  { intros u [<-|[<-|[]]]; discriminate. }
  destruct (console_shows_the_balance_it_holds Scenario.sha256_hexdigest
              Scenario.hmac_sha256 Scenario.SECRET_KEY
              Scenario.a_console_session Scenario.bank_db Hf
              (Scenario.test_dict 9500) "Test User" 9500%float)
    as (_ & H & _).
  - vm_compute. reflexivity.
  - reflexivity.
  - reflexivity.
  - now rewrite H.
Defined.

Lemma transfer_money_in_open_transaction now to amt s cu b d :
  Bank.current_user s = Some cu ->
  Bank.cu_balance cu = Some (REAL b) ->
  rate_gate_open now s (Bank.cu_account_number cu) ->
  to <> Bank.cu_account_number cu ->
  select_account (view (Bank.conn s)) to <> None ->
  float_gt amt b = false ->
  pending (Bank.conn s) = Some d ->
  Bank.transfer_money now to amt s
  = Bank.mk_outcome (past_rate_gate now s cu) []
                    (Bank.raised (sqlite3_Error OperationalError)).
Proof.
  intros Hcu Hb Hopen Hne Hto Hle Hp.
  unfold Bank.transfer_money, Bank.authenticate. rewrite Hcu.
  rewrite (TransferFacts.rate_limiter_open _ _ _ _ Hcu Hopen).
  unfold Bank.transfer_money_def.
  cbn [Bank.current_user Bank.conn past_rate_gate]. rewrite Hcu.
  apply String.eqb_neq in Hne. rewrite Hne.
  destruct (select_account (view (Bank.conn s)) to); [|contradiction].
  rewrite Hb, Hle.
  unfold begin_transaction, in_transaction. rewrite Hp.
  unfold Bank.set_conn, past_rate_gate. cbn. now destruct s.
Qed.

(** X17.  The account number of a registration is the clock in whole
    seconds, so a registration under a new username at a clock whose
    account number is already in the accounts table fails on the primary
    key and adds no row.  The web front-end answers with the uncaught
    [IntegrityError]; the console prints 'An error occurred', returns
    [None], and leaves open the transaction that the failed [INSERT]
    opened.  As long as the connection is in that state, a
    [transfer_money] that passes its tests raises [OperationalError] at
    its [BEGIN TRANSACTION] and writes nothing; a deposit or a withdrawal
    that succeeds commits and so closes the transaction. *)
Theorem registration_collides_on_the_account_number
    sha256_hexdigest now u pw n x f :
  select_user f u = None ->
  select_account f (account_number_at now) <> None ->
  (forall s,
      App.register sha256_hexdigest App.POST now u pw n x f s
      = App.mk_result f s
          (App.internal_server_error (sqlite3_Error IntegrityError)) [])
  /\ (forall s,
         Bank.conn s = connect f ->
         Bank.register sha256_hexdigest now u pw n x s
         = Bank.mk_outcome (Bank.set_conn s (mk_connection f (Some f)))
             [Bank.An_error_occurred (sqlite3_Error IntegrityError)]
             (Bank.returned None))
  /\ (forall s cu held now',
         Bank.conn s = mk_connection f (Some f) ->
         Bank.current_user s = Some cu ->
         Bank.cu_balance cu = Some (REAL held) ->
         rate_gate_open now' s (Bank.cu_account_number cu) ->
         (forall to amt,
             to <> Bank.cu_account_number cu ->
             select_account f to <> None ->
             (amt <=? held)%float = true ->
             let o := Bank.transfer_money now' to amt s in
             Bank.completed o = Bank.raised (sqlite3_Error OperationalError)
             /\ Bank.printed o = []
             /\ Bank.conn (Bank.self o) = mk_connection f (Some f))
         /\ (forall amt,
                (0 <? amt)%float = true ->
                pending (Bank.conn (Bank.self (Bank.deposit now' amt s)))
                = None)
         /\ (forall amt,
                (0 <? amt)%float = true -> (amt <=? held)%float = true ->
                pending (Bank.conn (Bank.self (Bank.withdraw now' amt s)))
                = None)).
Proof.
  intros Hu Ha.
  assert (Hins : insert_account (account_number_at now) n x f
                 = inr IntegrityError).
  { unfold insert_account.
    destruct (select_account f (account_number_at now)); [reflexivity|].
    contradiction. }
  split; [|split].
  - intros s. unfold App.register, try_execute.
    cbn [view connect pending file]. rewrite Hu.
    fold (account_number_at now). now rewrite Hins.
  - intros s Hc.
    unfold Bank.register, Bank.error_handler, Bank.register_def,
      try_execute.
    rewrite Hc. cbn [view connect pending file]. rewrite Hu.
    fold (account_number_at now). now rewrite Hins.
  - intros s cu held now' Hc Hcu Hb Hopen. split; [|split].
    + intros to amt Hne Hto Hle o. subst o.
      rewrite (transfer_money_in_open_transaction now' to amt s cu held f);
        try assumption.
      * cbn. rewrite Hc. repeat split.
      * rewrite Hc. exact Hto.
      * now apply FloatFacts.float_gt_false.
      * now rewrite Hc.
    + intros amt Hpos.
      destruct (ConsoleFacts.Bank_deposit_ok now' amt s cu held Hcu Hb Hopen
                  Hpos) as (_ & _ & ->).
      reflexivity.
    + intros amt Hpos Hle.
      destruct (ConsoleFacts.Bank_withdraw_ok now' amt s cu held Hcu Hb Hopen
                  (FloatFacts.float_gt_false _ _ Hle)
                  (FloatFacts.float_le_false _ _ Hpos)) as (_ & _ & ->).
      reflexivity.
Qed.

Lemma registration_collides_on_the_account_number_witness :
  App.register Scenario.sha256_hexdigest App.POST (1700000000 + (1 # 3))
    "carol" "pw" "Carol" 25 Scenario.bank_db None
  = App.mk_result Scenario.bank_db None
      (App.internal_server_error (sqlite3_Error IntegrityError)) []
  /\ Bank.completed
       (Bank.transfer_money 1700000100 Scenario.B 1000
          (Bank.self
             (Bank.register Scenario.sha256_hexdigest (1700000000 + (1 # 3))
                "carol" "pw" "Carol" 25
                (Scenario.logged_in Scenario.bank_db 10000))))
     = Bank.raised (sqlite3_Error OperationalError).
Proof.
  assert (Ha : select_account Scenario.bank_db
                 (account_number_at (1700000000 + (1 # 3))) <> None)
    by discriminate.
  destruct (registration_collides_on_the_account_number
              Scenario.sha256_hexdigest (1700000000 + (1 # 3)) "carol" "pw"
              "Carol" 25 Scenario.bank_db eq_refl Ha)
    as (Hweb & Hconsole & Hopen).
  split.
  - apply Hweb.
  - rewrite (Hconsole (Scenario.logged_in Scenario.bank_db 10000) eq_refl).
    destruct (Hopen (Bank.set_conn (Scenario.logged_in Scenario.bank_db 10000)
                       (mk_connection Scenario.bank_db
                                      (Some Scenario.bank_db)))
                    (Scenario.test_dict 10000) 10000%float 1700000100
                    eq_refl eq_refl eq_refl I) as (H & _).
    apply (H Scenario.B 1000%float); [discriminate | discriminate | reflexivity].
Defined.

(** X18.  A withdrawal of a positive amount that passes the test of the
    balance takes the amount, in binary64, from the stored balance of the
    session's account and from no other (the store keeps a NaN result as
    [NULL] and -0.0 as 0.0), and appends one row with that
    amount and no related account, of type 'Withdrawal' in the web
    front-end and 'Withdraw' in the console.  The web front-end tests the
    stored balance, the console the balance held in its session. *)
Theorem withdraw_books_the_amount now x :
  (0 <? x)%float = true ->
  (forall f i b,
      let a := App.session_account_number i in
      balance_of f a = Some (REAL b) ->
      (x <=? b)%float = true ->
      let r := App.withdraw now x f (Some i) in
      App.flashed r = [App.Successfully_withdrew x]
      /\ App.db r = withdrawn now a "Withdrawal" x f
      /\ balance_of (App.db r) a = Some (store (b - x))
      /\ (forall k, k <> a -> balance_of (App.db r) k = balance_of f k)
      /\ transactions (App.db r)
         = (transactions f
              ++ [mk_transaction (sqlite_sequence f + 1) a "Withdrawal"
                                 (REAL x) None (CURRENT_TIMESTAMP now)])%list)
  /\ (forall s cu held,
         let a := Bank.cu_account_number cu in
         Bank.current_user s = Some cu ->
         Bank.cu_balance cu = Some (REAL held) ->
         rate_gate_open now s a ->
         (x <=? held)%float = true ->
         let o := Bank.withdraw now x s in
         let d := view (Bank.conn s) in
         Bank.printed o = [Bank.Withdrawn_successfully x (held - x)]
         /\ Bank.conn (Bank.self o) = connect (withdrawn now a "Withdraw" x d)
         /\ option_map Bank.cu_balance (Bank.current_user (Bank.self o))
            = Some (Some (REAL (held - x)))
         /\ (forall sb, balance_of d a = Some (REAL sb) ->
                        balance_of (withdrawn now a "Withdraw" x d) a
                        = Some (store (sb - x)))
         /\ (forall k, k <> a ->
                       balance_of (withdrawn now a "Withdraw" x d) k
                       = balance_of d k)
         /\ transactions (withdrawn now a "Withdraw" x d)
            = (transactions d
                 ++ [mk_transaction (sqlite_sequence d + 1) a "Withdraw"
                                    (REAL x) None (CURRENT_TIMESTAMP now)])%list).
Proof.
  intros Hx.
  pose proof (FloatFacts.float_le_false _ _ Hx) as Hpos.
  pose proof (SqliteFacts.store_positive _ Hx) as Hbind.
  split.
  - intros f i b a Hb Hle r.
    destruct (LedgerFacts.App_withdraw_ok now x f i b Hb Hpos
                (FloatFacts.float_gt_false _ _ Hle))
      as (H1 & _ & H3).
    fold r in H1, H3. fold a in H3. rewrite H3.
    split; [exact H1|]. split; [reflexivity|]. split; [|split].
    + rewrite (LedgerFacts.balance_after_withdrawal now a _ x f _ Hb).
      now rewrite SqliteFacts.keep_minus.
    + intros k Hk. now apply LedgerFacts.balance_of_withdrawn_other.
    + simpl. now rewrite Hbind.
  - intros s cu held a Hcu Hb Hopen Hle o d.
    destruct (ConsoleFacts.Bank_withdraw_ok now x s cu held Hcu Hb Hopen
                (FloatFacts.float_gt_false _ _ Hle) Hpos)
      as (_ & H2 & H3).
    fold o in H2, H3. rewrite H3.
    split; [exact H2|]. split; [reflexivity|]. split; [reflexivity|].
    split; [|split].
    + intros sb Hsb.
      rewrite (LedgerFacts.balance_after_withdrawal now a _ x d _ Hsb).
      now rewrite SqliteFacts.keep_minus.
    + intros k Hk. now apply LedgerFacts.balance_of_withdrawn_other.
    + simpl. now rewrite Hbind.
Qed.

Lemma withdraw_books_the_amount_witness :
  balance_of (App.db (App.withdraw 1700000100 300 Scenario.bank_db
                        (Some Scenario.test_session))) Scenario.A
  = Some (store (10000 - 300))
  /\ Bank.printed (Bank.withdraw 1700000100 300
                     (Scenario.logged_in Scenario.bank_db 10000))
     = [Bank.Withdrawn_successfully 300 (10000 - 300)].
Proof.
  destruct (withdraw_books_the_amount 1700000100 300 eq_refl)
    as [Hweb Hconsole].
  split.
  - apply (Hweb Scenario.bank_db Scenario.test_session 10000%float
             eq_refl eq_refl).
  - apply (Hconsole (Scenario.logged_in Scenario.bank_db 10000)
                    (Scenario.test_dict 10000) 10000%float
                    eq_refl eq_refl I eq_refl).
Defined.
